(** * Operation execution core of the MongoDB Node.js driver

    A shallow embedding of [executeOperation] and
    [executeWithServerSelection] (with its inner [retryOperation]) from
    the driver's operation-execution module, together with the
    wire-version table of [src/cmap/wire_protocol/constants.ts] and the
    argument marshalling of the retryable-writes spec runner
    ([generateArguments] and [convertBulkWriteOperation], in [SpecRunner]).

    The module is written in continuation-passing style: every
    collaborator ([topology.selectServer], [operation.execute],
    [session.endSession]) reports through a callback.  The embedding keeps
    that shape.  A computation is a function from the mutable state (the
    session object, the operation's options bag, call counters) to the
    list of observable events it produced, the new state, and a completion
    which is either normal or a JavaScript exception.  Collaborators answer
    from an explicit environment, so every theorem below holds for every
    behaviour of the topology, the operation and the session pool.

    Callbacks are run before the collaborator's call returns.  This is the
    schedule on which the [try] block of [executeOperation] can observe an
    exception raised further down the pipeline.  The caller's callback is
    reached through [maybePromise], as in the source: the statements about
    [executeOperation] speak of what the caller receives, those about the
    [try] statement and the inner state machine of what they hand to the
    callback they are given. *)

From Stdlib Require Import ZArith List String Bool Lia DecimalString.
Import ListNotations.
Local Open Scope string_scope.
Local Open Scope Z_scope.
Local Open Scope list_scope.

(** ** Wire versions ([src/cmap/wire_protocol/constants.ts]) *)

Module MONGODB_WIRE_VERSION.
Definition UNKNOWN : Z := 0.
Definition RELEASE_2_4_AND_BEFORE : Z := 0.
Definition AGG_RETURNS_CURSORS : Z := 1.
Definition BATCH_COMMANDS : Z := 2.
Definition RELEASE_2_7_7 : Z := 3.
Definition FIND_COMMAND : Z := 4.
Definition COMMANDS_ACCEPT_WRITE_CONCERN : Z := 5.
Definition SUPPORTS_OP_MSG : Z := 6.
Definition REPLICA_SET_TRANSACTIONS : Z := 7.
Definition SHARDED_TRANSACTIONS : Z := 8.
Definition RESUMABLE_INITIAL_SYNC : Z := 9.
Definition WIRE_VERSION_47 : Z := 10.
Definition WIRE_VERSION_48 : Z := 11.
Definition WIRE_VERSION_49 : Z := 12.
Definition WIRE_VERSION_50 : Z := 13.
Definition WIRE_VERSION_51 : Z := 14.
End MONGODB_WIRE_VERSION.

Definition MIN_SUPPORTED_WIRE_VERSION : Z := MONGODB_WIRE_VERSION.SUPPORTS_OP_MSG.
Definition MAX_SUPPORTED_WIRE_VERSION : Z := MONGODB_WIRE_VERSION.WIRE_VERSION_51.

(** ** Errors *)

(** The classes of the driver's error hierarchy that the module names.
    Every class but [PlainError] is a subclass of [MongoError];
    [PlainError] stands for any other thrown value (a [TypeError], say). *)
Inductive ErrorClass : Type :=
| MongoErrorC
| MongoServerErrorC
| MongoNetworkErrorC
| MongoRuntimeErrorC
| MongoCompatibilityErrorC
| MongoExpiredSessionErrorC
| MongoTransactionErrorC
| MongoUnexpectedServerResponseErrorC
| PlainError.

#[warnings="-register-all"]
Inductive MongoErr : Type :=
| mkError (class : ErrorClass) (message : string) (code : option Z)
    (errorLabels : list string) (originalError : option MongoErr).

Definition class (e : MongoErr) : ErrorClass :=
  match e with mkError c _ _ _ _ => c end.
Definition message (e : MongoErr) : string :=
  match e with mkError _ m _ _ _ => m end.
Definition code (e : MongoErr) : option Z :=
  match e with mkError _ _ c _ _ => c end.
Definition errorLabels (e : MongoErr) : list string :=
  match e with mkError _ _ _ l _ => l end.
Definition originalError (e : MongoErr) : option MongoErr :=
  match e with mkError _ _ _ _ o => o end.

(** Modelled from the spec: the error classes are not among the sources.
    The specification's error carries one server message, and
    [error.errmsg] reads it: it is the error's message under the name the
    server gives it. *)
Definition errmsg (e : MongoErr) : string := message e.

(** [error instanceof MongoError] *)
Definition instanceofMongoError (e : MongoErr) : bool :=
  match class e with PlainError => false | _ => true end.

(** [error instanceof MongoNetworkError] *)
Definition instanceofMongoNetworkError (e : MongoErr) : bool :=
  match class e with MongoNetworkErrorC => true | _ => false end.

(** [new MongoXxxError(message)]: an error of the given class that carries
    only a message. *)
Definition newError (c : ErrorClass) (msg : string) : MongoErr :=
  mkError c msg None [] None.

(** Modelled from the spec: [MONGODB_ERROR_CODES] is declared in the
    driver's error module, which is not among the sources; the numeric
    value of [IllegalOperation] is the one the specification gives for the
    legacy storage-engine refusal ([code=20]). *)
Definition IllegalOperation : Z := 20.

Definition MMAPv1_RETRY_WRITES_ERROR_CODE : Z := IllegalOperation.
Definition MMAPv1_RETRY_WRITES_ERROR_MESSAGE : string :=
  "This MongoDB deployment does not support retryable writes. Please add retryWrites=false to your connection string.".

(** [pattern] occurs at the start of [s]. *)
Fixpoint startsWith (pattern s : string) : bool :=
  match pattern, s with
  | EmptyString, _ => true
  | String a p, String b t => Ascii.eqb a b && startsWith p t
  | String _ _, EmptyString => false
  end.

(** [pattern] occurs somewhere in [s]: what [/pattern/.test(s)] decides
    for a pattern without metacharacters. *)
Fixpoint includes (pattern s : string) : bool :=
  startsWith pattern s ||
  match s with
  | EmptyString => false
  | String _ t => includes pattern t
  end.

(** [/Transaction numbers/.test(originalError.errmsg)] *)
Definition testTransactionNumbers (m : string) : bool :=
  includes "Transaction numbers" m.

(** [originalError.code === MMAPv1_RETRY_WRITES_ERROR_CODE] *)
Definition codeIs (e : MongoErr) (c : Z) : bool :=
  match code e with
  | Some k => Z.eqb k c
  | None => false
  end.

(** ** Read preferences, servers, sessions, operations, topology *)

Inductive ReadPreferenceMode : Type :=
| primaryMode | primaryPreferredMode | secondaryMode
| secondaryPreferredMode | nearestMode.

Definition modeName (m : ReadPreferenceMode) : string :=
  match m with
  | primaryMode => "primary"
  | primaryPreferredMode => "primaryPreferred"
  | secondaryMode => "secondary"
  | secondaryPreferredMode => "secondaryPreferred"
  | nearestMode => "nearest"
  end.

Module ReadPreference.
Record t : Type := make { mode : ReadPreferenceMode }.
Definition primary : t := make primaryMode.
Definition primaryPreferred : t := make primaryPreferredMode.
Definition secondary : t := make secondaryMode.
(** Modelled from the spec: [ReadPreference.equals] belongs to a module
    that is not among the sources; the specification speaks of the read
    preference being, or not being, [primary], which is a comparison of
    modes. *)
Definition equals (a b : t) : bool :=
  match mode a, mode b with
  | primaryMode, primaryMode => true
  | primaryPreferredMode, primaryPreferredMode => true
  | secondaryMode, secondaryMode => true
  | secondaryPreferredMode, secondaryPreferredMode => true
  | nearestMode, nearestMode => true
  | _, _ => false
  end.
End ReadPreference.

Record Server : Type := mkServer {
  address : string;
  descriptionMaxWireVersion : Z
}.

(** Modelled from the spec: [maxWireVersion] is imported from the
    driver's utilities, which are not among the sources.  A server's
    description carries its max wire version; for an absent server nothing
    is known, which the wire-version table writes as [UNKNOWN]. *)
Definition maxWireVersion (server : option Server) : Z :=
  match server with
  | Some s => descriptionMaxWireVersion s
  | None => MONGODB_WIRE_VERSION.UNKNOWN
  end.

Definition supportsRetryableReads (server : option Server) : bool :=
  6 <=? maxWireVersion server.

(** A [Symbol()] is rendered as the number of symbols minted before it. *)
Definition Symbol : Type := nat.

Record ClientSession : Type := mkSession {
  owner : option Symbol;
  explicit : bool;
  hasEnded : bool;
  snapshotEnabled : bool;
  inTransaction : bool;
  isPinned : bool;
  isCommitted : bool;
  txnNumber : Z
}.

Inductive Aspect : Type :=
| READ_OPERATION | WRITE_OPERATION | RETRYABLE
| CURSOR_CREATING | CURSOR_ITERATING.

Definition Aspect_eqb (a b : Aspect) : bool :=
  match a, b with
  | READ_OPERATION, READ_OPERATION => true
  | WRITE_OPERATION, WRITE_OPERATION => true
  | RETRYABLE, RETRYABLE => true
  | CURSOR_CREATING, CURSOR_CREATING => true
  | CURSOR_ITERATING, CURSOR_ITERATING => true
  | _, _ => false
  end.

Record AbstractOperation : Type := mkOperation {
  aspects : list Aspect;
  readPreference : option ReadPreference.t;
  opSession : option ClientSession;
  opServer : option Server;
  bypassPinningCheck : bool;
  canRetryRead : bool;
  canRetryWrite : bool;
  trySecondaryWrite : bool
}.

Definition hasAspect (operation : AbstractOperation) (a : Aspect) : bool :=
  existsb (Aspect_eqb a) (aspects operation).

(** The topology as the module reads it: [hasSessionSupport()],
    [capabilities.supportsSnapshotReads], [commonWireVersion] and the two
    options [s.options.retryReads] and [s.options.retryWrites], each of
    which may be left unset. *)
Record Topology : Type := mkTopology {
  hasSessionSupport : bool;
  supportsSnapshotReads : bool;
  commonWireVersion : option Z;
  retryReads : option bool;
  retryWrites : option bool
}.

Inductive ServerSelector : Type :=
| byReadPreference (rp : ReadPreference.t)
| sameServerSelector (description : option Server)
| secondaryWritableServerSelector (wireVersion : option Z)
    (rp : ReadPreference.t).

(** ** The execution monad *)

Section Core.

Context {TResult : Type}.

(** What an execution does that a collaborator or the caller can see. *)
Inductive Event : Type :=
| SelectServer (selector : ServerSelector)
| StartSession (owner : Symbol)
| Unpin (force : bool)
| IncrementTransactionNumber
| Execute (server : Server) (transactionNumber : option Z)
| EndSession
| Callback (error : option MongoErr) (result : option TResult).

(** The objects the module mutates: the session in use (the caller's or
    the implicit one; absent when the topology has no session support),
    the marker [operation.options.willRetryWrite], and the numbers of
    [selectServer], [execute] and [Symbol] calls made so far. *)
Record State : Type := mkState {
  session : option ClientSession;
  willRetryWriteOption : bool;
  selections : nat;
  attempts : nat;
  symbols : nat
}.

Inductive Completion (A : Type) : Type :=
| Normal (a : A)
| Thrown (e : MongoErr).
Arguments Normal {A} a.
Arguments Thrown {A} e.

Definition M (A : Type) : Type := State -> list Event * State * Completion A.

Definition ret {A : Type} (a : A) : M A := fun st => ([], st, Normal a).

Definition bind {A B : Type} (m : M A) (k : A -> M B) : M B :=
  fun st =>
    match m st with
    | (t1, st1, Normal a) =>
        match k a st1 with
        | (t2, st2, c) => (t1 ++ t2, st2, c)
        end
    | (t1, st1, Thrown e) => (t1, st1, Thrown e)
    end.

Definition throw {A : Type} (e : MongoErr) : M A := fun st => ([], st, Thrown e).

(** [try { body } catch (error) { handler }] *)
Definition tryCatch (body : M unit) (handler : MongoErr -> M unit) : M unit :=
  fun st =>
    match body st with
    | (t1, st1, Normal a) => (t1, st1, Normal a)
    | (t1, st1, Thrown e) =>
        match handler e st1 with
        | (t2, st2, c) => (t1 ++ t2, st2, c)
        end
    end.

Definition getSession : M (option ClientSession) :=
  fun st => ([], st, Normal (session st)).
Definition setSession (s : option ClientSession) : M unit :=
  fun st =>
    ([], mkState s (willRetryWriteOption st) (selections st) (attempts st)
           (symbols st), Normal tt).

Notation "x <- m ;; k" := (bind m (fun x => k))
  (at level 61, m at next level, right associativity).
Notation "m ;; k" := (bind m (fun _ => k))
  (at level 61, right associativity).

(** ** Collaborators *)

Inductive SelectOutcome : Type :=
| SelectThrows (e : MongoErr)
| SelectCalls (error : option MongoErr) (server : option Server).

Inductive ExecuteOutcome : Type :=
| ExecuteThrows (e : MongoErr)
| ExecuteCalls (error : option MongoErr) (result : option TResult).

(** Everything the module consumes and does not define.  The [n]-th call
    of [topology.selectServer] and of [operation.execute] answers
    [selectReply n] and [executeReply n]: either the call throws, or it
    runs its callback with the given arguments.
    [shouldCheckForSessionSupport()] answers with the successive elements
    of [sessionSupportChecks] and with [false] once they are used up.
    [isRetryableWriteError], [isRetryableReadError] (error module) and
    [supportsRetryableWrites] (utilities) are imported from modules that
    are not among the sources and are left arbitrary.  The session object
    changes only through the calls this module makes on it. *)
Record World : Type := mkWorld {
  sessionSupportChecks : list bool;
  selectReply : nat -> SelectOutcome;
  executeReply : nat -> ExecuteOutcome;
  endSessionReply : option MongoErr;
  pooledTxnNumber : Z;
  isRetryableWriteError : MongoErr -> Z -> bool;
  isRetryableReadError : MongoErr -> bool;
  supportsRetryableWrites : option Server -> bool
}.

Definition Continuation : Type := option MongoErr -> option TResult -> M unit.

Variable W : World.

(** [topology.selectServer(selector, options, callback)] *)
Definition selectServer (selector : ServerSelector)
    (callback : option MongoErr -> option Server -> M unit) : M unit :=
  fun st =>
    let st1 := mkState (session st) (willRetryWriteOption st)
                 (S (selections st)) (attempts st) (symbols st) in
    match selectReply W (selections st) with
    | SelectThrows e => ([SelectServer selector], st1, Thrown e)
    | SelectCalls error server =>
        match callback error server st1 with
        | (t, st2, c) => (SelectServer selector :: t, st2, c)
        end
    end.

(** [operation.execute(server, session, callback)] *)
Definition execute (server : Server) (callback : Continuation) : M unit :=
  fun st =>
    let st1 := mkState (session st) (willRetryWriteOption st)
                 (selections st) (S (attempts st)) (symbols st) in
    let ev := Execute server (option_map txnNumber (session st)) in
    match executeReply W (attempts st) with
    | ExecuteThrows e => ([ev], st1, Thrown e)
    | ExecuteCalls error result =>
        match callback error result st1 with
        | (t, st2, c) => (ev :: t, st2, c)
        end
    end.

(** Modelled from the spec: the session class is not among the sources.
    [session.incrementTransactionNumber()] adds one to the session's
    transaction number. *)
Definition incrementTransactionNumber : M unit :=
  fun st =>
    match session st with
    | Some s =>
        ([IncrementTransactionNumber],
         mkState
           (Some (mkSession (owner s) (explicit s) (hasEnded s)
                    (snapshotEnabled s) (inTransaction s) (isPinned s)
                    (isCommitted s) (txnNumber s + 1)))
           (willRetryWriteOption st) (selections st) (attempts st)
           (symbols st),
         Normal tt)
    | None => ([], st, Thrown (newError PlainError "TypeError"))
    end.

(** Modelled from the spec: [session.unpin(options)] empties the session's
    pinned-server slot. *)
Definition unpin (force : bool) : M unit :=
  fun st =>
    match session st with
    | Some s =>
        ([Unpin force],
         mkState
           (Some (mkSession (owner s) (explicit s) (hasEnded s)
                    (snapshotEnabled s) (inTransaction s) false
                    (isCommitted s) (txnNumber s)))
           (willRetryWriteOption st) (selections st) (attempts st)
           (symbols st),
         Normal tt)
    | None => ([], st, Thrown (newError PlainError "TypeError"))
    end.

(** Modelled from the spec: [session.endSession(callback)] marks the
    session as ended and reports the error of ending it, if any. *)
Definition endSession (callback : option MongoErr -> M unit) : M unit :=
  fun st =>
    match session st with
    | Some s =>
        let st1 :=
          mkState
            (Some (mkSession (owner s) (explicit s) true
                     (snapshotEnabled s) (inTransaction s) (isPinned s)
                     (isCommitted s) (txnNumber s)))
            (willRetryWriteOption st) (selections st) (attempts st)
            (symbols st) in
        match callback (endSessionReply W) st1 with
        | (t, st2, c) => (EndSession :: t, st2, c)
        end
    | None => ([], st, Thrown (newError PlainError "TypeError"))
    end.

(** [owner = Symbol(); session = topology.startSession({ owner, explicit: false })].
    Modelled from the spec: the topology mints a live session that carries
    the owner tag; its server session comes from the pool with the
    transaction number it had there. *)
Definition startSession : M Symbol :=
  fun st =>
    let o := symbols st in
    ([StartSession o],
     mkState
       (Some (mkSession (Some o) false false false false false false
                (pooledTxnNumber W)))
       (willRetryWriteOption st) (selections st) (attempts st) (S o),
     Normal o).

(** [operation.options.willRetryWrite = true] *)
Definition setWillRetryWrite : M unit :=
  fun st =>
    ([], mkState (session st) true (selections st) (attempts st) (symbols st),
     Normal tt).

(** The caller's callback: the outermost continuation only records what
    it is given. *)
Definition userCallback : Continuation :=
  fun error result st => ([Callback error result], st, Normal tt).

(** ** The inner state machine: [executeWithServerSelection] *)

(** [topology.s.options.retryReads !== false] *)
Definition retryReadsNotFalse (topology : Topology) : bool :=
  match retryReads topology with
  | Some false => false
  | _ => true
  end.

(** [topology.s.options.retryWrites === true] *)
Definition retryWritesIsTrue (topology : Topology) : bool :=
  match retryWrites topology with
  | Some true => true
  | _ => false
  end.

Definition willRetryRead (topology : Topology) (inTransaction : bool)
    (server : Server) (operation : AbstractOperation) : bool :=
  retryReadsNotFalse topology &&
  negb inTransaction &&
  supportsRetryableReads (Some server) &&
  canRetryRead operation.

Definition willRetryWrite (topology : Topology) (inTransaction : bool)
    (server : Server) (operation : AbstractOperation) : bool :=
  retryWritesIsTrue topology &&
  negb inTransaction &&
  supportsRetryableWrites W (Some server) &&
  canRetryWrite operation.

(** [session?.inTransaction()] made a boolean *)
Definition sessionInTransaction (s : option ClientSession) : bool :=
  match s with
  | Some s => inTransaction s
  | None => false
  end.

Definition transactionReadPreferenceError (rp : ReadPreference.t) : MongoErr :=
  newError MongoTransactionErrorC
    (String.append "Read preference in a transaction must be primary, not: "
       (modeName (ReadPreference.mode rp))).

Definition chooseSelector (topology : Topology) (operation : AbstractOperation)
    (rp : ReadPreference.t) : ServerSelector :=
  if hasAspect operation CURSOR_ITERATING then
    sameServerSelector (opServer operation)
  else if trySecondaryWrite operation then
    secondaryWritableServerSelector (commonWireVersion topology) rp
  else
    byReadPreference rp.

(** [new MongoServerError({ message, errmsg, originalError })] with the
    canonical text for both [message] and [errmsg]. *)
Definition remappedError (originalError : MongoErr) : MongoErr :=
  mkError MongoServerErrorC MMAPv1_RETRY_WRITES_ERROR_MESSAGE None []
    (Some originalError).

Definition retryOperation (operation : AbstractOperation)
    (selector : ServerSelector) (callback : Continuation)
    (originalError : MongoErr) (maxWireVersion : Z) : M unit :=
  let isWriteOperation := hasAspect operation WRITE_OPERATION in
  let isReadOperation := hasAspect operation READ_OPERATION in
  if isWriteOperation &&
     negb (isRetryableWriteError W originalError maxWireVersion) then
    callback (Some originalError) None
  else if isReadOperation && negb (isRetryableReadError W originalError) then
    callback (Some originalError) None
  else if isWriteOperation &&
          codeIs originalError MMAPv1_RETRY_WRITES_ERROR_CODE &&
          testTransactionNumbers (errmsg originalError) then
    callback (Some (remappedError originalError)) None
  else
    (if instanceofMongoNetworkError originalError then
       s <- getSession ;;
       match s with
       | None => throw (newError PlainError "TypeError")
       | Some s =>
           if isPinned s && negb (inTransaction s) &&
              hasAspect operation CURSOR_CREATING
           then unpin true
           else ret tt
       end
     else ret tt) ;;
    selectServer selector (fun error server =>
      if match error with None => true | Some _ => false end &&
         hasAspect operation READ_OPERATION &&
         negb (supportsRetryableReads server) then
        callback
          (Some (newError MongoUnexpectedServerResponseErrorC
                   "Selected server does not support retryable reads"))
          None
      else if match error with None => true | Some _ => false end &&
              hasAspect operation WRITE_OPERATION &&
              negb (supportsRetryableWrites W server) then
        callback
          (Some (newError MongoUnexpectedServerResponseErrorC
                   "Selected server does not support retryable writes"))
          None
      else
        match error, server with
        | Some e, _ => callback (Some e) None
        | None, None =>
            callback
              (Some (newError MongoUnexpectedServerResponseErrorC
                       "Server selection failed without error"))
              None
        | None, Some server => execute server callback
        end).

Definition executeWithServerSelection (topology : Topology)
    (operation : AbstractOperation) (callback : Continuation) : M unit :=
  s0 <- getSession ;;
  let rp :=
    match readPreference operation with
    | Some rp => rp
    | None => ReadPreference.primary
    end in
  let inTransaction := sessionInTransaction s0 in
  if inTransaction && negb (ReadPreference.equals rp ReadPreference.primary)
  then callback (Some (transactionReadPreferenceError rp)) None
  else
    match s0 with
    | Some s =>
        if isPinned s && isCommitted s && negb (bypassPinningCheck operation)
        then unpin false
        else ret tt
    | None => ret tt
    end ;;
    let selector := chooseSelector topology operation rp in
    s1 <- getSession ;;
    if negb (ReadPreference.equals rp ReadPreference.primary) &&
       sessionInTransaction s1
    then callback (Some (transactionReadPreferenceError rp)) None
    else
      selectServer selector (fun error server =>
        match error, server with
        | Some e, _ => callback (Some e) None
        | None, None => callback None None
        | None, Some server =>
            s2 <- getSession ;;
            if match s2 with Some _ => true | None => false end &&
               hasAspect operation RETRYABLE
            then
              let willRetryRead :=
                willRetryRead topology inTransaction server operation in
              let willRetryWrite :=
                willRetryWrite topology inTransaction server operation in
              let hasReadAspect := hasAspect operation READ_OPERATION in
              let hasWriteAspect := hasAspect operation WRITE_OPERATION in
              if (hasReadAspect && willRetryRead) ||
                 (hasWriteAspect && willRetryWrite)
              then
                (if hasWriteAspect && willRetryWrite
                 then setWillRetryWrite ;; incrementTransactionNumber
                 else ret tt) ;;
                let knownMaxWireVersion := maxWireVersion (Some server) in
                execute server (fun error result =>
                  match error with
                  | Some e =>
                      if instanceofMongoError e
                      then retryOperation operation selector callback e
                             knownMaxWireVersion
                      else callback (Some e) None
                  | None => callback None result
                  end)
              else execute server callback
            else execute server callback
        end).

(** ** The coordinator: [executeOperation] *)

(** [session && session.owner != null && session.owner === owner] *)
Definition ownedBy (s : option ClientSession) (o : option Symbol) : bool :=
  match s with
  | Some s =>
      match owner s, o with
      | Some a, Some b => Nat.eqb a b
      | _, _ => false
      end
  | None => false
  end.

(** The [try] statement that closes [executeOperation]; [o] is the local
    variable [owner]. *)
Definition executeAndRelease (topology : Topology)
    (operation : AbstractOperation) (o : option Symbol)
    (callback : Continuation) : M unit :=
  tryCatch
    (executeWithServerSelection topology operation (fun error result =>
       s <- getSession ;;
       if ownedBy s o then
         endSession (fun endSessionError =>
           callback
             (match endSessionError with
              | Some e => Some e
              | None => error
              end)
             result)
       else callback error result))
    (fun _ =>
       s <- getSession ;;
       if ownedBy s o then endSession (fun _ => ret tt) else ret tt).

(** The body of [executeOperation] once [shouldCheckForSessionSupport()]
    has answered [false]; [callback] is the one [maybePromise] hands to
    the body. *)
Definition acquireSessionAndExecute (topology : Topology)
    (operation : AbstractOperation) (callback : Continuation) : M unit :=
  setSession (opSession operation) ;;
  if hasSessionSupport topology then
    match opSession operation with
    | None =>
        o <- startSession ;;
        executeAndRelease topology operation (Some o) callback
    | Some s =>
        if hasEnded s then
          callback
            (Some (newError MongoExpiredSessionErrorC
                     "Use of expired sessions is not permitted"))
            None
        else if snapshotEnabled s && negb (supportsSnapshotReads topology) then
          callback
            (Some (newError MongoCompatibilityErrorC
                     "Snapshot reads require MongoDB 5.0 or later"))
            None
        else executeAndRelease topology operation None callback
    end
  else
    match opSession operation with
    | Some _ =>
        callback
          (Some (newError MongoCompatibilityErrorC
                   "Current topology does not support sessions"))
          None
    | None => executeAndRelease topology operation None callback
    end.

(** Modelled from the spec: [maybePromise] is imported from the driver's
    utilities, which are not among the sources.  In the completion style
    it runs [wrapper] with a callback of its own, through which the caller
    is handed either an error or a result: an error is passed on alone
    (and what the caller's callback throws on it is thrown again on a
    later tick, outside the run); without an error the result is passed
    on. *)
Definition maybePromise (callback : Continuation)
    (wrapper : Continuation -> M unit) : M unit :=
  wrapper (fun err res =>
    match err with
    | Some e => tryCatch (callback (Some e) None) (fun _ => ret tt)
    | None => callback None res
    end).

(** [executeOperation(topology, operation, callback)], by recursion on
    the answers that [shouldCheckForSessionSupport()] still has to give.
    Every call hands its body to [maybePromise], the call made after a
    discovery round included. *)
Fixpoint executeOperationFrom (checks : list bool) (topology : Topology)
    (operation : AbstractOperation) (callback : Continuation) : M unit :=
  maybePromise callback (fun callback =>
    match checks with
    | true :: rest =>
        selectServer (byReadPreference ReadPreference.primaryPreferred)
          (fun err _ =>
             match err with
             | Some e => callback (Some e) None
             | None => executeOperationFrom rest topology operation callback
             end)
    | _ => acquireSessionAndExecute topology operation callback
    end).

(** [executeOperation] called with the caller's callback. *)
Definition executeOperation (topology : Topology)
    (operation : AbstractOperation) : M unit :=
  executeOperationFrom (sessionSupportChecks W) topology operation userCallback.

End Core.

Arguments Normal {A} a.
Arguments Thrown {A} e.
Arguments World : clear implicits.
Arguments Event : clear implicits.
Arguments Continuation : clear implicits.
Arguments userCallback {TResult} error result st /.

(** The state in which an execution starts. *)
Definition initialState : State := mkState None false 0 0 0.

(** ** Reading a run *)

Definition trace {TResult A : Type}
    (r : list (Event TResult) * State * Completion A) : list (Event TResult) :=
  fst (fst r).
Definition finalState {TResult A : Type}
    (r : list (Event TResult) * State * Completion A) : State :=
  snd (fst r).
Definition completion {TResult A : Type}
    (r : list (Event TResult) * State * Completion A) : Completion A :=
  snd r.

Definition isExecute {TResult : Type} (ev : Event TResult) : bool :=
  match ev with Execute _ _ => true | _ => false end.
Definition isIncrement {TResult : Type} (ev : Event TResult) : bool :=
  match ev with IncrementTransactionNumber => true | _ => false end.
Definition isSelectServer {TResult : Type} (ev : Event TResult) : bool :=
  match ev with SelectServer _ => true | _ => false end.
Definition isStartSession {TResult : Type} (ev : Event TResult) : bool :=
  match ev with StartSession _ => true | _ => false end.
Definition isEndSession {TResult : Type} (ev : Event TResult) : bool :=
  match ev with EndSession => true | _ => false end.
Definition isCallback {TResult : Type} (ev : Event TResult) : bool :=
  match ev with Callback _ _ => true | _ => false end.

(** How many events of a trace satisfy [p]. *)
Definition count {TResult : Type} (p : Event TResult -> bool)
    (t : list (Event TResult)) : nat :=
  List.length (filter p t).

(** The transaction number of the session in use, if there is a session. *)
Definition sessionTxnNumber (st : State) : option Z :=
  option_map txnNumber (session st).

(** ** Sample deployments *)

Module Sample.

Definition primaryServer : Server := mkServer "a:27017" 13.
Definition otherServer : Server := mkServer "b:27017" 13.

Definition topology : Topology :=
  mkTopology true true (Some 13) None (Some true).

Definition explicitSession : ClientSession :=
  mkSession None true false false false false false 7.

Definition insertOne : AbstractOperation :=
  mkOperation [WRITE_OPERATION; RETRYABLE] None (Some explicitSession) None
    false true true false.

Definition find : AbstractOperation :=
  mkOperation [READ_OPERATION; RETRYABLE; CURSOR_CREATING] None
    (Some explicitSession) None false true true false.

Definition networkError : MongoErr :=
  mkError MongoNetworkErrorC "ECONNRESET" None ["RetryableWriteError"] None.

Definition legacyRefusal : MongoErr :=
  mkError MongoServerErrorC
    "Transaction numbers are only allowed on a replica set member or mongos"
    (Some 20) [] None.

(** Modelled from the spec: the error classifier is not among the sources.
    A write error is retryable if it carries the [RetryableWriteError]
    label, or it is a network error, or, for a server whose snapshotted
    wire version is below [SUPPORTS_OP_MSG], its code is in the legacy
    retryable set [legacy]. *)
Definition isRetryableWriteErrorSpec (legacy : Z -> bool) (e : MongoErr)
    (maxWireVersion : Z) : bool :=
  existsb (String.eqb "RetryableWriteError") (errorLabels e) ||
  instanceofMongoNetworkError e ||
  ((maxWireVersion <? MONGODB_WIRE_VERSION.SUPPORTS_OP_MSG) &&
   match code e with Some c => legacy c | None => false end).

(** Modelled from the spec: a read error is retryable if it is a network
    error, a state-change error (not-master 10107, node-shutting-down
    91), or carries the [RetryableWriteError] label. *)
Definition isRetryableReadErrorSpec (e : MongoErr) : bool :=
  instanceofMongoNetworkError e ||
  match code e with Some c => (c =? 10107) || (c =? 91) | None => false end ||
  existsb (String.eqb "RetryableWriteError") (errorLabels e).

(** A deployment: the replies of [selectServer] and [execute] in order
    (the last one repeats), the reply of [endSession], and whether servers
    advertise retryable writes. *)
Definition world (selects : list (@SelectOutcome))
    (executes : list (@ExecuteOutcome string))
    (endReply : option MongoErr) : World string :=
  mkWorld []
    (fun n => nth n selects (SelectCalls None None))
    (fun n => nth n executes (ExecuteCalls None None))
    endReply 0
    (isRetryableWriteErrorSpec (fun _ => true))
    isRetryableReadErrorSpec
    (fun s => match s with Some _ => true | None => false end).

Definition transactionSession : ClientSession :=
  mkSession None true false false true false false 7.

Definition endedSession : ClientSession :=
  mkSession None true true false false false false 7.

Definition findOnSecondary : AbstractOperation :=
  mkOperation [READ_OPERATION; RETRYABLE; CURSOR_CREATING]
    (Some ReadPreference.secondary) (Some transactionSession) None
    false true true false.

Definition insertWithEndedSession : AbstractOperation :=
  mkOperation [WRITE_OPERATION; RETRYABLE] None (Some endedSession) None
    false true true false.

Definition insertWithoutSession : AbstractOperation :=
  mkOperation [WRITE_OPERATION; RETRYABLE] None None None
    false true true false.

Definition topologyWithoutSessions : Topology :=
  mkTopology false false (Some 13) None (Some true).

Definition topologyWithoutSnapshots : Topology :=
  mkTopology true false (Some 12) None (Some true).

Definition endedSnapshotSession : ClientSession :=
  mkSession None true true true false false false 7.

Definition findWithEndedSnapshotSession : AbstractOperation :=
  mkOperation [READ_OPERATION; RETRYABLE; CURSOR_CREATING] None
    (Some endedSnapshotSession) None false true true false.

Definition labelledRefusal : MongoErr :=
  mkError MongoServerErrorC
    "Transaction numbers are only allowed on a replica set member or mongos"
    (Some 20) ["RetryableWriteError"] None.

Definition duplicateKey : MongoErr :=
  mkError MongoServerErrorC "E11000 duplicate key error" (Some 11000)
    [] None.

Definition endError : MongoErr :=
  newError MongoErrorC "could not end the session".

Definition typeError : MongoErr :=
  newError PlainError "TypeError: cannot read properties of undefined".

Definition explicitState : State :=
  mkState (Some explicitSession) false 0 0 0.

(** The state right after the implicit session with owner [0] was started. *)
Definition implicitState : State :=
  mkState (Some (mkSession (Some 0%nat) false false false false false false 0))
    false 0 0 1.

(** The first write attempt meets the legacy refusal, without a label. *)
Definition legacyWorld : World string :=
  world [SelectCalls None (Some primaryServer)]
    [ExecuteCalls (Some legacyRefusal) None] None.

(** The first write attempt meets the legacy refusal, labelled retryable. *)
Definition labelledWorld : World string :=
  world [SelectCalls None (Some primaryServer)]
    [ExecuteCalls (Some labelledRefusal) None] None.

(** The first attempt fails on the network; selecting again yields neither
    an error nor a server. *)
Definition noServerOnRetryWorld : World string :=
  world [SelectCalls None (Some primaryServer); SelectCalls None None]
    [ExecuteCalls (Some networkError) None] None.

(** The attempt fails for good, and so does ending the session. *)
Definition teardownWorld : World string :=
  world [SelectCalls None (Some primaryServer)]
    [ExecuteCalls (Some duplicateKey) None] (Some endError).

(** The attempt succeeds, and ending the session fails. *)
Definition teardownAfterSuccessWorld : World string :=
  world [SelectCalls None (Some primaryServer)]
    [ExecuteCalls None (Some "ok")] (Some endError).

(** [operation.execute] throws instead of calling back. *)
Definition throwingWorld : World string :=
  world [SelectCalls None (Some primaryServer)]
    [ExecuteThrows typeError] None.

(** Network error first, then success on another server. *)
Definition retryWorld : World string :=
  world [SelectCalls None (Some primaryServer);
         SelectCalls None (Some otherServer)]
    [ExecuteCalls (Some networkError) None; ExecuteCalls None (Some "ok")]
    None.

Definition selectionError : MongoErr :=
  newError MongoErrorC "Server selection timed out after 30000 ms".

Definition plainInsert : AbstractOperation :=
  mkOperation [WRITE_OPERATION] None (Some explicitSession) None
    false true true false.

Definition pinnedCommittedSession : ClientSession :=
  mkSession None true false false false true true 7.

Definition pinnedState : State :=
  mkState (Some pinnedCommittedSession) false 0 0 0.

Definition transactionState : State :=
  mkState (Some transactionSession) false 0 0 0.

(** No server can be selected. *)
Definition noServerWorld : World string :=
  world [SelectCalls (Some selectionError) None] [] None.

(** The first attempt succeeds. *)
Definition successWorld : World string :=
  world [SelectCalls None (Some primaryServer)]
    [ExecuteCalls None (Some "ok")] None.

(** The first attempt fails with something that is not a driver error. *)
Definition foreignErrorWorld : World string :=
  world [SelectCalls None (Some primaryServer)]
    [ExecuteCalls (Some typeError) None] None.

(** The first attempt fails on the network; selecting again fails. *)
Definition reselectionFailsWorld : World string :=
  world [SelectCalls None (Some primaryServer);
         SelectCalls (Some selectionError) None]
    [ExecuteCalls (Some networkError) None] None.

(** A discovery round is asked for, and its selection fails. *)
Definition discoveryFailsWorld : World string :=
  mkWorld [true]
    (fun _ => SelectCalls (Some selectionError) None)
    (fun _ => ExecuteCalls None None)
    None 0
    (isRetryableWriteErrorSpec (fun _ => true))
    isRetryableReadErrorSpec
    (fun s => match s with Some _ => true | None => false end).

End Sample.

(** ** The spec runner's argument marshalling
       ([test/integration/retryable-writes/retryable_writes.spec.test.ts]) *)

Module SpecRunner.

(** The values a spec test file holds.  An object is the list of its own
    properties in the order [Object.keys] gives them; a string is the
    sequence of its code units; a number is an integer (the functions
    below only pass numbers on and test them for zero). *)
#[warnings="-register-all"]
Inductive JsValue : Type :=
| JsUndefined
| JsNull
| JsBool (b : bool)
| JsNumber (n : Z)
| JsString (s : string)
| JsArray (items : list JsValue)
| JsObject (fields : list (string * JsValue)).

Inductive Outcome (A : Type) : Type :=
| Returns (a : A)
| ThrowsTypeError.
Arguments Returns {A} a.
Arguments ThrowsTypeError {A}.

(** The value as the condition of an [if]. *)
Definition truthy (v : JsValue) : bool :=
  match v with
  | JsUndefined | JsNull => false
  | JsBool b => b
  | JsNumber n => negb (n =? 0)
  | JsString s => negb (String.eqb s "")
  | JsArray _ | JsObject _ => true
  end.

Definition indexKey (n : nat) : string :=
  NilEmpty.string_of_uint (Nat.to_uint n).

Definition indexed (items : list JsValue) : list (string * JsValue) :=
  combine (map indexKey (seq 0 (List.length items))) items.

Definition characters (s : string) : list JsValue :=
  map (fun c => JsString (String c EmptyString)) (list_ascii_of_string s).

(** The own enumerable properties of a value that is neither [undefined]
    nor [null]. *)
Definition entries (v : JsValue) : list (string * JsValue) :=
  match v with
  | JsObject fields => fields
  | JsArray items => indexed items
  | JsString s => indexed (characters s)
  | _ => []
  end.

(** [Object.keys(v)] *)
Definition keys (v : JsValue) : list string := map fst (entries v).

Fixpoint lookup (key : string) (fields : list (string * JsValue)) : JsValue :=
  match fields with
  | [] => JsUndefined
  | (k, v) :: rest => if String.eqb k key then v else lookup key rest
  end.

(** [v[key]] for a key out of [Object.keys(v)] *)
Definition valueAt (v : JsValue) (key : string) : JsValue :=
  lookup key (entries v).

(** [v.name] for the property names read below ([name], [arguments]),
    which no prototype provides: reading a property of [undefined] or
    [null] throws, a value without the property gives [undefined]. *)
Definition property (v : JsValue) (name : string) : Outcome JsValue :=
  match v with
  | JsUndefined | JsNull => ThrowsTypeError
  | JsObject fields => Returns (lookup name fields)
  | _ => Returns JsUndefined
  end.

(** [object[key] = value]: an existing property keeps its place, a new
    one comes last. *)
Fixpoint setProperty (key : string) (value : JsValue)
    (fields : list (string * JsValue)) : list (string * JsValue) :=
  match fields with
  | [] => [(key, value)]
  | (k, v) :: rest =>
      if String.eqb k key then (k, value) :: rest
      else (k, v) :: setProperty key value rest
  end.

Section Marshalling.

(** The conversion of a value to a property key and
    [String.prototype.toLowerCase] are built into the language and left
    arbitrary.  The conversion throws a [TypeError] for a value that
    cannot be made a primitive (an object whose own [toString] is not a
    function, say). *)
Variable toPropertyKey : JsValue -> Outcome string.
Variable toLowerCase : string -> string.

(** [{ [op.name]: op.arguments }]: the key is computed, and converted,
    before the value is read. *)
Definition convertBulkWriteOperation (op : JsValue) : Outcome JsValue :=
  match property op "name" with
  | Returns name =>
      match toPropertyKey name with
      | Returns key =>
          match property op "arguments" with
          | Returns arguments => Returns (JsObject [(key, arguments)])
          | ThrowsTypeError => ThrowsTypeError
          end
      | ThrowsTypeError => ThrowsTypeError
      end
  | ThrowsTypeError => ThrowsTypeError
  end.

(** [items.map(convertBulkWriteOperation)] *)
Fixpoint mapConvert (items : list JsValue) : Outcome (list JsValue) :=
  match items with
  | [] => Returns []
  | op :: rest =>
      match convertBulkWriteOperation op with
      | Returns converted =>
          match mapConvert rest with
          | Returns others => Returns (converted :: others)
          | ThrowsTypeError => ThrowsTypeError
          end
      | ThrowsTypeError => ThrowsTypeError
      end
  end.

(** The [for] loop of [generateArguments] over the keys still to visit,
    with the [args] and [options] built so far. *)
Fixpoint marshal (arguments : JsValue) (ks : list string)
    (args : list JsValue) (options : list (string * JsValue)) :
    Outcome (list JsValue * list (string * JsValue)) :=
  match ks with
  | [] => Returns (args, options)
  | arg :: rest =>
      if String.eqb arg "requests" then
        match valueAt arguments arg with
        | JsArray items =>
            match mapConvert items with
            | Returns ops =>
                marshal arguments rest (args ++ [JsArray ops]) options
            | ThrowsTypeError => ThrowsTypeError
            end
        | _ => ThrowsTypeError
        end
      else if String.eqb arg "upsert" then
        marshal arguments rest args
          (setProperty "upsert" (valueAt arguments arg) options)
      else if String.eqb arg "returnDocument" then
        match valueAt arguments arg with
        | JsString s =>
            marshal arguments rest args
              (setProperty "returnDocument" (JsString (toLowerCase s))
                 options)
        | _ => ThrowsTypeError
        end
      else marshal arguments rest (args ++ [valueAt arguments arg]) options
  end.

(** [generateArguments(test)], as a function of [test.operation.arguments]. *)
Definition generateArguments (arguments : JsValue) : Outcome (list JsValue) :=
  if truthy arguments then
    match marshal arguments (keys arguments) [] [] with
    | Returns (args, options) =>
        if (0 <? List.length options)%nat
        then Returns (args ++ [JsObject options])
        else Returns args
    | ThrowsTypeError => ThrowsTypeError
    end
  else Returns [].

(** The keys that go to the trailing options object. *)
Definition isOptionKey (k : string) : bool :=
  String.eqb k "upsert" || String.eqb k "returnDocument".

(** What the positional argument made from key [k] must be. *)
Definition positionalFor (arguments : JsValue) (k : string) (v : JsValue) :
    Prop :=
  if String.eqb k "requests" then
    exists items ops,
      valueAt arguments k = JsArray items /\
      mapConvert items = Returns ops /\
      v = JsArray ops
  else v = valueAt arguments k.

(** The value can be converted to a property key. *)
Definition isKey (v : JsValue) : bool :=
  match toPropertyKey v with
  | Returns _ => true
  | ThrowsTypeError => false
  end.

(** An operation that can be converted: neither [undefined] nor [null],
    with a name that can be converted to a property key; the name of a
    value that is not an object, or has no [name], is [undefined]. *)
Definition operationOk (op : JsValue) : bool :=
  match op with
  | JsUndefined | JsNull => false
  | JsObject fields => isKey (lookup "name" fields)
  | _ => isKey JsUndefined
  end.

(** A [requests] value that can be converted: an array of operations
    that can. *)
Definition requestsOk (v : JsValue) : bool :=
  match v with
  | JsArray items => forallb operationOk items
  | _ => false
  end.

Definition isJsString (v : JsValue) : bool :=
  match v with JsString _ => true | _ => false end.

(** The key makes [generateArguments] throw. *)
Definition malformedAt (arguments : JsValue) (k : string) : bool :=
  (String.eqb k "requests" && negb (requestsOk (valueAt arguments k))) ||
  (String.eqb k "returnDocument" && negb (isJsString (valueAt arguments k))).

End Marshalling.

(** The key conversion on the values of a test file.  A string is its
    own key; [undefined], [null] and the booleans are spelt out; a number
    is written in decimal (as the language does below ten to the power
    21); an array is its elements' keys joined by commas, with nothing for
    [undefined] and [null]; an object is [[object Object]], unless it has
    a [toString] of its own, which cannot be a function here: then the
    conversion throws. *)
Fixpoint sampleKey (v : JsValue) : Outcome string :=
  match v with
  | JsUndefined => Returns "undefined"
  | JsNull => Returns "null"
  | JsBool true => Returns "true"
  | JsBool false => Returns "false"
  | JsNumber n => Returns (NilZero.string_of_int (Z.to_int n))
  | JsString s => Returns s
  | JsArray items =>
      (fix join (l : list JsValue) : Outcome string :=
         match l with
         | [] => Returns ""
         | x :: rest =>
             match
               match x with
               | JsUndefined | JsNull => Returns ""
               | _ => sampleKey x
               end
             with
             | Returns first =>
                 match rest with
                 | [] => Returns first
                 | _ :: _ =>
                     match join rest with
                     | Returns others =>
                         Returns (String.append first
                                    (String.append "," others))
                     | ThrowsTypeError => ThrowsTypeError
                     end
                 end
             | ThrowsTypeError => ThrowsTypeError
             end
         end) items
  | JsObject fields =>
      if existsb (fun kv => String.eqb (fst kv) "toString") fields
      then ThrowsTypeError
      else Returns "[object Object]"
  end.

(** A lower-casing that does for strings of unaccented letters. *)

Definition lowerLetter (c : Ascii.ascii) : Ascii.ascii :=
  let n := Ascii.nat_of_ascii c in
  if ((65 <=? n) && (n <=? 90))%nat then Ascii.ascii_of_nat (n + 32) else c.

Fixpoint sampleLower (s : string) : string :=
  match s with
  | EmptyString => EmptyString
  | String c rest => String (lowerLetter c) (sampleLower rest)
  end.

Definition findOneAndUpdateArguments : JsValue :=
  JsObject
    [("filter", JsObject [("_id", JsNumber 1)]);
     ("update", JsObject [("$inc", JsObject [("x", JsNumber 1)])]);
     ("returnDocument", JsString "After");
     ("upsert", JsBool true)].

Definition bulkWriteArguments : JsValue :=
  JsObject
    [("requests",
      JsArray
        [JsObject [("name", JsString "insertOne");
                   ("arguments",
                    JsObject [("document", JsObject [("_id", JsNumber 2)])])]]);
     ("options", JsObject [("ordered", JsBool true)])].

End SpecRunner.

(** ** Vocabulary of the statements *)

(** [hasWriteAspect && willRetryWrite] as the callback of the first
    server selection evaluates it for an execution that starts in [st];
    [false] when the execution does not get that far: no session, no
    server selected, or an operation without the [RETRYABLE] aspect. *)
Definition writeRetryArmed {TResult : Type} (W : World TResult)
    (topology : Topology) (operation : AbstractOperation) (st : State) : bool :=
  match session st, selectReply W (selections st) with
  | Some s, SelectCalls None (Some server) =>
      hasAspect operation RETRYABLE &&
      (hasAspect operation WRITE_OPERATION &&
       willRetryWrite W topology (inTransaction s) server operation)
  | _, _ => false
  end.

(** No transaction-number increment follows an attempt. *)
Fixpoint incrementsPrecedeAttempts {TResult : Type}
    (t : list (Event TResult)) : bool :=
  match t with
  | [] => true
  | Execute _ _ :: rest => negb (existsb isIncrement rest)
  | _ :: rest => incrementsPrecedeAttempts rest
  end.

(** Every attempt of the trace was made with transaction number [n]. *)
Definition attemptsCarry {TResult : Type} (n : option Z)
    (t : list (Event TResult)) : Prop :=
  Forall (fun ev => match ev with Execute _ m => m = n | _ => True end) t.

(** The trace of a run that ends by calling the caller's callback, split
    into what came before and the arguments of that call. *)
Fixpoint splitCallback {TResult : Type} (t : list (Event TResult)) :
    option (list (Event TResult) * option MongoErr * option TResult) :=
  match t with
  | [] => None
  | ev :: rest =>
      match splitCallback rest with
      | Some (pre, e, r) => Some (ev :: pre, e, r)
      | None =>
          match ev with
          | Callback e r =>
              match rest with
              | [] => Some ([], e, r)
              | _ :: _ => None
              end
          | _ => None
          end
      end
  end.

(** What the caller is handed: the arguments of the final callback. *)
Definition surfaced {TResult : Type} (t : list (Event TResult)) :
    option (option MongoErr * option TResult) :=
  match splitCallback t with
  | Some (_, e, r) => Some (e, r)
  | None => None
  end.

(** A run that was recorded with the plain callback, continued with
    [callback] in place of the recorded final call. *)
Definition resume {TResult : Type} (callback : Continuation TResult)
    (run : list (Event TResult) * State * Completion unit) :
    list (Event TResult) * State * Completion unit :=
  match run with
  | (t, st, Normal _) =>
      match splitCallback t with
      | Some (pre, e, r) =>
          match callback e r st with
          | (t2, st2, c) => (pre ++ t2, st2, c)
          end
      | None => run
      end
  | (_, _, Thrown _) => run
  end.

(** The callback that [maybePromise] makes of the caller's and hands to
    the function it wraps. *)
Definition handedOn {TResult : Type} (callback : Continuation TResult) :
    Continuation TResult :=
  fun err res => maybePromise callback (fun callback => callback err res).

(** The events of the teardown: ending the session, calling back. *)
Definition isTeardown {TResult : Type} (ev : Event TResult) : bool :=
  isEndSession ev || isCallback ev.

(** The read preference an execution goes by:
    [operation.readPreference ?? ReadPreference.primary]. *)
Definition effectiveReadPreference (operation : AbstractOperation) :
    ReadPreference.t :=
  match readPreference operation with
  | Some rp => rp
  | None => ReadPreference.primary
  end.

(** The pre-flight test of [executeWithServerSelection]: in a transaction
    with a read preference other than primary. *)
Definition preflightFails (operation : AbstractOperation) (st : State) : bool :=
  sessionInTransaction (session st) &&
  negb (ReadPreference.equals (effectiveReadPreference operation)
          ReadPreference.primary).

(** Every server selection of the trace was made with [selector]. *)
Definition selectionsUse {TResult : Type} (selector : ServerSelector)
    (t : list (Event TResult)) : Prop :=
  Forall (fun ev =>
            match ev with
            | SelectServer sel => sel = selector
            | _ => True
            end) t.

Definition isUnpin {TResult : Type} (force : bool) (ev : Event TResult) : bool :=
  match ev with
  | Unpin f => Bool.eqb f force
  | _ => false
  end.

(** What an execution may do to a session: empty its pinned-server slot
    and add one to its transaction number, nothing else. *)
Definition sessionKept (before after : option ClientSession) : Prop :=
  match before, after with
  | Some s, Some s' =>
      owner s' = owner s /\
      explicit s' = explicit s /\
      hasEnded s' = hasEnded s /\
      snapshotEnabled s' = snapshotEnabled s /\
      inTransaction s' = inTransaction s /\
      isCommitted s' = isCommitted s /\
      (isPinned s' = true -> isPinned s = true) /\
      txnNumber s <= txnNumber s' <= txnNumber s + 1
  | None, None => True
  | _, _ => False
  end.

(** No call of [topology.selectServer] or [operation.execute] throws. *)
Definition neverThrows {TResult : Type} (W : World TResult) : Prop :=
  (forall n e, selectReply W n <> SelectThrows e) /\
  (forall n e, executeReply W n <> ExecuteThrows e).

(** The attempts of a trace, in order. *)
Definition attemptsOf {TResult : Type} (t : list (Event TResult)) :
    list (Event TResult) :=
  filter isExecute t.

(** Whether the first attempt on [server] is made under the retry policy:
    the condition under which [executeWithServerSelection] executes with
    its own callback rather than the caller's. *)
Definition retryArmed {TResult : Type} (W : World TResult)
    (topology : Topology) (operation : AbstractOperation) (st : State)
    (server : Server) : bool :=
  match session st with
  | Some s =>
      hasAspect operation RETRYABLE &&
      ((hasAspect operation READ_OPERATION &&
        willRetryRead topology (inTransaction s) server operation) ||
       (hasAspect operation WRITE_OPERATION &&
        willRetryWrite W topology (inTransaction s) server operation))
  | None => false
  end.

(** A session once [endSession] has been called on it. *)
Definition ended (s : ClientSession) : ClientSession :=
  mkSession (owner s) (explicit s) true (snapshotEnabled s) (inTransaction s)
    (isPinned s) (isCommitted s) (txnNumber s).

(** * Theorems *)

Section Properties.

Context {TResult : Type}.
Variable W : World TResult.

Ltac run_unfold_base :=
  unfold selectServer, execute, incrementTransactionNumber,
    setWillRetryWrite, unpin, endSession, getSession, setSession,
    throw, bind, ret, trace, finalState, completion, sessionTxnNumber,
    sessionInTransaction, resume, surfaced in *.

Ltac run_branch :=
  match goal with
  | |- context [match ?x with _ => _ end] =>
      lazymatch x with
      | context [match _ with _ => _ end] => fail
      | _ => first [ is_var x; destruct x | destruct x eqn:? ]; cbn
      end
  end.

(** ** The callback is the last thing a run does, and is called once *)

Lemma retryOperation_resume (callback : Continuation TResult) operation
    selector e v st :
  retryOperation W operation selector callback e v st =
  resume callback (retryOperation W operation selector userCallback e v st).
Proof.
  destruct st as [sess wr ns na ny].
  unfold retryOperation; run_unfold_base; cbn.
  repeat run_branch; reflexivity.
Qed.

Lemma executeWithServerSelection_resume (callback : Continuation TResult)
    topology operation st :
  executeWithServerSelection W topology operation callback st =
  resume callback
    (executeWithServerSelection W topology operation userCallback st).
Proof.
  destruct st as [sess wr ns na ny].
  unfold executeWithServerSelection; run_unfold_base; cbn.
  repeat first
    [ rewrite (retryOperation_resume callback); unfold resume; cbn
    | run_branch ];
  reflexivity.
Qed.

(** ** What the inner state machine leaves alone *)

Ltac sync_split :=
  repeat match goal with
         | H : splitCallback ?l = _,
           H' : context [match splitCallback ?l with _ => _ end] |- _ =>
             rewrite H in H'; cbn in H'
         end.

Ltac shape_close :=
  unfold count in *; cbn; intros; sync_split;
  repeat match goal with
         | H : _ /\ _ |- _ => destruct H
         | |- _ /\ _ => split
         | |- forall _, _ => intro
         end;
  try solve [ reflexivity | assumption | congruence | lia | discriminate
            | match goal with H : forall _, ownedBy _ _ = _ |- _ => apply H end ].

Lemma retryOperation_shape operation selector e v st :
  let r := retryOperation W operation selector userCallback e v st in
  (forall o, ownedBy (session (finalState r)) o = ownedBy (session st) o) /\
  count isStartSession (trace r) = 0%nat /\
  count isEndSession (trace r) = 0%nat /\
  match completion r with
  | Normal _ =>
      surfaced (trace r) <> None /\ count isCallback (trace r) = 1%nat
  | Thrown _ => count isCallback (trace r) = 0%nat
  end.
Proof.
  destruct st as [sess wr ns na ny].
  unfold retryOperation; run_unfold_base; cbn.
  repeat run_branch; shape_close.
Qed.

Lemma executeWithServerSelection_shape topology operation st :
  let r := executeWithServerSelection W topology operation userCallback st in
  (forall o, ownedBy (session (finalState r)) o = ownedBy (session st) o) /\
  count isStartSession (trace r) = 0%nat /\
  count isEndSession (trace r) = 0%nat /\
  match completion r with
  | Normal _ =>
      surfaced (trace r) <> None /\ count isCallback (trace r) = 1%nat
  | Thrown _ => count isCallback (trace r) = 0%nat
  end.
Proof.
  destruct st as [sess wr ns na ny].
  unfold executeWithServerSelection; run_unfold_base; cbn.
  repeat first
    [ match goal with
      | |- context [retryOperation W ?op ?sel userCallback ?e ?v ?st] =>
          let H := fresh "Hretry" in
          pose proof (retryOperation_shape op sel e v st) as H;
          unfold trace, finalState, completion, surfaced in H;
          destruct (retryOperation W op sel userCallback e v st) as [[? ?] ?];
          cbn in H |- *;
          decompose [and] H; clear H
      end
    | run_branch ].
  all: shape_close.
Qed.

(** ** Traces that end with the callback *)

Lemma count_app (p : Event TResult -> bool) (a b : list (Event TResult)) :
  count p (a ++ b) = (count p a + count p b)%nat.
Proof.
  unfold count. rewrite filter_app, length_app. reflexivity.
Qed.

Lemma splitCallback_sound (t pre : list (Event TResult)) e r :
  splitCallback t = Some (pre, e, r) -> t = pre ++ [Callback e r].
Proof.
  revert pre; induction t as [|ev rest IH]; intros pre; cbn.
  - discriminate.
  - destruct (splitCallback rest) as [[[pre' e'] r']|].
    + intros H; injection H as <- <- <-. cbn. f_equal. apply IH. reflexivity.
    + destruct ev; try discriminate.
      destruct rest; try discriminate.
      intros H; injection H as <- <- <-. reflexivity.
Qed.

Lemma splitCallback_complete (pre : list (Event TResult)) e r :
  splitCallback (pre ++ [Callback e r]) = Some (pre, e, r).
Proof.
  induction pre as [|ev pre IH]; cbn.
  - reflexivity.
  - rewrite IH. reflexivity.
Qed.

Lemma surfaced_app (pre : list (Event TResult)) e r :
  surfaced (pre ++ [Callback e r]) = Some (e, r).
Proof.
  unfold surfaced. rewrite splitCallback_complete. reflexivity.
Qed.

(** ** The [try] statement of [executeOperation], case by case *)

Lemma executeAndRelease_cases topology operation o st :
  let inner := executeWithServerSelection W topology operation userCallback st in
  let r := executeAndRelease W topology operation o userCallback st in
  completion r = Normal tt /\
  sessionTxnNumber (finalState r) = sessionTxnNumber (finalState inner) /\
  match completion inner with
  | Normal _ =>
      exists pre e res,
        trace inner = pre ++ [Callback e res] /\
        trace r =
          pre ++
          (if ownedBy (session st) o
           then [EndSession;
                 Callback
                   (match endSessionReply W with
                    | Some ee => Some ee
                    | None => e
                    end) res]
           else [Callback e res])
  | Thrown _ =>
      trace r =
        trace inner ++ (if ownedBy (session st) o then [EndSession] else [])
  end.
Proof.
  intros inner r; subst inner r.
  unfold executeAndRelease, tryCatch.
  rewrite executeWithServerSelection_resume.
  pose proof (executeWithServerSelection_shape topology operation st) as H.
  cbv zeta in H; destruct H as (Hown & _ & _ & Hc).
  destruct (executeWithServerSelection W topology operation userCallback st)
    as [[t st'] c].
  unfold trace, finalState, completion, surfaced in *; cbn in *.
  rewrite <- (Hown o).
  destruct c as [[]|x].
  - destruct Hc as [Hs _].
    destruct (splitCallback t) as [[[pre e] res]|] eqn:Hsplit;
      [|congruence].
    apply splitCallback_sound in Hsplit; subst t.
    unfold sessionTxnNumber, getSession, endSession, bind; cbn.
    destruct (ownedBy (session st') o) eqn:Ho; cbn.
    + destruct (session st') as [s'|] eqn:Hsess; [|discriminate Ho]; cbn.
      repeat split; eauto.
    + repeat split; eauto.
  - unfold resume, sessionTxnNumber, getSession, endSession, bind, ret; cbn.
    destruct (ownedBy (session st') o) eqn:Ho; cbn.
    + destruct (session st') as [s'|] eqn:Hsess; [|discriminate Ho]; cbn.
      repeat split; eauto.
    + rewrite app_nil_r. repeat split; eauto.
Qed.

(** ** Teardown events at the end of a trace *)

Lemma surfaced_counts (t : list (Event TResult)) e r :
  surfaced t = Some (e, r) -> (1 <= count isCallback t)%nat.
Proof.
  unfold surfaced.
  destruct (splitCallback t) as [[[pre e'] r']|] eqn:H; [|discriminate].
  intros _. apply splitCallback_sound in H; subst t.
  rewrite count_app. cbn. lia.
Qed.

Lemma count_teardown (p : Event TResult -> bool) (pre suffix : list (Event TResult)) :
  (forall ev, isTeardown ev = true -> p ev = false) ->
  forallb isTeardown suffix = true ->
  count p (pre ++ suffix) = count p pre.
Proof.
  intros Hp Hs. rewrite count_app.
  assert (H0 : count p suffix = 0%nat).
  { induction suffix as [|ev rest IH]; [reflexivity|].
    cbn in Hs. apply andb_true_iff in Hs as [Hev Hrest].
    unfold count in *. cbn. rewrite (Hp ev Hev). apply IH, Hrest. }
  lia.
Qed.

Lemma attemptsCarry_teardown n (pre suffix : list (Event TResult)) :
  forallb isTeardown suffix = true ->
  attemptsCarry n (pre ++ suffix) <-> attemptsCarry n pre.
Proof.
  intros Hs. unfold attemptsCarry. rewrite Forall_app.
  split; [tauto|]. intros H; split; [exact H|].
  induction suffix as [|ev rest IH]; constructor.
  - cbn in Hs. apply andb_true_iff in Hs as [Hev _].
    destruct ev; try exact I; discriminate.
  - cbn in Hs. apply andb_true_iff in Hs as [_ Hrest]. apply IH, Hrest.
Qed.

Lemma existsb_isIncrement_teardown (pre suffix : list (Event TResult)) :
  forallb isTeardown suffix = true ->
  existsb isIncrement (pre ++ suffix) = existsb isIncrement pre.
Proof.
  intros Hs. rewrite existsb_app.
  assert (H0 : existsb isIncrement suffix = false).
  { induction suffix as [|ev rest IH]; [reflexivity|].
    cbn in Hs. apply andb_true_iff in Hs as [Hev Hrest].
    cbn. rewrite (IH Hrest).
    destruct ev; try reflexivity; discriminate. }
  rewrite H0. apply orb_false_r.
Qed.

Lemma incrementsPrecedeAttempts_teardown (pre suffix : list (Event TResult)) :
  forallb isTeardown suffix = true ->
  incrementsPrecedeAttempts (pre ++ suffix) = incrementsPrecedeAttempts pre.
Proof.
  intros Hs. induction pre as [|ev rest IH].
  - cbn. induction suffix as [|ev rest IH]; [reflexivity|].
    cbn in Hs. apply andb_true_iff in Hs as [Hev Hrest].
    destruct ev; try discriminate; cbn; apply IH, Hrest.
  - destruct ev; cbn; try exact IH.
    rewrite existsb_isIncrement_teardown by exact Hs. reflexivity.
Qed.

(** The trace of the [try] statement is the trace of the inner state
    machine with another teardown at its end. *)
Lemma executeAndRelease_trace topology operation o st :
  let inner := executeWithServerSelection W topology operation userCallback st in
  let r := executeAndRelease W topology operation o userCallback st in
  exists pre suffix suffix',
    trace inner = pre ++ suffix /\
    trace r = pre ++ suffix' /\
    forallb isTeardown suffix = true /\
    forallb isTeardown suffix' = true /\
    count isEndSession suffix' =
      (if ownedBy (session st) o then 1 else 0)%nat.
Proof.
  intros inner r.
  destruct (executeAndRelease_cases topology operation o st)
    as (_ & _ & H).
  fold inner r in H.
  destruct (completion inner).
  - destruct H as (pre & e & res & Hi & Hr).
    exists pre, [Callback e res].
    eexists. split; [exact Hi|]. split; [exact Hr|].
    destruct (ownedBy (session st) o); repeat split.
  - exists (trace inner), [].
    eexists. rewrite app_nil_r. split; [reflexivity|]. split; [exact H|].
    destruct (ownedBy (session st) o); repeat split.
Qed.

Lemma executeAndRelease_count (p : Event TResult -> bool) topology operation
    o st :
  (forall ev, isTeardown ev = true -> p ev = false) ->
  count p (trace (executeAndRelease W topology operation o userCallback st)) =
  count p (trace (executeWithServerSelection W topology operation
                    userCallback st)).
Proof.
  intros Hp.
  destruct (executeAndRelease_trace topology operation o st)
    as (pre & suffix & suffix' & Hi & Hr & Hq & Hq' & _).
  rewrite Hi, Hr.
  rewrite !count_teardown by assumption. reflexivity.
Qed.

(** ** What [maybePromise] changes *)

Lemma handedOn_userCallback e x (st : State) :
  handedOn (@userCallback TResult) e x st =
  ([Callback e (match e with Some _ => None | None => x end)], st, Normal tt).
Proof.
  destruct e; reflexivity.
Qed.

Lemma handedOn_ext (k1 k2 : Continuation TResult) :
  (forall e x st, k1 e x st = k2 e x st) ->
  forall e x st, handedOn k1 e x st = handedOn k2 e x st.
Proof.
  intros H e x st. unfold handedOn, maybePromise, tryCatch.
  destruct e; rewrite H; reflexivity.
Qed.

Lemma resume_ext (k1 k2 : Continuation TResult) r :
  (forall e x st, k1 e x st = k2 e x st) -> resume k1 r = resume k2 r.
Proof.
  intros H. destruct r as [[t st] [a|x]]; cbn; [|reflexivity].
  destruct (splitCallback t) as [[[pre e] res]|]; [|reflexivity].
  rewrite H. reflexivity.
Qed.

Ltac resume_inner :=
  repeat match goal with
         | |- context [executeWithServerSelection W ?t ?op ?k ?s] =>
             lazymatch k with
             | userCallback => fail
             | _ => rewrite (executeWithServerSelection_resume k t op s)
             end
         end.

(** The coordinator depends on its callback only through what the
    callback does when called. *)
Lemma executeAndRelease_ext topology operation o
    (k1 k2 : Continuation TResult) st :
  (forall e x s, k1 e x s = k2 e x s) ->
  executeAndRelease W topology operation o k1 st =
  executeAndRelease W topology operation o k2 st.
Proof.
  intros H. unfold executeAndRelease, tryCatch. resume_inner.
  match goal with
  | |- match resume ?K1 ?I with _ => _ end =
       match resume ?K2 ?I with _ => _ end =>
      rewrite (resume_ext K1 K2 I); [reflexivity|]
  end.
  intros e x s. unfold bind, getSession, endSession. cbn.
  destruct (ownedBy (session s) o); [|rewrite H; reflexivity].
  destruct (session s); [|reflexivity].
  rewrite H. reflexivity.
Qed.

Lemma acquireSessionAndExecute_ext topology operation
    (k1 k2 : Continuation TResult) st :
  (forall e x s, k1 e x s = k2 e x s) ->
  acquireSessionAndExecute W topology operation k1 st =
  acquireSessionAndExecute W topology operation k2 st.
Proof.
  intros H. destruct st as [sess wr ns na ny].
  unfold acquireSessionAndExecute, startSession, setSession, bind; cbn.
  destruct (hasSessionSupport topology);
    destruct (opSession operation) as [s|]; cbn;
    repeat match goal with
           | |- context [if ?b then _ else _] => destruct b
           end;
    rewrite ?H; try reflexivity;
    match goal with
    | |- context [executeAndRelease W ?t ?op ?o k1 ?s0] =>
        rewrite (executeAndRelease_ext t op o k1 k2 s0 H)
    end; reflexivity.
Qed.

Lemma executeOperationFrom_ext checks topology operation :
  forall (k1 k2 : Continuation TResult) st,
    (forall e x s, handedOn k1 e x s = handedOn k2 e x s) ->
    executeOperationFrom W checks topology operation k1 st =
    executeOperationFrom W checks topology operation k2 st.
Proof.
  assert (Hbase : forall (k1 k2 : Continuation TResult) st,
    (forall e x s, handedOn k1 e x s = handedOn k2 e x s) ->
    acquireSessionAndExecute W topology operation (handedOn k1) st =
    acquireSessionAndExecute W topology operation (handedOn k2) st).
  { intros k1 k2 st H. apply acquireSessionAndExecute_ext. exact H. }
  induction checks as [|b rest IH]; intros k1 k2 st H.
  - exact (Hbase k1 k2 st H).
  - destruct b; [|exact (Hbase k1 k2 st H)].
    change (selectServer W (byReadPreference ReadPreference.primaryPreferred)
              (fun err _ =>
                 match err with
                 | Some e => handedOn k1 (Some e) None
                 | None =>
                     executeOperationFrom W rest topology operation
                       (handedOn k1)
                 end) st =
            selectServer W (byReadPreference ReadPreference.primaryPreferred)
              (fun err _ =>
                 match err with
                 | Some e => handedOn k2 (Some e) None
                 | None =>
                     executeOperationFrom W rest topology operation
                       (handedOn k2)
                 end) st).
    unfold selectServer.
    destruct (selectReply W (selections st)) as [e|[e|] srv];
      [reflexivity|rewrite H; reflexivity|].
    rewrite (IH (handedOn k1) (handedOn k2)); [reflexivity|].
    apply handedOn_ext. exact H.
Qed.

(** Wrapping the caller's callback once more changes nothing. *)
Lemma executeOperationFrom_handedOn checks topology operation st :
  executeOperationFrom W checks topology operation (handedOn userCallback) st =
  executeOperationFrom W checks topology operation userCallback st.
Proof.
  apply executeOperationFrom_ext.
  intros e x s. destruct e; reflexivity.
Qed.

(** A discovery round: one server selection, then the error handed over
    or the execution started again. *)
Lemma executeOperationFrom_true rest topology operation st :
  executeOperationFrom W (true :: rest) topology operation userCallback st =
  selectServer W (byReadPreference ReadPreference.primaryPreferred)
    (fun err _ =>
       match err with
       | Some e => userCallback (Some e) None
       | None => executeOperationFrom W rest topology operation userCallback
       end) st.
Proof.
  change (selectServer W (byReadPreference ReadPreference.primaryPreferred)
            (fun err _ =>
               match err with
               | Some e => handedOn userCallback (Some e) None
               | None =>
                   executeOperationFrom W rest topology operation
                     (handedOn userCallback)
               end) st =
          selectServer W (byReadPreference ReadPreference.primaryPreferred)
            (fun err _ =>
               match err with
               | Some e => userCallback (Some e) None
               | None =>
                   executeOperationFrom W rest topology operation
                     userCallback
               end) st).
  unfold selectServer.
  destruct (selectReply W (selections st)) as [e|[e|] srv];
    try reflexivity.
  rewrite executeOperationFrom_handedOn. reflexivity.
Qed.

(** A callback that completes normally is resumed after the teardown as
    it is after the inner state machine. *)
Lemma splitCallback_no_callback (t : list (Event TResult)) :
  count isCallback t = 0%nat -> splitCallback t = None.
Proof.
  intros H. destruct (splitCallback t) as [[[pre e] r]|] eqn:Hs;
    [|reflexivity].
  assert (Hn : surfaced t = Some (e, r)).
  { unfold surfaced. rewrite Hs. reflexivity. }
  apply surfaced_counts in Hn. lia.
Qed.

Lemma executeAndRelease_resume (k : Continuation TResult) topology operation
    o st :
  (forall e x s, completion (k e x s) = Normal tt) ->
  executeAndRelease W topology operation o k st =
  resume k (executeAndRelease W topology operation o userCallback st).
Proof.
  intros Hk. unfold executeAndRelease, tryCatch. resume_inner.
  pose proof (executeWithServerSelection_shape topology operation st) as H.
  cbv zeta in H; destruct H as (_ & _ & _ & Hc).
  destruct (executeWithServerSelection W topology operation userCallback st)
    as [[t st'] c].
  unfold trace, finalState, completion, surfaced in *; cbn in *.
  destruct c as [[]|x].
  - destruct Hc as [Hs _].
    destruct (splitCallback t) as [[[pre e] res]|] eqn:Hsplit;
      [|congruence].
    unfold getSession, endSession, bind; cbn.
    destruct (ownedBy (session st') o) eqn:Ho; cbn.
    + destruct (session st') as [s'|] eqn:Hsess; [|discriminate Ho]; cbn.
      match goal with
      | |- context [k ?a ?b ?c] =>
          pose proof (Hk a b c) as Hn;
          destruct (k a b c) as [[t2 s2] c2] eqn:Hrun
      end.
      cbn in Hn. subst c2. cbn.
      change (pre ++ [EndSession;
                      Callback
                        match endSessionReply W with
                        | Some e1 => Some e1
                        | None => e
                        end res])
        with (pre ++ [EndSession] ++
              [Callback
                 match endSessionReply W with
                 | Some e1 => Some e1
                 | None => e
                 end res]).
      rewrite app_assoc, splitCallback_complete, Hrun.
      rewrite <- app_assoc. reflexivity.
    + match goal with
      | |- context [k ?a ?b ?c] =>
          pose proof (Hk a b c) as Hn;
          destruct (k a b c) as [[t2 s2] c2] eqn:Hrun
      end.
      cbn in Hn. subst c2. cbn.
      rewrite splitCallback_complete, Hrun. reflexivity.
  - unfold getSession, endSession, bind, ret; cbn.
    destruct (ownedBy (session st') o) eqn:Ho; cbn.
    + destruct (session st') as [s'|] eqn:Hsess; [|discriminate Ho]; cbn.
      rewrite splitCallback_no_callback; [reflexivity|].
      rewrite count_app. unfold count in *. rewrite Hc. reflexivity.
    + rewrite splitCallback_no_callback; [reflexivity|].
      rewrite count_app. unfold count in *. rewrite Hc. reflexivity.
Qed.

Lemma acquireSessionAndExecute_resume (k : Continuation TResult) topology
    operation st :
  (forall e x s, completion (k e x s) = Normal tt) ->
  acquireSessionAndExecute W topology operation k st =
  resume k (acquireSessionAndExecute W topology operation userCallback st).
Proof.
  intros Hk.
  assert (Hcall : forall e x s,
            (let (p, c) := k e x s in let (t2, st2) := p in (t2, st2, c)) =
            resume k ([Callback e x], s, Normal tt)).
  { intros e x s. cbn. destruct (k e x s) as [[? ?] ?]. reflexivity. }
  assert (Hrel : forall o s0,
            executeAndRelease W topology operation o k s0 =
            resume k (executeAndRelease W topology operation o userCallback
                        s0)).
  { intros o s0. apply executeAndRelease_resume. exact Hk. }
  destruct st as [sess wr ns na ny].
  unfold acquireSessionAndExecute, startSession, setSession, bind; cbn.
  destruct (hasSessionSupport topology);
    destruct (opSession operation) as [s|]; cbn.
  - destruct (hasEnded s); [apply Hcall|].
    destruct (snapshotEnabled s && negb (supportsSnapshotReads topology));
      [apply Hcall|].
    rewrite Hrel.
    match goal with
    | |- context [executeAndRelease W ?t ?op ?o userCallback ?s0] =>
        destruct (executeAndRelease W t op o userCallback s0)
          as [[t2 s2] c2]
    end.
    destruct (resume _ (t2, s2, c2)) as [[? ?] ?]. reflexivity.
  - rewrite Hrel.
    match goal with
    | |- context [executeAndRelease W ?t ?op ?o userCallback ?s0] =>
        destruct (executeAndRelease W t op o userCallback s0)
          as [[t2 s2] [[]|x]]
    end; cbn; [|reflexivity].
    destruct (splitCallback t2) as [[[pre e] r]|]; cbn; [|reflexivity].
    destruct (k e r s2) as [[? ?] ?]. reflexivity.
  - apply Hcall.
  - rewrite Hrel.
    match goal with
    | |- context [executeAndRelease W ?t ?op ?o userCallback ?s0] =>
        destruct (executeAndRelease W t op o userCallback s0)
          as [[t2 s2] c2]
    end.
    destruct (resume _ (t2, s2, c2)) as [[? ?] ?]. reflexivity.
Qed.

(** Once [shouldCheckForSessionSupport()] answers [false], the run is
    that of the body, with the final callback made through
    [maybePromise]. *)
Lemma executeOperationFrom_base checks topology operation st :
  hd false checks = false ->
  executeOperationFrom W checks topology operation userCallback st =
  resume (handedOn userCallback)
    (acquireSessionAndExecute W topology operation userCallback st).
Proof.
  intros Hhd.
  rewrite <- acquireSessionAndExecute_resume.
  - destruct checks as [|[|] rest]; cbn in Hhd; try discriminate;
      reflexivity.
  - intros e x s. rewrite handedOn_userCallback. reflexivity.
Qed.

(** What the caller's callback is handed, against what the body hands
    on: the same, but for the result that came with an error. *)
Lemma handed_over (r : list (Event TResult) * State * Completion unit) :
  let r' := resume (handedOn userCallback) r in
  finalState r' = finalState r /\
  completion r' = completion r /\
  (trace r' = trace r \/
   exists pre e x,
     trace r = pre ++ [Callback (Some e) x] /\
     trace r' = pre ++ [Callback (Some e) None]) /\
  (completion r = Normal tt ->
   splitCallback (trace r') =
     match splitCallback (trace r) with
     | Some (pre, Some e, _) => Some (pre, Some e, None)
     | other => other
     end).
Proof.
  destruct r as [[t st] [[]|x]]; cbn;
    [|repeat split; auto; discriminate].
  destruct (splitCallback t) as [[[pre e] res]|] eqn:Hs; cbn.
  - rewrite handedOn_userCallback. cbn.
    apply splitCallback_sound in Hs. subst t.
    destruct e as [e|]; repeat split; eauto 10;
      intros _; rewrite !splitCallback_complete; reflexivity.
  - rewrite Hs. auto.
Qed.

Lemma handed_over_count (p : Event TResult -> bool)
    (r : list (Event TResult) * State * Completion unit) :
  (forall e x, p (Callback e x) = p (Callback e None)) ->
  count p (trace (resume (handedOn userCallback) r)) = count p (trace r).
Proof.
  intros Hp. destruct (handed_over r) as (_ & _ & [H|H] & _).
  - rewrite H. reflexivity.
  - destruct H as (pre & e & x & -> & ->).
    rewrite !count_app. unfold count. cbn. rewrite (Hp (Some e) x).
    destruct (p (Callback (Some e) None)); reflexivity.
Qed.

Lemma handed_over_surfaced
    (r : list (Event TResult) * State * Completion unit) :
  completion r = Normal tt ->
  surfaced (trace (resume (handedOn userCallback) r)) =
    match surfaced (trace r) with
    | Some (Some e, _) => Some (Some e, None)
    | other => other
    end.
Proof.
  intros Hn. destruct (handed_over r) as (_ & _ & _ & H).
  unfold surfaced. rewrite (H Hn).
  destruct (splitCallback (trace r)) as [[[pre [e|]] x]|]; reflexivity.
Qed.

(** A bound on the events of one kind in the inner state machine is a
    bound for [executeOperation] as a whole, provided the kind is not one
    of those the coordinator produces itself. *)
Lemma executeOperationFrom_count (p : Event TResult -> bool) (n : nat) checks
    topology operation st :
  (forall ev, isTeardown ev = true -> p ev = false) ->
  (forall sel, p (SelectServer sel) = false) ->
  (forall o, p (StartSession o) = false) ->
  (forall st',
     (count p (trace (executeWithServerSelection W topology operation
                        userCallback st')) <= n)%nat) ->
  (count p (trace (executeOperationFrom W checks topology operation
                     userCallback st)) <= n)%nat.
Proof.
  intros Hp Hsel Hstart Hinner.
  assert (Hcb : forall e r, p (Callback e r) = false).
  { intros e r. apply Hp. reflexivity. }
  assert (Hbase : forall st0,
    (count p (trace (acquireSessionAndExecute W topology operation
                       userCallback st0)) <= n)%nat).
  { intros st0. destruct st0 as [sess wr ns na ny].
    assert (Hrel : forall o s0,
      (count p (trace (executeAndRelease W topology operation o
                         userCallback s0)) <= n)%nat).
    { intros o s0. rewrite (executeAndRelease_count p _ _ _ _ Hp).
      apply Hinner. }
    unfold acquireSessionAndExecute, startSession, setSession, bind; cbn.
    destruct (hasSessionSupport topology);
      destruct (opSession operation) as [s|]; cbn.
    - destruct (hasEnded s);
        [unfold count; cbn; rewrite Hcb; cbn; lia|].
      destruct (snapshotEnabled s && negb (supportsSnapshotReads topology));
        [unfold count; cbn; rewrite Hcb; cbn; lia|].
      match goal with
      | |- context [executeAndRelease W ?t ?op ?o userCallback ?s0] =>
          pose proof (Hrel o s0) as H; unfold trace in H |- *;
          destruct (executeAndRelease W t op o userCallback s0) as [[? ?] ?]
      end.
      exact H.
    - match goal with
      | |- context [executeAndRelease W ?t ?op ?o userCallback ?s0] =>
          pose proof (Hrel o s0) as H; unfold trace in H |- *;
          destruct (executeAndRelease W t op o userCallback s0) as [[? ?] ?]
      end.
      unfold count in *; cbn in *. rewrite Hstart. exact H.
    - unfold count; cbn; rewrite Hcb; cbn; lia.
    - match goal with
      | |- context [executeAndRelease W ?t ?op ?o userCallback ?s0] =>
          pose proof (Hrel o s0) as H; unfold trace in H |- *;
          destruct (executeAndRelease W t op o userCallback s0) as [[? ?] ?]
      end.
      exact H. }
  assert (Hbase' : forall checks0 st0,
    hd false checks0 = false ->
    (count p (trace (executeOperationFrom W checks0 topology operation
                       userCallback st0)) <= n)%nat).
  { intros checks0 st0 Hhd.
    rewrite (executeOperationFrom_base _ _ _ _ Hhd), handed_over_count.
    - apply Hbase.
    - intros e x. rewrite !Hcb. reflexivity. }
  revert st; induction checks as [|b rest IH]; intros st.
  - apply Hbase'. reflexivity.
  - destruct b; [|apply Hbase'; reflexivity].
    rewrite executeOperationFrom_true. unfold selectServer.
    destruct (selectReply W (selections st)) as [e|[e|] srv].
    + unfold count; cbn. rewrite Hsel. cbn. lia.
    + unfold count; cbn. rewrite Hsel, Hcb. cbn. lia.
    + match goal with
      | |- context [executeOperationFrom W rest ?t ?op userCallback ?s0] =>
          pose proof (IH s0) as H;
          unfold trace in H |- *;
          destruct (executeOperationFrom W rest t op userCallback s0)
            as [[? ?] ?]
      end.
      unfold count in *; cbn in *. rewrite Hsel. exact H.
Qed.

(** ** The retry policy on its own *)

Ltac run_close :=
  unfold attemptsCarry, count in *; cbn; rewrite ?Z.add_0_r;
  repeat match goal with
         | |- _ /\ _ => split
         | |- Forall _ (_ :: _) => apply Forall_cons; cbn
         | |- Forall _ [] => apply Forall_nil
         | H : ?x = _ |- context [?x] => rewrite H; cbn
         end;
  try solve [ assumption | reflexivity | congruence | lia | f_equal; lia
            | intros; discriminate | intros; congruence ].

Lemma retryOperation_summary operation selector e v st :
  let r := retryOperation W operation selector userCallback e v st in
  sessionTxnNumber (finalState r) = sessionTxnNumber st /\
  existsb isIncrement (trace r) = false /\
  count isIncrement (trace r) = 0%nat /\
  attemptsCarry (sessionTxnNumber st) (trace r) /\
  (count isExecute (trace r) <= 1)%nat.
Proof.
  destruct st as [sess wr ns na ny].
  unfold retryOperation; run_unfold_base; cbn.
  repeat run_branch; run_close.
Qed.

Ltac use_retry lemma :=
  match goal with
  | |- context [retryOperation W ?op ?sel userCallback ?e ?v ?st] =>
      let H := fresh "Hretry" in
      pose proof (lemma op sel e v st) as H;
      unfold trace, finalState, completion, sessionTxnNumber in H;
      destruct (retryOperation W op sel userCallback e v st) as [[? ?] ?];
      cbn in H |- *;
      decompose [and] H; clear H
  end.

(** ** Transaction numbers *)

Lemma inner_transaction_number topology operation s wr ns na ny :
  let st := mkState (Some s) wr ns na ny in
  let r := executeWithServerSelection W topology operation userCallback st in
  let k := if writeRetryArmed W topology operation st then 1 else 0 in
  count isIncrement (trace r) = Z.to_nat k /\
  sessionTxnNumber (finalState r) = Some (txnNumber s + k) /\
  incrementsPrecedeAttempts (trace r) = true /\
  attemptsCarry (Some (txnNumber s + k)) (trace r).
Proof.
  destruct s as [so sx se sn stx sp sc sn0].
  unfold executeWithServerSelection, writeRetryArmed, willRetryWrite;
    run_unfold_base; cbn.
  destruct stx; cbn.
  all: repeat first [ use_retry retryOperation_summary | run_branch ].
  all: run_close.
Qed.

(** C1. Along the execution of an operation with a session, teardown
    included, the session's transaction number is incremented exactly
    once when the operation is a write and the write-retry gate holds, and
    not at all otherwise; the increment comes before the first attempt;
    and every attempt, the second one included, is made with the same
    number, which is also the number the session is left with, whatever
    the outcome. *)
Theorem transaction_number_once topology operation o s wr ns na ny :
  let st := mkState (Some s) wr ns na ny in
  let r := executeAndRelease W topology operation o userCallback st in
  let k := if writeRetryArmed W topology operation st then 1 else 0 in
  count isIncrement (trace r) = Z.to_nat k /\
  sessionTxnNumber (finalState r) = Some (txnNumber s + k) /\
  incrementsPrecedeAttempts (trace r) = true /\
  attemptsCarry (Some (txnNumber s + k)) (trace r).
Proof.
  intros st r k.
  destruct (inner_transaction_number topology operation s wr ns na ny)
    as (Hcount & Htxn & Horder & Hcarry).
  fold st k in Hcount, Htxn, Horder, Hcarry.
  destruct (executeAndRelease_cases topology operation o st)
    as (_ & Hsame & _).
  destruct (executeAndRelease_trace topology operation o st)
    as (pre & suffix & suffix' & Hi & Hr & Hq & Hq' & _).
  fold r in Hsame, Hr.
  rewrite Hi in Hcount, Horder, Hcarry.
  rewrite Hr, Hsame.
  assert (Hp : forall ev : Event TResult,
             isTeardown ev = true -> isIncrement ev = false).
  { intros ev; destruct ev; cbn; congruence. }
  rewrite (count_teardown _ _ _ Hp Hq) in Hcount.
  rewrite (count_teardown _ _ _ Hp Hq').
  rewrite incrementsPrecedeAttempts_teardown in Horder |- * by assumption.
  rewrite attemptsCarry_teardown in Hcarry |- * by assumption.
  auto.
Qed.

(** ** Attempts *)

Lemma retryOperation_attempts operation selector e v st :
  let r := retryOperation W operation selector userCallback e v st in
  (count isExecute (trace r) <= 1)%nat /\
  (count isCallback (trace r) <= 1)%nat /\
  (count isExecute (trace r) = 1%nat ->
   forall e2 r2,
     executeReply W (attempts st) = ExecuteCalls e2 r2 ->
     surfaced (trace r) = Some (e2, r2)).
Proof.
  destruct st as [sess wr ns na ny].
  unfold retryOperation; run_unfold_base; cbn.
  repeat run_branch; run_close.
Qed.

Lemma inner_attempts topology operation st :
  let r := executeWithServerSelection W topology operation userCallback st in
  (count isExecute (trace r) <= 2)%nat /\
  (count isCallback (trace r) <= 1)%nat /\
  (count isExecute (trace r) = 2%nat ->
   (exists e1 r1,
      executeReply W (attempts st) = ExecuteCalls (Some e1) r1 /\
      instanceofMongoError e1 = true) /\
   forall e2 r2,
     executeReply W (S (attempts st)) = ExecuteCalls e2 r2 ->
     surfaced (trace r) = Some (e2, r2)).
Proof.
  destruct st as [sess wr ns na ny].
  unfold executeWithServerSelection; run_unfold_base; cbn.
  repeat first [ use_retry retryOperation_attempts | run_branch ].
  all: unfold count in *; cbn; repeat split; try lia; try (intros; discriminate).
  all: try solve [ intros; eauto ].
  all: intros e2 r2 He2;
    match goal with
    | H : _ -> forall _ _, _ -> _ |- _ =>
        specialize (H ltac:(lia) e2 r2 He2); unfold surfaced in H
    end;
    match goal with
    | H : splitCallback ?l = _, H' : context [splitCallback ?l] |- _ =>
        rewrite H in H'; exact H'
    end.
Qed.

(** C4. One execution invokes [operation.execute] at most twice, whether
    one counts over [executeOperation] as a whole or over the inner state
    machine.  A second attempt is made only after the first one reported a
    driver error; its outcome is what the inner state machine hands to its
    callback, unchanged; and that callback is called at most once. *)
Theorem at_most_two_attempts topology operation st :
  let whole := executeOperation W topology operation st in
  let r := executeWithServerSelection W topology operation userCallback st in
  (count isExecute (trace whole) <= 2)%nat /\
  (count isExecute (trace r) <= 2)%nat /\
  (count isCallback (trace r) <= 1)%nat /\
  (count isExecute (trace r) = 2%nat ->
   (exists e1 r1,
      executeReply W (attempts st) = ExecuteCalls (Some e1) r1 /\
      instanceofMongoError e1 = true) /\
   forall e2 r2,
     executeReply W (S (attempts st)) = ExecuteCalls e2 r2 ->
     surfaced (trace r) = Some (e2, r2)).
Proof.
  intros whole r. split.
  - apply executeOperationFrom_count.
    + intros ev; destruct ev; cbn; congruence.
    + reflexivity.
    + reflexivity.
    + intros st'. apply (inner_attempts topology operation st').
  - apply (inner_attempts topology operation st).
Qed.

(** ** Pre-flight *)

(** C7. When the session is in a transaction and the operation's read
    preference is not primary, the inner state machine does nothing but
    hand a transaction error to its callback: no server is selected, no
    attempt is made, the state is left as it was.  So does
    [executeOperation] as a whole for a live session the caller passed,
    once [shouldCheckForSessionSupport()] answers [false]. *)
Theorem transaction_requires_primary topology operation rp s wr ns na ny :
  readPreference operation = Some rp ->
  ReadPreference.equals rp ReadPreference.primary = false ->
  inTransaction s = true ->
  let st := mkState (Some s) wr ns na ny in
  (forall callback : Continuation TResult,
     executeWithServerSelection W topology operation callback st =
     callback (Some (transactionReadPreferenceError rp)) None st) /\
  executeWithServerSelection W topology operation userCallback st =
    ([Callback (Some (transactionReadPreferenceError rp)) None], st,
     Normal tt) /\
  class (transactionReadPreferenceError rp) = MongoTransactionErrorC /\
  (hd false (sessionSupportChecks W) = false ->
   opSession operation = Some s ->
   hasSessionSupport topology = true ->
   hasEnded s = false ->
   snapshotEnabled s && negb (supportsSnapshotReads topology) = false ->
   executeOperation W topology operation st =
     ([Callback (Some (transactionReadPreferenceError rp)) None], st,
      Normal tt)).
Proof.
  intros Hrp Hne Htx st.
  assert (Hall : forall (callback : Continuation TResult) st0,
             session st0 = Some s ->
             executeWithServerSelection W topology operation callback st0 =
             callback (Some (transactionReadPreferenceError rp)) None st0).
  { intros callback st0 Hs0.
    unfold executeWithServerSelection, bind, getSession, sessionInTransaction.
    cbn. rewrite Hs0, Hrp, Htx, Hne. cbn.
    destruct (callback _ _ _) as [[t st2] c]. reflexivity. }
  split; [|split; [|split]].
  - intros callback. apply Hall. reflexivity.
  - rewrite Hall by reflexivity. reflexivity.
  - reflexivity.
  - intros Hhd Hs Hsup Hend Hsnap.
    assert (Hbody : acquireSessionAndExecute W topology operation
                      userCallback st =
                    ([Callback (Some (transactionReadPreferenceError rp))
                        None], st, Normal tt)).
    { unfold acquireSessionAndExecute, setSession, bind. cbn.
      rewrite Hsup, Hs, Hend, Hsnap.
      unfold executeAndRelease, tryCatch.
      rewrite Hall by reflexivity.
      unfold bind, getSession, ownedBy. cbn.
      destruct (owner s); reflexivity. }
    unfold executeOperation.
    rewrite (executeOperationFrom_base _ _ _ _ Hhd), Hbody. reflexivity.
Qed.

(** ** The retry gates *)

Lemma retryOperation_marker operation selector e v st :
  willRetryWriteOption
    (finalState (retryOperation W operation selector userCallback e v st)) =
  willRetryWriteOption st.
Proof.
  destruct st as [sess wr ns na ny].
  unfold retryOperation; run_unfold_base; cbn.
  repeat run_branch; reflexivity.
Qed.

Lemma retryOperation_reselects operation selector e v s wr ns na ny :
  hasAspect operation WRITE_OPERATION = false ->
  isRetryableReadError W e = true ->
  count isSelectServer
    (trace (retryOperation W operation selector userCallback e v
              (mkState (Some s) wr ns na ny))) = 1%nat.
Proof.
  intros Hw Hr.
  unfold retryOperation; run_unfold_base; cbn.
  rewrite Hw, Hr; cbn. rewrite andb_false_r.
  repeat run_branch; reflexivity.
Qed.

Lemma write_gate_marks_options topology operation server s wr ns na ny :
  selectReply W ns = SelectCalls None (Some server) ->
  hasAspect operation RETRYABLE = true ->
  willRetryWriteOption
    (finalState
       (executeWithServerSelection W topology operation userCallback
          (mkState (Some s) wr ns na ny))) =
  wr || (hasAspect operation WRITE_OPERATION &&
         willRetryWrite W topology (inTransaction s) server operation).
Proof.
  intros Hsel Hretryable.
  destruct s as [so sx se sn stx sp sc sn0].
  unfold executeWithServerSelection; run_unfold_base; cbn.
  destruct (hasAspect operation WRITE_OPERATION &&
            willRetryWrite W topology stx server operation) eqn:Hg.
  - assert (stx = false) as ->.
    { destruct stx; [|reflexivity]. unfold willRetryWrite in Hg.
      cbn in Hg. rewrite !andb_false_r in Hg. discriminate. }
    cbn.
    repeat first
      [ rewrite Hsel | rewrite Hretryable | rewrite Hg | rewrite orb_true_r
      | rewrite andb_false_r | progress cbn
      | match goal with
        | |- context [retryOperation W ?op ?sel userCallback ?e ?v ?st] =>
            let H := fresh "Hretry" in
            pose proof (retryOperation_marker op sel e v st) as H;
            unfold finalState in H;
            destruct (retryOperation W op sel userCallback e v st)
              as [[? ?] ?];
            cbn in H |- *
        end
      | run_branch ];
    rewrite ?orb_true_r; try reflexivity; try assumption; try congruence.
  - destruct stx; cbn;
    repeat first
      [ rewrite Hsel | rewrite Hretryable | rewrite Hg | rewrite orb_false_r
      | rewrite andb_false_r | progress cbn
      | match goal with
        | |- context [retryOperation W ?op ?sel userCallback ?e ?v ?st] =>
            let H := fresh "Hretry" in
            pose proof (retryOperation_marker op sel e v st) as H;
            unfold finalState in H;
            destruct (retryOperation W op sel userCallback e v st)
              as [[? ?] ?];
            cbn in H |- *
        end
      | run_branch ];
    rewrite ?orb_false_r; try reflexivity; try assumption; try congruence.
Qed.

Lemma read_gate_governs_retry topology operation server s wr ns na ny e res :
  selectReply W ns = SelectCalls None (Some server) ->
  hasAspect operation RETRYABLE = true ->
  hasAspect operation READ_OPERATION = true ->
  hasAspect operation WRITE_OPERATION = false ->
  executeReply W na = ExecuteCalls (Some e) res ->
  instanceofMongoError e = true ->
  isRetryableReadError W e = true ->
  (count isSelectServer
     (trace (executeWithServerSelection W topology operation userCallback
               (mkState (Some s) wr ns na ny))) = 2%nat <->
   willRetryRead topology (inTransaction s) server operation = true).
Proof.
  intros Hsel Hretryable Hread Hwrite Hexec Hmongo Hrr.
  destruct s as [so sx se sn stx sp sc sn0].
  unfold executeWithServerSelection; run_unfold_base; cbn.
  destruct (willRetryRead topology stx server operation) eqn:Hg.
  - assert (stx = false) as ->.
    { destruct stx; [|reflexivity]. unfold willRetryRead in Hg.
      cbn in Hg. rewrite !andb_false_r in Hg. discriminate. }
    cbn.
    repeat first
      [ rewrite Hsel | rewrite Hretryable | rewrite Hread | rewrite Hwrite
      | rewrite Hexec | rewrite Hmongo | rewrite Hg
      | rewrite andb_false_r | progress cbn
      | match goal with
        | |- context [retryOperation W ?op ?sel userCallback ?e ?v
                        (mkState (Some ?s0) ?a1 ?a2 ?a3 ?a4)] =>
            let H := fresh "Hretry" in
            pose proof (retryOperation_reselects op sel e v s0 a1 a2 a3 a4
                          Hwrite Hrr) as H;
            unfold trace in H;
            destruct (retryOperation W op sel userCallback e v
                        (mkState (Some s0) a1 a2 a3 a4)) as [[? ?] ?];
            cbn in H |- *
        end
      | run_branch ];
    unfold count in *; cbn; split; intros; try reflexivity; try congruence;
      try lia.
  - destruct stx; cbn;
    repeat first
      [ rewrite Hsel | rewrite Hretryable | rewrite Hread | rewrite Hwrite
      | rewrite Hexec | rewrite Hmongo | rewrite Hg
      | rewrite andb_false_r | progress cbn
      | run_branch ];
    unfold count in *; cbn; split; intros; try reflexivity; try congruence;
      try lia.
Qed.

(** C3. The read gate holds exactly when [retryReads] is not [false], the
    session is not in a transaction, the selected server's max wire
    version is at least [SUPPORTS_OP_MSG] and the operation can retry
    reads; the write gate holds exactly when [retryWrites] is [true], the
    session is not in a transaction, the server advertises retryable
    writes and the operation can retry writes.  These are the gates the
    execution of a [RETRYABLE] operation with a session goes by: the
    operation's options are marked [willRetryWrite] exactly when it is a
    write and the write gate holds, and a read whose first attempt fails
    with a retryable driver error leads to a second server selection
    exactly when the read gate holds. *)
Theorem retry_gates topology inTx server operation :
  (willRetryRead topology inTx server operation = true <->
   retryReads topology <> Some false /\
   inTx = false /\
   MONGODB_WIRE_VERSION.SUPPORTS_OP_MSG <= maxWireVersion (Some server) /\
   canRetryRead operation = true) /\
  (willRetryWrite W topology inTx server operation = true <->
   retryWrites topology = Some true /\
   inTx = false /\
   supportsRetryableWrites W (Some server) = true /\
   canRetryWrite operation = true) /\
  (forall s wr ns na ny,
     inTransaction s = inTx ->
     selectReply W ns = SelectCalls None (Some server) ->
     hasAspect operation RETRYABLE = true ->
     let r := executeWithServerSelection W topology operation userCallback
                (mkState (Some s) wr ns na ny) in
     willRetryWriteOption (finalState r) =
       wr || (hasAspect operation WRITE_OPERATION &&
              willRetryWrite W topology inTx server operation) /\
     forall e res,
       hasAspect operation READ_OPERATION = true ->
       hasAspect operation WRITE_OPERATION = false ->
       executeReply W na = ExecuteCalls (Some e) res ->
       instanceofMongoError e = true ->
       isRetryableReadError W e = true ->
       (count isSelectServer (trace r) = 2%nat <->
        willRetryRead topology inTx server operation = true)).
Proof.
  split; [|split].
  - unfold willRetryRead, retryReadsNotFalse, supportsRetryableReads,
      MONGODB_WIRE_VERSION.SUPPORTS_OP_MSG.
    rewrite !andb_true_iff, negb_true_iff, Z.leb_le.
    split.
    + intros [[[H1 H2] H3] H4]. repeat split; auto.
      destruct (retryReads topology) as [[|]|]; congruence.
    + intros (H1 & H2 & H3 & H4). repeat split; auto.
      destruct (retryReads topology) as [[|]|]; congruence.
  - unfold willRetryWrite, retryWritesIsTrue.
    rewrite !andb_true_iff, negb_true_iff.
    split.
    + intros [[[H1 H2] H3] H4]. repeat split; auto.
      destruct (retryWrites topology) as [[|]|]; congruence.
    + intros (H1 & H2 & H3 & H4). repeat split; auto.
      rewrite H1. reflexivity.
  - intros s wr ns na ny Htx Hsel Hretryable r. subst inTx r. split.
    + apply write_gate_marks_options; assumption.
    + intros e res Hread Hwrite Hexec Hmongo Hrr.
      apply (read_gate_governs_retry topology operation server s wr ns na ny
               e res); assumption.
Qed.

(** ** The legacy storage-engine remap *)

(** The retry policy tests retryability before it looks for the legacy
    refusal: a write error that the classifier does not accept is handed
    to the callback as it is, whatever its code and its message. *)
Lemma remap_behind_retryability_check operation selector
    (callback : Continuation TResult) e v st :
  hasAspect operation WRITE_OPERATION = true ->
  isRetryableWriteError W e v = false ->
  retryOperation W operation selector callback e v st =
  callback (Some e) None st.
Proof.
  intros Hwrite Hrw. unfold retryOperation.
  rewrite Hwrite, Hrw. reflexivity.
Qed.

(** The remap is reached only past that test.  When a retry-armed write
    fails its first attempt with a driver error that the classifier
    accepts as a retryable write error (and, should the operation also be
    a read, as a retryable read error), whose code is [IllegalOperation]
    and whose server message contains [Transaction numbers], the callback
    receives a server error whose message is exactly the canonical text,
    and no second attempt and no second server selection is made. *)
Lemma legacy_refusal_remapped topology operation s wr ns na ny server e res :
  selectReply W ns = SelectCalls None (Some server) ->
  hasAspect operation RETRYABLE = true ->
  hasAspect operation WRITE_OPERATION = true ->
  willRetryWrite W topology (inTransaction s) server operation = true ->
  executeReply W na = ExecuteCalls (Some e) res ->
  instanceofMongoError e = true ->
  isRetryableWriteError W e (maxWireVersion (Some server)) = true ->
  (hasAspect operation READ_OPERATION = true ->
   isRetryableReadError W e = true) ->
  codeIs e IllegalOperation = true ->
  testTransactionNumbers (errmsg e) = true ->
  let st := mkState (Some s) wr ns na ny in
  let r := executeWithServerSelection W topology operation userCallback st in
  surfaced (trace r) = Some (Some (remappedError e), None) /\
  class (remappedError e) = MongoServerErrorC /\
  message (remappedError e) = MMAPv1_RETRY_WRITES_ERROR_MESSAGE /\
  count isExecute (trace r) = 1%nat /\
  count isSelectServer (trace r) = 1%nat.
Proof.
  intros Hsel Hretryable Hwrite Hgate Hexec Hmongo Hrw Hrr Hcode Hmsg st r.
  subst st r.
  assert (Htx : inTransaction s = false).
  { unfold willRetryWrite in Hgate.
    destruct (inTransaction s); [|reflexivity].
    rewrite andb_false_r in Hgate. discriminate. }
  destruct s as [so sx se sn stx sp sc sn0]; cbn in Htx; subst stx.
  unfold executeWithServerSelection, retryOperation; run_unfold_base; cbn.
  cbn in Hgate, Hrw.
  unfold MMAPv1_RETRY_WRITES_ERROR_CODE.
  assert (Hread : hasAspect operation READ_OPERATION &&
                  negb (isRetryableReadError W e) = false).
  { destruct (hasAspect operation READ_OPERATION); [|reflexivity].
    rewrite Hrr; reflexivity. }
  repeat first
    [ rewrite Hsel | rewrite Hretryable | rewrite Hwrite | rewrite Hgate
    | rewrite Hexec | rewrite Hmongo | rewrite Hrw | rewrite Hcode
    | rewrite Hmsg | rewrite Hread | rewrite orb_true_r
    | rewrite andb_false_r
    | progress cbn
    | run_branch ].
  all: repeat split; reflexivity.
Qed.

(** ** Teardown *)

(** When the session is the one this execution created and the inner
    state machine called back with [(e, res)], the [try] statement ends
    the session once and calls its callback, the one [maybePromise]
    handed to the body, with the end-session error if there is one,
    whether or not [e] is an error, and with [e] otherwise, together with
    [res]. *)
Lemma executeAndRelease_surfaces topology operation o st e res :
  let inner := executeWithServerSelection W topology operation userCallback st in
  let r := executeAndRelease W topology operation o userCallback st in
  ownedBy (session st) o = true ->
  surfaced (trace inner) = Some (e, res) ->
  count isEndSession (trace r) = 1%nat /\
  surfaced (trace r) =
    Some (match endSessionReply W with
          | Some endSessionError => Some endSessionError
          | None => e
          end, res).
Proof.
  intros inner r Hown Hs.
  destruct (executeAndRelease_cases topology operation o st) as (_ & _ & H).
  destruct (executeWithServerSelection_shape topology operation st)
    as (_ & _ & Hend & Hc).
  fold inner r in H, Hend, Hc.
  rewrite Hown in H.
  destruct (completion inner).
  - destruct H as (pre & e' & res' & Hi & Hr).
    rewrite Hi in Hs, Hend. rewrite surfaced_app in Hs.
    injection Hs as <- <-.
    rewrite count_app in Hend.
    rewrite Hr. split.
    + rewrite count_app. cbn in *. lia.
    + change (pre ++ [EndSession; Callback
                (match endSessionReply W with
                 | Some ee => Some ee
                 | None => e'
                 end) res'])
        with (pre ++ [EndSession] ++ [Callback
                (match endSessionReply W with
                 | Some ee => Some ee
                 | None => e'
                 end) res']).
      rewrite app_assoc. apply surfaced_app.
  - apply surfaced_counts in Hs. lia.
Qed.

(** C10. When the inner state machine throws, the [try] statement
    completes normally: it ends the session if this execution created it,
    does nothing otherwise (in particular for a session the caller
    passed, for which no owner was remembered), and never calls the
    caller's callback. *)
Theorem synchronous_throw_swallowed topology operation o st x :
  let inner := executeWithServerSelection W topology operation userCallback st in
  let r := executeAndRelease W topology operation o userCallback st in
  completion inner = Thrown x ->
  completion r = Normal tt /\
  count isCallback (trace r) = 0%nat /\
  surfaced (trace r) = None /\
  trace r =
    trace inner ++ (if ownedBy (session st) o then [EndSession] else []) /\
  ownedBy (session st) None = false.
Proof.
  intros inner r Hx.
  destruct (executeAndRelease_cases topology operation o st) as (Hn & _ & H).
  destruct (executeWithServerSelection_shape topology operation st)
    as (_ & _ & _ & Hc).
  fold inner r in Hn, H, Hc.
  rewrite Hx in H, Hc.
  assert (Hcb : count isCallback (trace r) = 0%nat).
  { rewrite H, count_app, Hc.
    destruct (ownedBy (session st) o); reflexivity. }
  repeat split; try assumption.
  - destruct (surfaced (trace r)) as [[e res]|] eqn:Hs; [|reflexivity].
    apply surfaced_counts in Hs. lia.
  - unfold ownedBy. destruct (session st) as [s|]; [|reflexivity].
    destruct (owner s); reflexivity.
Qed.

(** ** Session acquisition and ownership *)

Lemma executeAndRelease_sessions topology operation o st :
  let r := executeAndRelease W topology operation o userCallback st in
  count isStartSession (trace r) = 0%nat /\
  count isEndSession (trace r) =
    (if ownedBy (session st) o then 1 else 0)%nat.
Proof.
  intros r.
  destruct (executeWithServerSelection_shape topology operation st)
    as (_ & Hstart & Hend & _).
  destruct (executeAndRelease_trace topology operation o st)
    as (pre & suffix & suffix' & Hi & Hr & Hq & Hq' & Hcount).
  fold r in Hr. rewrite Hi in Hstart, Hend. rewrite Hr.
  assert (Hp : forall ev : Event TResult,
             isTeardown ev = true -> isStartSession ev = false).
  { intros ev; destruct ev; cbn; congruence. }
  rewrite (count_teardown _ _ _ Hp Hq) in Hstart.
  rewrite (count_teardown _ _ _ Hp Hq').
  rewrite count_app in Hend |- *.
  split; [exact Hstart|]. lia.
Qed.

Lemma acquireSessionAndExecute_sessions topology operation st :
  let r := acquireSessionAndExecute W topology operation userCallback st in
  count isStartSession (trace r) =
    (if hasSessionSupport topology
     then match opSession operation with Some _ => 0 | None => 1 end
     else 0)%nat /\
  count isEndSession (trace r) = count isStartSession (trace r).
Proof.
  destruct st as [sess wr ns na ny].
  unfold acquireSessionAndExecute, startSession, setSession, bind; cbn.
  destruct (hasSessionSupport topology);
    destruct (opSession operation) as [s|] eqn:Hs; cbn.
  - destruct (hasEnded s); [split; reflexivity|].
    destruct (snapshotEnabled s && negb (supportsSnapshotReads topology));
      [split; reflexivity|].
    match goal with
    | |- context [executeAndRelease W ?t ?op ?o userCallback ?st] =>
        pose proof (executeAndRelease_sessions t op o st) as H;
        unfold trace in H;
        destruct (executeAndRelease W t op o userCallback st) as [[? ?] ?]
    end.
    cbn in *. destruct H as [H1 H2].
    destruct (owner s); cbn in H2; unfold count in *; cbn; lia.
  - match goal with
    | |- context [executeAndRelease W ?t ?op ?o userCallback ?st] =>
        pose proof (executeAndRelease_sessions t op o st) as H;
        unfold trace in H;
        destruct (executeAndRelease W t op o userCallback st) as [[? ?] ?]
    end.
    cbn in *. rewrite Nat.eqb_refl in H. destruct H as [H1 H2].
    unfold count in *; cbn; lia.
  - split; reflexivity.
  - match goal with
    | |- context [executeAndRelease W ?t ?op ?o userCallback ?st] =>
        pose proof (executeAndRelease_sessions t op o st) as H;
        unfold trace in H;
        destruct (executeAndRelease W t op o userCallback st) as [[? ?] ?]
    end.
    cbn in *. destruct H as [H1 H2]. unfold count in *; cbn; lia.
Qed.

Lemma executeOperationFrom_sessions checks topology operation st :
  let r := executeOperationFrom W checks topology operation userCallback st in
  (count isStartSession (trace r) <=
     match opSession operation with Some _ => 0 | None => 1 end)%nat /\
  count isEndSession (trace r) = count isStartSession (trace r).
Proof.
  assert (Hbase : forall st,
    let r := acquireSessionAndExecute W topology operation userCallback st in
    (count isStartSession (trace r) <=
       match opSession operation with Some _ => 0 | None => 1 end)%nat /\
    count isEndSession (trace r) = count isStartSession (trace r)).
  { intros st0 r.
    destruct (acquireSessionAndExecute_sessions topology operation st0)
      as [H1 H2].
    fold r in H1, H2. rewrite H2, H1. split; [|reflexivity].
    destruct (hasSessionSupport topology);
      destruct (opSession operation); lia. }
  assert (Hbase' : forall checks0 st0,
    hd false checks0 = false ->
    let r := executeOperationFrom W checks0 topology operation userCallback
               st0 in
    (count isStartSession (trace r) <=
       match opSession operation with Some _ => 0 | None => 1 end)%nat /\
    count isEndSession (trace r) = count isStartSession (trace r)).
  { intros checks0 st0 Hhd r. subst r.
    rewrite (executeOperationFrom_base _ _ _ _ Hhd).
    rewrite !handed_over_count by reflexivity. apply Hbase. }
  revert st; induction checks as [|b rest IH]; intros st.
  - apply Hbase'. reflexivity.
  - destruct b; [|apply Hbase'; reflexivity].
    intros r; subst r. rewrite executeOperationFrom_true. unfold selectServer.
    destruct (selectReply W (selections st)) as [e|[e|] srv].
    + split; cbn; [lia|reflexivity].
    + split; cbn; [lia|reflexivity].
    + match goal with
      | |- context [executeOperationFrom W rest ?t ?op userCallback ?s0] =>
          pose proof (IH s0) as H;
          unfold trace in H |- *;
          destruct (executeOperationFrom W rest t op userCallback s0)
            as [[? ?] ?]
      end.
      exact H.
Qed.

(** C9. Whether the session is ended is decided by comparing its owner
    tag with the owner this execution remembered: a session is taken for
    this execution's own exactly when it carries a tag and that tag is the
    remembered one.  Hence an execution ends a session exactly when it
    started one, at most once, and a session passed by the caller is
    never ended, whatever tag it carries. *)
Theorem implicit_session_ended_iff_created topology operation st :
  let r := executeOperation W topology operation st in
  (forall s o,
     ownedBy (Some s) o = true <-> exists a, owner s = Some a /\ o = Some a) /\
  count isEndSession (trace r) = count isStartSession (trace r) /\
  (count isStartSession (trace r) <= 1)%nat /\
  match opSession operation with
  | Some _ => count isEndSession (trace r) = 0%nat
  | None => True
  end.
Proof.
  intros r. split.
  { intros s o. unfold ownedBy.
    destruct (owner s) as [a|], o as [b|]; split;
      try discriminate; try (intros (c & H1 & H2); congruence).
    - intros H. apply Nat.eqb_eq in H. subst b. eauto.
    - intros (c & H1 & H2). injection H1 as ->. injection H2 as ->.
      apply Nat.eqb_refl. }
  destruct (executeOperationFrom_sessions (sessionSupportChecks W)
              topology operation st) as [H1 H2].
  fold (executeOperation W topology operation st) in H1, H2. fold r in H1, H2.
  repeat split; try assumption.
  - destruct (opSession operation); lia.
  - destruct (opSession operation); [lia|exact I].
Qed.

(** C8, amended. Session acquisition fails fast, with nothing done but
    the callback and the caller's session left as it was: on a topology
    with session support, with an expired-session error when the passed
    session has ended, and with a compatibility error when the passed
    session has not ended and asks for snapshot reads that the topology
    cannot serve; on a topology without session support, with a
    compatibility error whenever a session was passed, ended or not.  An
    implicit session is started exactly when the topology supports
    sessions and no session was passed. *)
Theorem session_acquisition_fails_fast topology operation st :
  let r := acquireSessionAndExecute W topology operation userCallback st in
  let st' :=
    mkState (opSession operation) (willRetryWriteOption st) (selections st)
      (attempts st) (symbols st) in
  let failsWith c msg :=
    r = ([Callback (Some (newError c msg)) None], st', Normal tt) in
  (forall s,
     opSession operation = Some s ->
     hasSessionSupport topology = true ->
     hasEnded s = true ->
     failsWith MongoExpiredSessionErrorC
       "Use of expired sessions is not permitted") /\
  (forall s,
     opSession operation = Some s ->
     hasSessionSupport topology = true ->
     hasEnded s = false ->
     snapshotEnabled s = true ->
     supportsSnapshotReads topology = false ->
     failsWith MongoCompatibilityErrorC
       "Snapshot reads require MongoDB 5.0 or later") /\
  (forall s,
     opSession operation = Some s ->
     hasSessionSupport topology = false ->
     failsWith MongoCompatibilityErrorC
       "Current topology does not support sessions") /\
  (count isStartSession (trace r) = 1%nat <->
   hasSessionSupport topology = true /\ opSession operation = None) /\
  (count isStartSession (trace r) <= 1)%nat.
Proof.
  intros r st' failsWith; subst failsWith st'.
  destruct (acquireSessionAndExecute_sessions topology operation st)
    as [Hstart _].
  fold r in Hstart.
  split; [|split; [|split; [|split]]].
  - intros s Hs Hsup Hend. subst r.
    unfold acquireSessionAndExecute, setSession, bind; cbn.
    rewrite Hsup, Hs, Hend. reflexivity.
  - intros s Hs Hsup Hend Hsnap Hcap. subst r.
    unfold acquireSessionAndExecute, setSession, bind; cbn.
    rewrite Hsup, Hs, Hend, Hsnap, Hcap. reflexivity.
  - intros s Hs Hsup. subst r.
    unfold acquireSessionAndExecute, setSession, bind; cbn.
    rewrite Hsup, Hs. reflexivity.
  - rewrite Hstart.
    destruct (hasSessionSupport topology);
      destruct (opSession operation); split;
      try (intros [H1 H2]); intros; try discriminate; auto.
  - rewrite Hstart.
    destruct (hasSessionSupport topology);
      destruct (opSession operation); lia.
Qed.

(** ** Selecting again *)

(** For an operation that is a read and not a write, a second selection
    that yields neither an error nor a server never reaches the report
    that server selection failed without error: the capability check on
    the absent server comes first. *)
Lemma reselection_without_server_read operation selector e v s wr ns na ny :
  hasAspect operation READ_OPERATION = true ->
  hasAspect operation WRITE_OPERATION = false ->
  isRetryableReadError W e = true ->
  selectReply W ns = SelectCalls None None ->
  surfaced
    (trace (retryOperation W operation selector userCallback e v
              (mkState (Some s) wr ns na ny))) =
  Some (Some (newError MongoUnexpectedServerResponseErrorC
                "Selected server does not support retryable reads"),
        None).
Proof.
  intros Hread Hwrite Hrr Hsel.
  unfold retryOperation; run_unfold_base; cbn.
  rewrite Hread, Hwrite, Hrr; cbn.
  repeat first [ rewrite Hsel | progress cbn | run_branch ]; reflexivity.
Qed.

(** * Further properties of the execution core *)

(** ** What every run of the inner state machine has *)

Ltac kept_close :=
  cbn in *;
  repeat match goal with
         | H : sessionKept _ _ |- _ => unfold sessionKept in H; cbn in H
         | |- sessionKept _ _ => unfold sessionKept; cbn
         | H : context [match session ?x with _ => _ end] |- _ =>
             destruct (session x); cbn in H
         | |- context [match ?x with _ => _ end] =>
             is_var x; destruct x; cbn
         | H : Some _ = Some _ |- _ => injection H as H
         | H : None = Some _ |- _ => discriminate H
         | H : Some _ = None |- _ => discriminate H
         end;
  intuition (try congruence; try lia).

Lemma retryOperation_profile operation selector e v st :
  let r := retryOperation W operation selector userCallback e v st in
  selectionsUse selector (trace r) /\
  (count isExecute (trace r) <= count isSelectServer (trace r))%nat /\
  (count isSelectServer (trace r) <= 1)%nat /\
  sessionKept (session st) (session (finalState r)) /\
  sessionTxnNumber (finalState r) = sessionTxnNumber st /\
  count (isUnpin false) (trace r) = 0%nat /\
  (count (isUnpin true) (trace r) <= 1)%nat /\
  ((1 <= count (isUnpin true) (trace r))%nat ->
   instanceofMongoNetworkError e = true /\
   hasAspect operation CURSOR_CREATING = true /\
   sessionInTransaction (session st) = false).
Proof.
  destruct st as [sess wr ns na ny].
  unfold retryOperation; run_unfold_base; cbn.
  repeat run_branch.
  all: unfold selectionsUse, count, sessionKept; cbn;
    repeat match goal with
           | |- _ /\ _ => split
           | |- Forall _ (_ :: _) => apply Forall_cons; cbn
           | |- Forall _ [] => apply Forall_nil
           end;
    try solve [ reflexivity | lia | intros; lia | congruence
              | intros; exfalso; lia ].
  all: try solve [ destruct sess as [s0|]; cbn; intuition (try congruence; try lia) ].
  all: try solve [ intros _; repeat split; try assumption;
                   repeat match goal with
                          | H : _ && _ = true |- _ =>
                              apply andb_true_iff in H; destruct H
                          | H : negb _ = true |- _ =>
                              apply negb_true_iff in H
                          end; congruence ].
Qed.

Ltac use_retry_profile :=
  match goal with
  | |- context [retryOperation W ?op ?sel userCallback ?e ?v ?st] =>
      let H := fresh "Hretry" in
      pose proof (retryOperation_profile op sel e v st) as H;
      unfold trace, finalState, completion, sessionTxnNumber in H;
      destruct (retryOperation W op sel userCallback e v st) as [[? ?] ?];
      cbn in H |- *;
      decompose [and] H; clear H
  end.

Lemma inner_profile topology operation st :
  let r := executeWithServerSelection W topology operation userCallback st in
  selectionsUse
    (chooseSelector topology operation (effectiveReadPreference operation))
    (trace r) /\
  (count isExecute (trace r) <= count isSelectServer (trace r))%nat /\
  (count isSelectServer (trace r) <= 2)%nat /\
  sessionKept (session st) (session (finalState r)) /\
  (bypassPinningCheck operation = true ->
   count (isUnpin false) (trace r) = 0%nat) /\
  ((1 <= count (isUnpin true) (trace r))%nat ->
   (exists e res,
      executeReply W (attempts st) = ExecuteCalls (Some e) res /\
      instanceofMongoNetworkError e = true) /\
   hasAspect operation CURSOR_CREATING = true /\
   sessionInTransaction (session st) = false).
Proof.
  destruct st as [sess wr ns na ny].
  unfold executeWithServerSelection, effectiveReadPreference;
    run_unfold_base; cbn.
  repeat first [ use_retry_profile | run_branch ].
  all: unfold selectionsUse, count in *; cbn;
    repeat match goal with
           | |- _ /\ _ => split
           | |- Forall _ (_ :: _) => apply Forall_cons; cbn
           | |- Forall _ [] => apply Forall_nil
           end;
    try solve [ reflexivity | assumption | lia | intros; lia | congruence
              | intros; exfalso; lia | intros; congruence ].
  all: try solve [ kept_close ].
  all: try solve [ intros Hb;
                   repeat match goal with
                          | H : _ && negb (bypassPinningCheck _) = _ |- _ =>
                              rewrite Hb in H; cbn in H;
                              rewrite ?andb_false_r in H
                          end; try congruence; auto ].
  all: try solve [ intros Hu;
                   match goal with
                   | H : (1 <= _)%nat -> _ |- _ =>
                       destruct (H Hu) as (? & ? & ?)
                   end; repeat split; eauto ].
Qed.

(** X1. All server selections of one run of the inner state machine,
    the one made for the retry included, use one and the same selector,
    the one chosen from the operation before the first selection; for a
    cursor-iterating operation that is the same-server selector on the
    operation's server, whatever else the operation asks for. *)
Theorem one_selector_per_execution topology operation st :
  let r := executeWithServerSelection W topology operation userCallback st in
  let selector :=
    chooseSelector topology operation (effectiveReadPreference operation) in
  selectionsUse selector (trace r) /\
  (hasAspect operation CURSOR_ITERATING = true ->
   selectionsUse (sameServerSelector (opServer operation)) (trace r)).
Proof.
  intros r selector.
  destruct (inner_profile topology operation st) as (H & _).
  fold r selector in H. split; [exact H|].
  intros Hc. unfold selector, chooseSelector in H. rewrite Hc in H. exact H.
Qed.

(** X2. Every attempt has a server selection of its own before it: a run
    of the inner state machine never makes more attempts than server
    selections, and never more than two selections. *)
Theorem attempts_follow_selections topology operation st :
  let r := executeWithServerSelection W topology operation userCallback st in
  (count isExecute (trace r) <= count isSelectServer (trace r))%nat /\
  (count isSelectServer (trace r) <= 2)%nat.
Proof.
  intros r.
  destruct (inner_profile topology operation st) as (_ & H1 & H2 & _).
  split; assumption.
Qed.

(** X3. The inner state machine changes nothing of a session but its
    pinned-server slot, which it may empty and never fills, and its
    transaction number, which it may raise by one: owner, explicitness,
    the ended and snapshot flags and the transaction state are as before,
    and a run that starts without a session ends without one. *)
Theorem session_fields_preserved topology operation st :
  let r := executeWithServerSelection W topology operation userCallback st in
  sessionKept (session st) (session (finalState r)).
Proof.
  intros r.
  destruct (inner_profile topology operation st) as (_ & _ & _ & H & _).
  exact H.
Qed.

(** X4. The session is unpinned only where the code says so.  An
    operation that bypasses the pinning check never causes the plain
    unpin; and the forced unpin happens only after the first attempt
    failed with a network error, for a cursor-creating operation, on a
    session that is not in a transaction. *)
Theorem unpin_only_when_warranted topology operation st :
  let r := executeWithServerSelection W topology operation userCallback st in
  (bypassPinningCheck operation = true ->
   count (isUnpin false) (trace r) = 0%nat) /\
  ((1 <= count (isUnpin true) (trace r))%nat ->
   (exists e res,
      executeReply W (attempts st) = ExecuteCalls (Some e) res /\
      instanceofMongoNetworkError e = true) /\
   hasAspect operation CURSOR_CREATING = true /\
   sessionInTransaction (session st) = false).
Proof.
  intros r.
  destruct (inner_profile topology operation st) as (_ & _ & _ & _ & H1 & H2).
  split; assumption.
Qed.

(** ** Runs that end after one selection or one attempt *)

Ltac path_open Hpre Hpre' :=
  match goal with
  | st : State |- _ => destruct st as [sess wr ns na ny]
  end;
  unfold preflightFails, effectiveReadPreference, retryArmed in *;
  pose proof Hpre as Hpre'; rewrite andb_comm in Hpre';
  unfold executeWithServerSelection; run_unfold_base; cbn in *;
  match goal with
  | |- context [readPreference ?op] =>
      destruct (readPreference op) as [rp|]; cbn in *
  end;
  match goal with
  | sess : option ClientSession |- _ => destruct sess as [s|]; cbn in *
  end.

(** X5. When the first server selection yields no server to use (an
    error, or neither error nor server), no attempt is made: the caller's
    callback receives the selection error if there is one, and receives
    neither error nor result if there is none; the session's transaction
    number and the operation's options are left alone. *)
Theorem selection_failure_no_attempt topology operation st err srv :
  preflightFails operation st = false ->
  selectReply W (selections st) = SelectCalls err srv ->
  (err = None -> srv = None) ->
  let r := executeWithServerSelection W topology operation userCallback st in
  surfaced (trace r) = Some (err, None) /\
  count isExecute (trace r) = 0%nat /\
  count isIncrement (trace r) = 0%nat /\
  sessionTxnNumber (finalState r) = sessionTxnNumber st /\
  willRetryWriteOption (finalState r) = willRetryWriteOption st.
Proof.
  intros Hpre Hsel Hnone r; subst r.
  path_open Hpre Hpre'.
  all: destruct err as [e|]; [|rewrite (Hnone eq_refl) in Hsel].
  all: repeat first
         [ rewrite Hpre | rewrite Hpre' | rewrite Hsel | progress cbn
         | run_branch ].
  all: repeat split; reflexivity.
Qed.

(** X6. When the first attempt succeeds, the run is one selection and one
    attempt, and the caller receives that attempt's result with no error,
    whether or not the retry policy was armed. *)
Theorem first_success_single_attempt topology operation st server res :
  preflightFails operation st = false ->
  selectReply W (selections st) = SelectCalls None (Some server) ->
  executeReply W (attempts st) = ExecuteCalls None res ->
  let r := executeWithServerSelection W topology operation userCallback st in
  surfaced (trace r) = Some (None, res) /\
  count isExecute (trace r) = 1%nat /\
  count isSelectServer (trace r) = 1%nat.
Proof.
  intros Hpre Hsel Hexec r; subst r.
  path_open Hpre Hpre'.
  all: repeat first
         [ rewrite Hpre | rewrite Hpre' | rewrite Hsel | rewrite Hexec
         | progress cbn | run_branch ].
  all: repeat split; reflexivity.
Qed.

(** X7. When the retry policy is not armed (no session, no [RETRYABLE]
    aspect, or neither gate open for the operation's aspects), the run is
    one selection and one attempt, and the caller's callback receives
    exactly what [operation.execute] reports, error and result alike. *)
Theorem unarmed_single_attempt topology operation st server e res :
  preflightFails operation st = false ->
  selectReply W (selections st) = SelectCalls None (Some server) ->
  retryArmed W topology operation st server = false ->
  executeReply W (attempts st) = ExecuteCalls e res ->
  let r := executeWithServerSelection W topology operation userCallback st in
  surfaced (trace r) = Some (e, res) /\
  count isExecute (trace r) = 1%nat /\
  count isSelectServer (trace r) = 1%nat /\
  count isIncrement (trace r) = 0%nat /\
  willRetryWriteOption (finalState r) = willRetryWriteOption st.
Proof.
  intros Hpre Hsel Harmed Hexec r; subst r.
  path_open Hpre Hpre'.
  all: try (destruct (hasAspect operation RETRYABLE); cbn in Harmed |- *).
  all: repeat first
         [ rewrite Hpre | rewrite Hpre' | rewrite Hsel | rewrite Hexec
         | rewrite Harmed | progress cbn | run_branch ].
  all: repeat split; reflexivity.
Qed.

(** X8. An error of the first attempt that is not a driver error is never
    retried: the caller receives that very error after one selection and
    one attempt. *)
Theorem foreign_error_not_retried topology operation st server e res :
  preflightFails operation st = false ->
  selectReply W (selections st) = SelectCalls None (Some server) ->
  executeReply W (attempts st) = ExecuteCalls (Some e) res ->
  instanceofMongoError e = false ->
  let r := executeWithServerSelection W topology operation userCallback st in
  option_map fst (surfaced (trace r)) = Some (Some e) /\
  count isExecute (trace r) = 1%nat /\
  count isSelectServer (trace r) = 1%nat.
Proof.
  intros Hpre Hsel Hexec Hforeign r; subst r.
  path_open Hpre Hpre'.
  all: repeat first
         [ rewrite Hpre | rewrite Hpre' | rewrite Hsel | rewrite Hexec
         | rewrite Hforeign | progress cbn | run_branch ].
  all: repeat split; reflexivity.
Qed.

(** X9. An error of the first attempt that the classifier does not accept
    for the operation's kind (for a write, judged at the wire version of
    the server the attempt ran on) is never retried: the caller receives
    that very error after one selection and one attempt. *)
Theorem non_retryable_error_not_retried topology operation st server e res :
  preflightFails operation st = false ->
  selectReply W (selections st) = SelectCalls None (Some server) ->
  executeReply W (attempts st) = ExecuteCalls (Some e) res ->
  (hasAspect operation WRITE_OPERATION = true /\
   isRetryableWriteError W e (maxWireVersion (Some server)) = false) \/
  (hasAspect operation READ_OPERATION = true /\
   isRetryableReadError W e = false) ->
  let r := executeWithServerSelection W topology operation userCallback st in
  option_map fst (surfaced (trace r)) = Some (Some e) /\
  count isExecute (trace r) = 1%nat /\
  count isSelectServer (trace r) = 1%nat.
Proof.
  intros Hpre Hsel Hexec Hrej r; subst r.
  path_open Hpre Hpre'.
  all: unfold retryOperation; run_unfold_base; cbn in *.
  all: destruct Hrej as [[Ha Hc]|[Ha Hc]].
  all: repeat first
         [ rewrite Hpre | rewrite Hpre' | rewrite Hsel | rewrite Hexec
         | rewrite Ha | rewrite Hc | rewrite orb_true_r | progress cbn
         | run_branch ].
  all: repeat split; reflexivity.
Qed.

(** ** The second selection and the second attempt *)

Lemma retryOperation_second operation selector e v st :
  let r := retryOperation W operation selector userCallback e v st in
  (count isSelectServer (trace r) = 1%nat ->
   forall e2 srv2,
     selectReply W (selections st) = SelectCalls (Some e2) srv2 ->
     surfaced (trace r) = Some (Some e2, None) /\
     count isExecute (trace r) = 0%nat) /\
  (count isExecute (trace r) = 1%nat ->
   exists srv2,
     selectReply W (selections st) = SelectCalls None (Some srv2) /\
     attemptsOf (trace r) = [Execute srv2 (sessionTxnNumber st)] /\
     (hasAspect operation READ_OPERATION = true ->
      supportsRetryableReads (Some srv2) = true) /\
     (hasAspect operation WRITE_OPERATION = true ->
      supportsRetryableWrites W (Some srv2) = true)).
Proof.
  destruct st as [sess wr ns na ny].
  unfold retryOperation, attemptsOf; run_unfold_base; cbn.
  repeat run_branch.
  all: unfold count; cbn; split; intros; try discriminate; try congruence.
  all: try solve [ repeat split; congruence ].
  all: match goal with
       | H : selectReply W _ = SelectCalls None (Some ?srv) |- _ =>
           exists srv; split; [reflexivity|]; split; [reflexivity|];
           split; intros Ha;
           match goal with
           | H : _ && negb ?b = false |- ?b = true =>
               rewrite Ha in H; cbn in H;
               apply negb_false_iff in H; exact H
           end
       end.
Qed.

Ltac use_retry_second :=
  match goal with
  | |- context [retryOperation W ?op ?sel userCallback ?e ?v ?st] =>
      let H := fresh "Hsecond" in
      let H' := fresh "Hsummary" in
      pose proof (retryOperation_second op sel e v st) as H;
      pose proof (retryOperation_summary op sel e v st) as H';
      unfold trace, finalState, completion, sessionTxnNumber in H, H';
      destruct (retryOperation W op sel userCallback e v st) as [[? ?] ?];
      cbn in H, H' |- *;
      destruct H as [? ?]; destruct H' as (? & _)
  end.

(** X10. When the run comes to a second server selection and that one
    reports an error, the caller receives the selection error (not the
    error that led to the retry) and there is no second attempt. *)
Theorem reselection_error_surfaces topology operation st e2 srv2 :
  let r := executeWithServerSelection W topology operation userCallback st in
  count isSelectServer (trace r) = 2%nat ->
  selectReply W (S (selections st)) = SelectCalls (Some e2) srv2 ->
  surfaced (trace r) = Some (Some e2, None) /\
  count isExecute (trace r) = 1%nat.
Proof.
  intros r; subst r.
  destruct st as [sess wr ns na ny].
  unfold executeWithServerSelection; run_unfold_base; cbn.
  repeat first [ use_retry_second | run_branch ].
  all: unfold count in *; cbn; intros Hc Hsel; try discriminate Hc.
  all: match goal with
       | H : _ -> forall _ _, _ -> _ |- _ =>
           destruct (H ltac:(lia) e2 srv2 Hsel) as [Hs Hx]
       end;
       unfold surfaced in Hs;
       repeat match goal with
              | H : splitCallback ?l = _ |- _ => rewrite H in Hs
              end;
       split; [congruence|lia].
Qed.

(** X11. When there are two attempts, the first ran on the server of the
    first selection and the second on the server of the second selection,
    both with the transaction number the session ends with; and the
    second server passed the capability check of every aspect the
    operation has: wire version at least 6 for a read, advertised
    retryable writes for a write. *)
Theorem second_attempt_on_capable_server topology operation st :
  let r := executeWithServerSelection W topology operation userCallback st in
  count isExecute (trace r) = 2%nat ->
  exists srv1 srv2,
    selectReply W (selections st) = SelectCalls None (Some srv1) /\
    selectReply W (S (selections st)) = SelectCalls None (Some srv2) /\
    attemptsOf (trace r) =
      [Execute srv1 (sessionTxnNumber (finalState r));
       Execute srv2 (sessionTxnNumber (finalState r))] /\
    (hasAspect operation READ_OPERATION = true ->
     supportsRetryableReads (Some srv2) = true) /\
    (hasAspect operation WRITE_OPERATION = true ->
     supportsRetryableWrites W (Some srv2) = true).
Proof.
  intros r; subst r.
  destruct st as [sess wr ns na ny].
  unfold executeWithServerSelection, attemptsOf; run_unfold_base; cbn.
  repeat first [ use_retry_second | run_branch ].
  all: unfold count in *; cbn; intros Hc; try discriminate Hc.
  all: match goal with
       | H : _ -> exists _, _ |- _ =>
           destruct (H ltac:(lia)) as (srv2 & Hs2 & Ha2 & Hr2 & Hw2)
       end;
       match goal with
       | H : selectReply W ?n = SelectCalls None (Some ?srv),
         H' : selectReply W (S ?n) = _ |- _ =>
           exists srv, srv2
       end;
       split; [first [assumption|reflexivity]|];
       split; [first [assumption|reflexivity]|];
       split; [|split; assumption];
       rewrite Ha2; repeat f_equal; congruence.
Qed.

(** ** The write marker, transactions, pinning *)

(** X12. The operation's options are marked [willRetryWrite] exactly when
    the session's transaction number is incremented: after a run the
    marker is set if it was set before or an increment took place, and
    not otherwise. *)
Theorem marker_iff_increment topology operation st :
  let r := executeWithServerSelection W topology operation userCallback st in
  willRetryWriteOption (finalState r) =
  willRetryWriteOption st || (1 <=? count isIncrement (trace r))%nat.
Proof.
  intros r; subst r.
  destruct st as [sess wr ns na ny].
  unfold executeWithServerSelection; run_unfold_base; cbn.
  repeat first
    [ match goal with
      | |- context [retryOperation W ?op ?sel userCallback ?e ?v ?st] =>
          let H := fresh "Hmarker" in
          let H' := fresh "Hsummary" in
          pose proof (retryOperation_marker op sel e v st) as H;
          pose proof (retryOperation_summary op sel e v st) as H';
          unfold trace, finalState, completion, sessionTxnNumber in H, H';
          destruct (retryOperation W op sel userCallback e v st) as [[? ?] ?];
          cbn in H, H' |- *;
          destruct H' as (_ & _ & ? & _)
      end
    | run_branch ].
  all: unfold count in *; cbn;
    repeat match goal with
           | H : Datatypes.length _ = 0%nat |- _ => rewrite H
           | H : willRetryWriteOption _ = _ |- _ => rewrite H
           end;
    cbn; rewrite ?orb_false_r, ?orb_true_r;
    first [ reflexivity | congruence | lia ].
Qed.

(** X13. An operation whose session is in a transaction is never retried:
    the run makes at most one selection and one attempt, the transaction
    number stays as it is and the options are not marked. *)
Theorem transaction_single_attempt topology operation s wr ns na ny :
  inTransaction s = true ->
  let st := mkState (Some s) wr ns na ny in
  let r := executeWithServerSelection W topology operation userCallback st in
  (count isExecute (trace r) <= 1)%nat /\
  (count isSelectServer (trace r) <= 1)%nat /\
  count isIncrement (trace r) = 0%nat /\
  sessionTxnNumber (finalState r) = Some (txnNumber s) /\
  willRetryWriteOption (finalState r) = wr.
Proof.
  intros Htx st r; subst st r.
  assert (Hr : forall server,
             willRetryRead topology true server operation = false).
  { intros server. unfold willRetryRead. cbn.
    rewrite andb_false_r. reflexivity. }
  assert (Hw : forall server,
             willRetryWrite W topology true server operation = false).
  { intros server. unfold willRetryWrite. cbn.
    rewrite andb_false_r. reflexivity. }
  destruct s as [so sx se sn stx sp sc sn0]; cbn in Htx; subst stx.
  unfold executeWithServerSelection; run_unfold_base; cbn.
  repeat first
    [ rewrite Hr | rewrite Hw | rewrite andb_false_r | progress cbn
    | run_branch ].
  all: unfold count; cbn; repeat split; try reflexivity; lia.
Qed.

(** X14. A session that is pinned and whose transaction is committed is
    unpinned before anything else is done, unless the operation bypasses
    the pinning check; it stays unpinned to the end of the run. *)
Theorem committed_pinned_session_unpinned topology operation s wr ns na ny :
  let st := mkState (Some s) wr ns na ny in
  preflightFails operation st = false ->
  isPinned s = true ->
  isCommitted s = true ->
  bypassPinningCheck operation = false ->
  let r := executeWithServerSelection W topology operation userCallback st in
  (exists rest, trace r = Unpin false :: rest) /\
  (exists s', session (finalState r) = Some s' /\ isPinned s' = false).
Proof.
  intros st Hpre Hpin Hcom Hby r; subst st r.
  unfold preflightFails, effectiveReadPreference in Hpre.
  pose proof Hpre as Hpre'. rewrite andb_comm in Hpre'.
  destruct s as [so sx se sn stx sp sc sn0]; cbn in *; subst sp sc.
  unfold executeWithServerSelection; run_unfold_base; cbn.
  rewrite Hby; cbn.
  destruct (readPreference operation) as [rp|]; cbn in *.
  all: repeat first
         [ rewrite Hpre | rewrite Hpre' | progress cbn
         | use_retry_profile | run_branch ].
  all: split; [eexists; reflexivity|].
  all: try solve [ eexists; split; reflexivity ].
  all: kept_close;
    match goal with
    | |- exists s', Some ?c = Some s' /\ _ =>
        exists c; split; [reflexivity|];
        destruct (isPinned c); [|reflexivity]
    end; intuition congruence.
Qed.

(** ** The coordinator as a whole *)

Lemma retryOperation_no_throw operation selector e v s wr ns na ny :
  neverThrows W ->
  completion (retryOperation W operation selector userCallback e v
                (mkState (Some s) wr ns na ny)) = Normal tt.
Proof.
  intros [Hsel Hexec].
  unfold retryOperation; run_unfold_base; cbn.
  repeat run_branch; try reflexivity.
  all: exfalso;
    match goal with
    | H : selectReply W _ = SelectThrows _ |- _ => exact (Hsel _ _ H)
    | H : executeReply W _ = ExecuteThrows _ |- _ => exact (Hexec _ _ H)
    end.
Qed.

Lemma inner_no_throw topology operation st :
  neverThrows W ->
  completion (executeWithServerSelection W topology operation userCallback st)
  = Normal tt.
Proof.
  intros Hnever. pose proof Hnever as [Hsel Hexec].
  destruct st as [sess wr ns na ny].
  unfold executeWithServerSelection; run_unfold_base; cbn.
  repeat first
    [ match goal with
      | |- context [retryOperation W ?op ?sel userCallback ?e ?v
                      (mkState (Some ?s0) ?a1 ?a2 ?a3 ?a4)] =>
          let H := fresh "Hretry" in
          pose proof (retryOperation_no_throw op sel e v s0 a1 a2 a3 a4
                        Hnever) as H;
          unfold completion in H;
          destruct (retryOperation W op sel userCallback e v
                      (mkState (Some s0) a1 a2 a3 a4)) as [[? ?] ?];
          cbn in H |- *
      end
    | run_branch ];
    try reflexivity; try assumption.
  all: exfalso;
    match goal with
    | H : selectReply W _ = SelectThrows _ |- _ => exact (Hsel _ _ H)
    | H : executeReply W _ = ExecuteThrows _ |- _ => exact (Hexec _ _ H)
    end.
Qed.

Lemma executeAndRelease_callbacks topology operation o st :
  let inner := executeWithServerSelection W topology operation userCallback st in
  let r := executeAndRelease W topology operation o userCallback st in
  completion r = Normal tt /\
  count isCallback (trace r) =
    match completion inner with
    | Normal _ => 1%nat
    | Thrown _ => 0%nat
    end.
Proof.
  intros inner r.
  destruct (executeAndRelease_cases topology operation o st) as (Hn & _ & H).
  destruct (executeWithServerSelection_shape topology operation st)
    as (_ & _ & _ & Hc).
  fold inner r in Hn, H, Hc. split; [exact Hn|].
  destruct (completion inner).
  - destruct H as (pre & e & res & Hi & Hr). destruct Hc as [_ Hc].
    rewrite Hi, count_app in Hc. rewrite Hr, count_app.
    destruct (ownedBy (session st) o); cbn in *; lia.
  - rewrite H, count_app, Hc.
    destruct (ownedBy (session st) o); reflexivity.
Qed.

Lemma acquireSessionAndExecute_callbacks topology operation st :
  let r := acquireSessionAndExecute W topology operation userCallback st in
  completion r = Normal tt /\
  (count isCallback (trace r) <= 1)%nat /\
  (neverThrows W -> count isCallback (trace r) = 1%nat).
Proof.
  destruct st as [sess wr ns na ny].
  unfold acquireSessionAndExecute, startSession, setSession, bind; cbn.
  destruct (hasSessionSupport topology);
    destruct (opSession operation) as [s|]; cbn.
  1: destruct (hasEnded s); [repeat split; cbn; auto|];
     destruct (snapshotEnabled s && negb (supportsSnapshotReads topology));
       [repeat split; cbn; auto|].
  3: repeat split; cbn; auto.
  all: match goal with
       | |- context [executeAndRelease W ?t ?op ?o userCallback ?s0] =>
           pose proof (executeAndRelease_callbacks t op o s0) as H;
           pose proof (inner_no_throw t op s0) as Hn;
           cbv zeta in H;
           destruct (completion
                       (executeWithServerSelection W t op userCallback s0));
           unfold trace, completion in H |- *;
           destruct (executeAndRelease W t op o userCallback s0)
             as [[? ?] ?]
       end;
       cbn in *; destruct H as [H1 H2]; unfold count in *; cbn;
       repeat split; try assumption; try lia;
       intros Hnever; specialize (Hn Hnever); try discriminate; lia.
Qed.

Lemma executeOperationFrom_callbacks checks topology operation st :
  let r := executeOperationFrom W checks topology operation userCallback st in
  (count isCallback (trace r) <= 1)%nat /\
  (neverThrows W ->
   completion r = Normal tt /\ count isCallback (trace r) = 1%nat) /\
  (hd false checks = false -> completion r = Normal tt) /\
  (forall x,
     completion r = Thrown x ->
     count isCallback (trace r) = 0%nat /\
     exists n,
       firstn (S n) checks = repeat true (S n) /\
       (forall i, (i < n)%nat ->
          exists srv,
            selectReply W (selections st + i) = SelectCalls None srv) /\
       selectReply W (selections st + n) = SelectThrows x /\
       trace r =
         repeat (SelectServer
                   (byReadPreference ReadPreference.primaryPreferred))
           (S n)).
Proof.
  assert (Hbase : forall st0,
    let r := acquireSessionAndExecute W topology operation userCallback st0 in
    completion r = Normal tt /\
    (count isCallback (trace r) <= 1)%nat /\
    (neverThrows W -> count isCallback (trace r) = 1%nat)).
  { intros st0. apply acquireSessionAndExecute_callbacks. }
  assert (Hbase' : forall (checks0 : list bool) st0,
    hd false checks0 = false ->
    let r := executeOperationFrom W checks0 topology operation userCallback
               st0 in
    completion r = Normal tt /\
    (count isCallback (trace r) <= 1)%nat /\
    (neverThrows W -> count isCallback (trace r) = 1%nat)).
  { intros checks0 st0 Hhd r. subst r.
    rewrite (executeOperationFrom_base _ _ _ _ Hhd).
    rewrite handed_over_count by reflexivity.
    destruct (handed_over
                (acquireSessionAndExecute W topology operation userCallback
                   st0)) as (_ & -> & _).
    apply Hbase. }
  assert (Hstop : forall (checks0 : list bool) st0,
    hd false checks0 = false ->
    let r := executeOperationFrom W checks0 topology operation userCallback
               st0 in
    (count isCallback (trace r) <= 1)%nat /\
    (neverThrows W ->
     completion r = Normal tt /\ count isCallback (trace r) = 1%nat) /\
    (hd false checks0 = false -> completion r = Normal tt) /\
    (forall x,
       completion r = Thrown x ->
       count isCallback (trace r) = 0%nat /\
       exists n,
         firstn (S n) checks0 = repeat true (S n) /\
         (forall i, (i < n)%nat ->
            exists srv,
              selectReply W (selections st0 + i) = SelectCalls None srv) /\
         selectReply W (selections st0 + n) = SelectThrows x /\
         trace r =
           repeat (SelectServer
                     (byReadPreference ReadPreference.primaryPreferred))
             (S n))).
  { intros checks0 st0 Hhd r.
    destruct (Hbase' checks0 st0 Hhd) as (Hn & Hle & Hone).
    fold r in Hn, Hle, Hone.
    split; [exact Hle|]. split; [|split].
    - intros Hnever. split; [exact Hn|exact (Hone Hnever)].
    - intros _. exact Hn.
    - intros x Hx. rewrite Hn in Hx. discriminate. }
  revert st; induction checks as [|b rest IH]; intros st.
  - exact (Hstop [] st eq_refl).
  - destruct b; [|exact (Hstop (false :: rest) st eq_refl)].
    intros r; subst r. rewrite executeOperationFrom_true. unfold selectServer.
    destruct (selectReply W (selections st)) as [e|[e|] srv] eqn:Hsel.
    + unfold count; cbn. split; [lia|]. split; [|split].
      * intros [Hs _]. exfalso. exact (Hs _ _ Hsel).
      * discriminate.
      * intros x Hx. injection Hx as <-. split; [reflexivity|].
        exists 0%nat. rewrite Nat.add_0_r.
        split; [reflexivity|]. split; [intros i Hi; lia|].
        split; [exact Hsel|reflexivity].
    + unfold count; cbn. split; [lia|]. split; [|split].
      * intros _. split; reflexivity.
      * discriminate.
      * discriminate.
    + match goal with
      | |- context [executeOperationFrom W rest ?t ?op userCallback ?s0] =>
          pose proof (IH s0) as H;
          unfold trace, completion in H |- *;
          destruct (executeOperationFrom W rest t op userCallback s0)
            as [[? ?] ?]
      end.
      cbn in *. destruct H as (H1 & H2 & _ & H4).
      unfold count in *; cbn.
      split; [exact H1|]. split; [exact H2|]. split; [discriminate|].
      intros x Hx. destruct (H4 x Hx) as (H0 & n & Hf & Hcalls & Hthrow & Ht).
      split; [exact H0|].
      exists (S n). split; [|split; [|split]].
      * cbn in Hf |- *. f_equal. exact Hf.
      * intros i Hi. destruct i as [|i].
        -- rewrite Nat.add_0_r. eauto.
        -- rewrite Nat.add_succ_r. apply Hcalls. lia.
      * rewrite Nat.add_succ_r. exact Hthrow.
      * rewrite Ht. reflexivity.
Qed.

(** X15. When no call of [selectServer] or [execute] throws,
    [executeOperation] completes normally and calls the caller's callback
    exactly once, whatever the replies are. *)
Theorem callback_exactly_once topology operation st :
  neverThrows W ->
  let r := executeOperation W topology operation st in
  completion r = Normal tt /\ count isCallback (trace r) = 1%nat.
Proof.
  intros Hnever r.
  destruct (executeOperationFrom_callbacks (sessionSupportChecks W)
              topology operation st) as (_ & H & _).
  exact (H Hnever).
Qed.

(** X16. [executeOperation] never calls the caller's callback twice.  It
    completes by throwing only when [selectServer] threw in one of its
    own discovery rounds: the answers of
    [shouldCheckForSessionSupport()] up to that round were all [true],
    the selections of the rounds before it called back without an error,
    the run consists of the discovery selections alone, made with read
    preference [primaryPreferred], and the caller's callback has not been
    called.  Once [shouldCheckForSessionSupport()] answers [false] the
    execution completes normally, whatever [selectServer],
    [operation.execute] and [endSession] reply, and also when
    [selectServer] or [operation.execute] throws. *)
Theorem callback_at_most_once topology operation st :
  let r := executeOperation W topology operation st in
  (count isCallback (trace r) <= 1)%nat /\
  (hd false (sessionSupportChecks W) = false -> completion r = Normal tt) /\
  (forall x,
     completion r = Thrown x ->
     count isCallback (trace r) = 0%nat /\
     exists n,
       firstn (S n) (sessionSupportChecks W) = repeat true (S n) /\
       (forall i, (i < n)%nat ->
          exists srv,
            selectReply W (selections st + i) = SelectCalls None srv) /\
       selectReply W (selections st + n) = SelectThrows x /\
       trace r =
         repeat (SelectServer
                   (byReadPreference ReadPreference.primaryPreferred))
           (S n)).
Proof.
  intros r.
  destruct (executeOperationFrom_callbacks (sessionSupportChecks W)
              topology operation st) as (H1 & _ & H3 & H4).
  split; [exact H1|]. split; [exact H3|exact H4].
Qed.

(** The state the [try] statement leaves: the state of the inner state
    machine, with the session marked as ended when this execution owns
    it. *)
Lemma executeAndRelease_state topology operation o st :
  let inner := executeWithServerSelection W topology operation userCallback st in
  let r := executeAndRelease W topology operation o userCallback st in
  session (finalState r) =
    (if ownedBy (session st) o
     then option_map ended (session (finalState inner))
     else session (finalState inner)) /\
  (ownedBy (session st) o = true ->
   forall pre e res,
     splitCallback (trace r) = Some (pre, e, res) ->
     exists pre', pre = pre' ++ [EndSession]).
Proof.
  intros inner r; subst inner r.
  destruct (executeAndRelease_cases topology operation o st) as (_ & _ & Hcase).
  unfold executeAndRelease, tryCatch in *.
  rewrite executeWithServerSelection_resume in *.
  pose proof (executeWithServerSelection_shape topology operation st) as H.
  cbv zeta in H; destruct H as (Hown & _ & _ & Hc).
  destruct (executeWithServerSelection W topology operation userCallback st)
    as [[t st'] c].
  unfold trace, finalState, completion, surfaced in *; cbn in *.
  rewrite <- (Hown o) in *.
  destruct c as [[]|x].
  - destruct Hc as [Hs _].
    destruct (splitCallback t) as [[[pre e] res]|] eqn:Hsplit;
      [|congruence].
    unfold getSession, endSession, bind in *; cbn in *.
    destruct (ownedBy (session st') o) eqn:Ho; cbn in *.
    + destruct (session st') as [s'|] eqn:Hsess; [|discriminate Ho]; cbn in *.
      split; [reflexivity|].
      intros _ pre0 e0 res0 H0.
      change (pre ++ [EndSession;
                      Callback
                        match endSessionReply W with
                        | Some e1 => Some e1
                        | None => e
                        end res])
        with (pre ++ [EndSession] ++
              [Callback
                 match endSessionReply W with
                 | Some e1 => Some e1
                 | None => e
                 end res]) in H0.
      rewrite app_assoc, splitCallback_complete in H0.
      injection H0 as <- _ _. eauto.
    + split; [reflexivity|discriminate].
  - unfold getSession, endSession, bind, ret in *; cbn in *.
    destruct (ownedBy (session st') o) eqn:Ho; cbn in *.
    + destruct (session st') as [s'|] eqn:Hsess; [|discriminate Ho]; cbn in *.
      split; [reflexivity|].
      intros _ pre0 e0 res0 H0.
      assert (Hn : surfaced (t ++ [EndSession]) = Some (e0, res0)).
      { unfold surfaced. rewrite H0. reflexivity. }
      apply surfaced_counts in Hn. rewrite count_app in Hn.
      unfold count in *. cbn in *. lia.
    + split; [reflexivity|discriminate].
Qed.

Lemma executeOperation_no_discovery topology operation st :
  hd false (sessionSupportChecks W) = false ->
  executeOperation W topology operation st =
  resume (handedOn userCallback)
    (acquireSessionAndExecute W topology operation userCallback st).
Proof.
  intros Hhd. unfold executeOperation.
  apply executeOperationFrom_base. exact Hhd.
Qed.

Lemma ownedBy_None (s : option ClientSession) : ownedBy s None = false.
Proof.
  unfold ownedBy. destruct s as [s|]; [|reflexivity].
  destruct (owner s); reflexivity.
Qed.

(** X17. The implicit session is ended before the caller hears back.  On
    a topology with session support, for an operation without a session,
    the run starts by starting a session; whenever it ends by calling the
    caller's callback, the call of [endSession] comes right before that
    call; and the session it leaves behind is ended and carries the owner
    tag minted for it. *)
Theorem implicit_session_ended_before_callback topology operation st :
  hd false (sessionSupportChecks W) = false ->
  hasSessionSupport topology = true ->
  opSession operation = None ->
  let r := executeOperation W topology operation st in
  (exists rest, trace r = StartSession (symbols st) :: rest) /\
  (exists s',
     session (finalState r) = Some s' /\
     hasEnded s' = true /\
     owner s' = Some (symbols st) /\
     explicit s' = false) /\
  (forall pre e res,
     splitCallback (trace r) = Some (pre, e, res) ->
     exists pre', pre = pre' ++ [EndSession]).
Proof.
  intros Hhd Hsup Hnone r; subst r.
  rewrite (executeOperation_no_discovery _ _ _ Hhd).
  enough (Hbody :
    let r := acquireSessionAndExecute W topology operation userCallback st in
    (exists rest, trace r = StartSession (symbols st) :: rest) /\
    (exists s',
       session (finalState r) = Some s' /\
       hasEnded s' = true /\
       owner s' = Some (symbols st) /\
       explicit s' = false) /\
    (forall pre e res,
       splitCallback (trace r) = Some (pre, e, res) ->
       exists pre', pre = pre' ++ [EndSession])).
  { cbv zeta in Hbody. destruct Hbody as ((rest & Hstart) & Hsess & Horder).
    destruct (handed_over
                (acquireSessionAndExecute W topology operation userCallback
                   st)) as (-> & _ & [->|Hlast] & _).
    - split; [eauto|]. split; assumption.
    - destruct Hlast as (pre & e & x & Hold & ->).
      split; [|split; [exact Hsess|]].
      + rewrite Hold in Hstart. destruct pre as [|ev pre].
        * discriminate Hstart.
        * injection Hstart as -> _. cbn. eauto.
      + intros pre0 e0 res0 Hsplit.
        rewrite splitCallback_complete in Hsplit.
        injection Hsplit as <- _ _.
        apply (Horder pre (Some e) x).
        rewrite Hold. apply splitCallback_complete. }
  destruct st as [sess wr ns na ny].
  unfold acquireSessionAndExecute, startSession, setSession, bind; cbn.
  rewrite Hsup, Hnone; cbn.
  match goal with
  | |- context [executeAndRelease W ?t ?op ?o userCallback ?s0] =>
      pose proof (executeAndRelease_state t op o s0) as H;
      pose proof (inner_profile t op s0) as Hp;
      cbv zeta in H, Hp;
      destruct Hp as (_ & _ & _ & Hkept & _);
      remember (executeWithServerSelection W t op userCallback s0) as I
        eqn:HI;
      clear HI;
      remember (executeAndRelease W t op o userCallback s0) as R eqn:HR;
      clear HR;
      destruct R as [[t1 st1] c1]; destruct I as [[ti sti] ci]
  end.
  unfold trace, finalState in *. cbn in *.
  rewrite Nat.eqb_refl in H. destruct H as [Hsess Horder].
  split; [eexists; reflexivity|]. split.
  - rewrite Hsess.
    destruct (session sti) as [s'|]; [|contradiction].
    cbn. exists (ended s'). cbn. intuition congruence.
  - intros pre e res Hsplit.
    destruct (splitCallback t1) as [[[pre0 e0] res0]|] eqn:H0.
    + injection Hsplit as <- <- <-.
      destruct (Horder eq_refl pre0 e0 res0 eq_refl) as (pre' & ->).
      exists (StartSession ny :: pre'). reflexivity.
    + discriminate.
Qed.

(** X18. A session the caller passed is handed back as live as it came:
    after [executeOperation], with or without an early refusal, it is not
    ended and has the owner, explicitness, snapshot flag and transaction
    state it had; only its pinned-server slot may have been emptied and
    its transaction number raised by one. *)
Theorem explicit_session_left_live topology operation st s :
  hd false (sessionSupportChecks W) = false ->
  opSession operation = Some s ->
  let r := executeOperation W topology operation st in
  sessionKept (Some s) (session (finalState r)).
Proof.
  intros Hhd Hs r; subst r.
  rewrite (executeOperation_no_discovery _ _ _ Hhd).
  destruct (handed_over
              (acquireSessionAndExecute W topology operation userCallback
                 st)) as (-> & _).
  assert (Hrefl : sessionKept (Some s) (Some s)).
  { unfold sessionKept. intuition lia. }
  assert (Hrun : forall st0,
            session st0 = Some s ->
            sessionKept (Some s)
              (session (finalState
                 (executeAndRelease W topology operation None userCallback
                    st0)))).
  { intros st0 H0.
    destruct (executeAndRelease_state topology operation None st0) as [H _].
    rewrite ownedBy_None in H. rewrite H.
    pose proof (inner_profile topology operation st0) as Hp.
    cbv zeta in Hp. destruct Hp as (_ & _ & _ & Hkept & _).
    rewrite H0 in Hkept. exact Hkept. }
  remember (sessionKept (Some s)) as kept eqn:Hk. clear Hk.
  destruct st as [sess wr ns na ny].
  unfold acquireSessionAndExecute, setSession, bind; cbn.
  rewrite Hs.
  destruct (hasSessionSupport topology); cbn.
  - destruct (hasEnded s); [exact Hrefl|].
    destruct (snapshotEnabled s && negb (supportsSnapshotReads topology));
      [exact Hrefl|].
    match goal with
    | |- context [executeAndRelease W ?t ?op ?o userCallback ?s0] =>
        pose proof (Hrun s0 eq_refl) as H;
        unfold finalState in H |- *;
        destruct (executeAndRelease W t op o userCallback s0) as [[? ?] ?]
    end.
    exact H.
  - exact Hrefl.
Qed.

(** X19. When [shouldCheckForSessionSupport()] asks for a discovery round
    and the server selection of that round reports an error, the caller
    receives that error and nothing else has been done: no session was
    started, no attempt made, and the selection was made with read
    preference [primaryPreferred]. *)
Theorem discovery_error_surfaces topology operation st rest e srv :
  sessionSupportChecks W = true :: rest ->
  selectReply W (selections st) = SelectCalls (Some e) srv ->
  executeOperation W topology operation st =
  ([SelectServer (byReadPreference ReadPreference.primaryPreferred);
    Callback (Some e) None],
   mkState (session st) (willRetryWriteOption st) (S (selections st))
     (attempts st) (symbols st),
   Normal tt).
Proof.
  intros Hchecks Hsel.
  unfold executeOperation. rewrite Hchecks.
  rewrite executeOperationFrom_true. unfold selectServer.
  rewrite Hsel. reflexivity.
Qed.

(** X20. One execution makes at most two server selections beyond its
    discovery rounds: the number of [selectServer] calls of
    [executeOperation] is at most the number of answers
    [shouldCheckForSessionSupport()] has to give, plus two. *)
Theorem selections_bounded topology operation st :
  let r := executeOperation W topology operation st in
  (count isSelectServer (trace r) <=
   List.length (sessionSupportChecks W) + 2)%nat.
Proof.
  intros r; subst r. unfold executeOperation.
  assert (Hrel : forall o s0,
    (count isSelectServer
       (trace (executeAndRelease W topology operation o userCallback s0))
     <= 2)%nat).
  { intros o s0. rewrite executeAndRelease_count.
    - destruct (inner_profile topology operation s0) as (_ & _ & H & _).
      exact H.
    - intros ev; destruct ev; cbn; congruence. }
  assert (Hbase : forall st0,
    (count isSelectServer
       (trace (acquireSessionAndExecute W topology operation userCallback st0))
     <= 2)%nat).
  { intros st0. destruct st0 as [sess wr ns na ny].
    unfold acquireSessionAndExecute, startSession, setSession, bind; cbn.
    destruct (hasSessionSupport topology);
      destruct (opSession operation) as [s|]; cbn.
    1: destruct (hasEnded s); [unfold count; cbn; lia|];
       destruct (snapshotEnabled s && negb (supportsSnapshotReads topology));
         [unfold count; cbn; lia|].
    3: unfold count; cbn; lia.
    all: match goal with
         | |- context [executeAndRelease W ?t ?op ?o userCallback ?s0] =>
             pose proof (Hrel o s0) as H; unfold trace in H |- *;
             destruct (executeAndRelease W t op o userCallback s0)
               as [[? ?] ?]
         end;
         unfold count in *; cbn in *; exact H. }
  assert (Hbase' : forall checks0 st0,
    hd false checks0 = false ->
    (count isSelectServer
       (trace (executeOperationFrom W checks0 topology operation userCallback
                 st0))
     <= 2)%nat).
  { intros checks0 st0 Hhd.
    rewrite (executeOperationFrom_base _ _ _ _ Hhd).
    rewrite handed_over_count by reflexivity. apply Hbase. }
  generalize (sessionSupportChecks W) as checks.
  intros checks; revert st; induction checks as [|b rest IH]; intros st.
  - apply Nat.le_trans with 2%nat; [exact (Hbase' [] st eq_refl)|cbn; lia].
  - destruct b.
    + rewrite executeOperationFrom_true. unfold selectServer.
      destruct (selectReply W (selections st)) as [e|[e|] srv].
      * unfold count; cbn. lia.
      * unfold count; cbn. lia.
      * match goal with
        | |- context [executeOperationFrom W rest ?t ?op userCallback ?s0] =>
            pose proof (IH s0) as H;
            unfold trace in H |- *;
            destruct (executeOperationFrom W rest t op userCallback s0)
              as [[? ?] ?]
        end.
        unfold count in *; cbn in *. lia.
    + apply Nat.le_trans with 2%nat;
        [exact (Hbase' (false :: rest) st eq_refl)|cbn; lia].
Qed.

(** ** What the caller receives after the teardown *)

Lemma surfaced_cons (ev : Event TResult) (t : list (Event TResult)) :
  isCallback ev = false -> surfaced (ev :: t) = surfaced t.
Proof.
  intros Hev. unfold surfaced. cbn.
  destruct (splitCallback t) as [[[pre e] r]|]; [reflexivity|].
  destruct ev; try reflexivity; discriminate.
Qed.

(** The body of [executeOperation] for an operation without a session,
    on a topology with session support: a session is started, and the
    [try] statement runs with its owner tag. *)
Lemma acquireSessionAndExecute_implicit topology operation st :
  hasSessionSupport topology = true ->
  opSession operation = None ->
  acquireSessionAndExecute W topology operation userCallback st =
  let R := executeAndRelease W topology operation (Some (symbols st))
             userCallback (finalState (startSession W st)) in
  (StartSession (symbols st) :: trace R, finalState R, completion R).
Proof.
  intros Hsup Hnone. destruct st as [sess wr ns na ny].
  unfold acquireSessionAndExecute, startSession, setSession, bind; cbn.
  rewrite Hsup, Hnone; cbn.
  unfold trace, finalState, completion, Symbol.
  match goal with
  | |- context [executeAndRelease W ?t ?op ?o userCallback ?s0] =>
      destruct (executeAndRelease W t op o userCallback s0) as [[? ?] ?]
  end.
  reflexivity.
Qed.

(** C2, amended. When [executeOperation] started the session itself and
    the inner state machine called back with [(e, res)], the session is
    ended once, and the caller receives the end-session error if there is
    one, alone: it replaces a successful result, and it replaces the
    execution error [e] as well.  Only when ending the session yields no
    error does the caller receive the execution error, alone, or, without
    one, the result. *)
Theorem end_session_error_surfaces topology operation st e res :
  let inner :=
    executeWithServerSelection W topology operation userCallback
      (finalState (startSession W st)) in
  let r := executeOperation W topology operation st in
  hd false (sessionSupportChecks W) = false ->
  hasSessionSupport topology = true ->
  opSession operation = None ->
  surfaced (trace inner) = Some (e, res) ->
  count isEndSession (trace r) = 1%nat /\
  surfaced (trace r) =
    Some (match endSessionReply W with
          | Some endSessionError => (Some endSessionError, None)
          | None =>
              match e with
              | Some executionError => (Some executionError, None)
              | None => (None, res)
              end
          end).
Proof.
  intros inner r Hhd Hsup Hnone Hs. subst r.
  rewrite (executeOperation_no_discovery _ _ _ Hhd).
  rewrite handed_over_count by reflexivity.
  rewrite handed_over_surfaced
    by apply acquireSessionAndExecute_callbacks.
  assert (Hown : ownedBy (session (finalState (startSession W st)))
                   (Some (symbols st)) = true).
  { cbn. apply Nat.eqb_refl. }
  destruct (executeAndRelease_surfaces topology operation
              (Some (symbols st)) (finalState (startSession W st)) e res
              Hown Hs) as [Hend Hsurf].
  rewrite (acquireSessionAndExecute_implicit _ _ _ Hsup Hnone).
  cbv zeta.
  set (R := executeAndRelease W topology operation (Some (symbols st))
              userCallback (finalState (startSession W st))) in *.
  change (trace (StartSession (symbols st) :: trace R, finalState R,
                 completion R))
    with (StartSession (symbols st) :: trace R).
  rewrite surfaced_cons by reflexivity. rewrite Hsurf. split.
  - exact Hend.
  - destruct (endSessionReply W); [reflexivity|].
    destruct e; reflexivity.
Qed.

End Properties.

(** * The theorems at work, and where the code departs from its
      description *)

(** A retried write: two attempts, both with the incremented number. *)
Example retried_write :
  trace (executeOperation Sample.retryWorld Sample.topology Sample.insertOne
           initialState) =
  [SelectServer (byReadPreference ReadPreference.primary);
   IncrementTransactionNumber;
   Execute Sample.primaryServer (Some 8);
   SelectServer (byReadPreference ReadPreference.primary);
   Execute Sample.otherServer (Some 8);
   Callback None (Some "ok")].
Proof. reflexivity. Qed.

Lemma at_most_two_attempts_witness :
  surfaced
    (trace (executeWithServerSelection Sample.retryWorld Sample.topology
              Sample.insertOne userCallback Sample.explicitState)) =
  Some (None, Some "ok").
Proof.
  destruct (at_most_two_attempts Sample.retryWorld Sample.topology
              Sample.insertOne Sample.explicitState) as (_ & _ & _ & H).
  destruct (H eq_refl) as (_ & H2).
  exact (H2 None (Some "ok") eq_refl).
Defined.

Lemma transaction_requires_primary_witness :
  executeWithServerSelection Sample.retryWorld Sample.topology
    Sample.findOnSecondary userCallback
    (mkState (Some Sample.transactionSession) false 0 0 0) =
  ([Callback
      (Some (transactionReadPreferenceError ReadPreference.secondary)) None],
   mkState (Some Sample.transactionSession) false 0 0 0, Normal tt).
Proof.
  destruct (transaction_requires_primary Sample.retryWorld Sample.topology
              Sample.findOnSecondary ReadPreference.secondary
              Sample.transactionSession false 0%nat 0%nat 0%nat
              eq_refl eq_refl eq_refl) as (_ & H & _).
  exact H.
Defined.

(** C5. A retry-armed write meets the legacy refusal as the server sends
    it, with code 20, the text about transaction numbers and no error
    label.  For a server at wire version 13 that is not a retryable write
    error, so the retry policy hands it on unchanged before it gets to
    the remap written for it: the caller receives the refusal itself, not
    the canonical text; no second attempt is made. *)
Theorem legacy_refusal_not_remapped :
  writeRetryArmed Sample.legacyWorld Sample.topology Sample.insertOne
    Sample.explicitState = true /\
  executeReply Sample.legacyWorld 0 =
    ExecuteCalls (Some Sample.legacyRefusal) None /\
  codeIs Sample.legacyRefusal MMAPv1_RETRY_WRITES_ERROR_CODE = true /\
  testTransactionNumbers (errmsg Sample.legacyRefusal) = true /\
  isRetryableWriteError Sample.legacyWorld Sample.legacyRefusal
    (maxWireVersion (Some Sample.primaryServer)) = false /\
  surfaced
    (trace (executeWithServerSelection Sample.legacyWorld Sample.topology
              Sample.insertOne userCallback Sample.explicitState)) =
    Some (Some Sample.legacyRefusal, None) /\
  trace (executeOperation Sample.legacyWorld Sample.topology Sample.insertOne
           initialState) =
    [SelectServer (byReadPreference ReadPreference.primary);
     IncrementTransactionNumber;
     Execute Sample.primaryServer (Some 8);
     Callback (Some Sample.legacyRefusal) None] /\
  message Sample.legacyRefusal <> MMAPv1_RETRY_WRITES_ERROR_MESSAGE.
Proof.
  repeat split; try reflexivity. discriminate.
Qed.

(** The remap at work, on a refusal that carries the label of a
    retryable write error. *)
Lemma legacy_refusal_remapped_witness :
  surfaced
    (trace (executeWithServerSelection Sample.labelledWorld Sample.topology
              Sample.insertOne userCallback Sample.explicitState)) =
  Some (Some (remappedError Sample.labelledRefusal), None).
Proof.
  destruct (legacy_refusal_remapped Sample.labelledWorld Sample.topology
              Sample.insertOne Sample.explicitSession false 0%nat 0%nat 0%nat
              Sample.primaryServer Sample.labelledRefusal None
              eq_refl eq_refl eq_refl eq_refl eq_refl eq_refl eq_refl
              (fun _ => eq_refl) eq_refl eq_refl) as (H & _).
  exact H.
Defined.

(** C6. A retry-armed read fails on the network and the second server
    selection yields neither an error nor a server: the capability check
    runs first, on the absent server, and the caller is told that the
    selected server does not support retryable reads. *)
Theorem reselection_without_server :
  selectReply Sample.noServerOnRetryWorld 1 = SelectCalls None None /\
  surfaced
    (trace (executeWithServerSelection Sample.noServerOnRetryWorld
              Sample.topology Sample.find userCallback Sample.explicitState)) =
  Some (Some (newError MongoUnexpectedServerResponseErrorC
                "Selected server does not support retryable reads"),
        None).
Proof.
  split; reflexivity.
Qed.

(** C2 as stated fails: the attempt fails with a duplicate-key error,
    ending the implicit session fails too, and the caller is handed the
    end-session error, not the error of the execution. *)
Lemma end_session_error_shadows_execution_error :
  surfaced
    (trace (executeWithServerSelection Sample.teardownWorld Sample.topology
              Sample.insertWithoutSession userCallback Sample.implicitState)) =
    Some (Some Sample.duplicateKey, None) /\
  endSessionReply Sample.teardownWorld = Some Sample.endError /\
  trace (executeOperation Sample.teardownWorld Sample.topology
           Sample.insertWithoutSession initialState) =
    [StartSession 0%nat;
     SelectServer (byReadPreference ReadPreference.primary);
     IncrementTransactionNumber;
     Execute Sample.primaryServer (Some 1);
     EndSession;
     Callback (Some Sample.endError) None] /\
  Sample.endError <> Sample.duplicateKey.
Proof.
  repeat split; try reflexivity. discriminate.
Qed.

Lemma end_session_error_surfaces_witness :
  count isEndSession
    (trace (executeOperation Sample.teardownWorld Sample.topology
              Sample.insertWithoutSession initialState)) = 1%nat /\
  surfaced
    (trace (executeOperation Sample.teardownWorld Sample.topology
              Sample.insertWithoutSession initialState)) =
  Some (Some Sample.endError, None).
Proof.
  exact (end_session_error_surfaces Sample.teardownWorld Sample.topology
           Sample.insertWithoutSession initialState
           (Some Sample.duplicateKey) None eq_refl eq_refl eq_refl eq_refl).
Defined.

(** The attempt succeeds and ending the implicit session fails: the [try]
    statement hands on the end-session error together with the result,
    and the caller receives the error alone. *)
Example end_session_error_replaces_result :
  surfaced
    (trace (executeAndRelease Sample.teardownAfterSuccessWorld
              Sample.topology Sample.insertWithoutSession (Some 0%nat)
              userCallback Sample.implicitState)) =
    Some (Some Sample.endError, Some "ok") /\
  surfaced
    (trace (executeOperation Sample.teardownAfterSuccessWorld
              Sample.topology Sample.insertWithoutSession initialState)) =
    Some (Some Sample.endError, None).
Proof.
  split; reflexivity.
Qed.

(** C8 as stated fails: on a topology without session support a passed
    session that has ended is refused with a compatibility error, not
    with an expired-session error; and on a topology with session support
    but without snapshot reads, a passed session that asks for snapshot
    reads and has ended is refused with an expired-session error, not
    with a compatibility error. *)
Lemma ended_session_without_session_support :
  (opSession Sample.insertWithEndedSession = Some Sample.endedSession /\
   hasEnded Sample.endedSession = true /\
   hasSessionSupport Sample.topologyWithoutSessions = false /\
   trace (executeOperation Sample.retryWorld Sample.topologyWithoutSessions
            Sample.insertWithEndedSession initialState) =
     [Callback
        (Some (newError MongoCompatibilityErrorC
                 "Current topology does not support sessions")) None] /\
   MongoCompatibilityErrorC <> MongoExpiredSessionErrorC) /\
  (opSession Sample.findWithEndedSnapshotSession =
     Some Sample.endedSnapshotSession /\
   snapshotEnabled Sample.endedSnapshotSession = true /\
   supportsSnapshotReads Sample.topologyWithoutSnapshots = false /\
   trace (executeOperation Sample.retryWorld Sample.topologyWithoutSnapshots
            Sample.findWithEndedSnapshotSession initialState) =
     [Callback
        (Some (newError MongoExpiredSessionErrorC
                 "Use of expired sessions is not permitted")) None] /\
   MongoExpiredSessionErrorC <> MongoCompatibilityErrorC).
Proof.
  repeat split; try reflexivity; discriminate.
Qed.

Lemma session_acquisition_fails_fast_witness :
  acquireSessionAndExecute Sample.retryWorld Sample.topology
    Sample.insertWithEndedSession userCallback initialState =
  ([Callback
      (Some (newError MongoExpiredSessionErrorC
               "Use of expired sessions is not permitted")) None],
   mkState (Some Sample.endedSession) false 0 0 0, Normal tt).
Proof.
  destruct (session_acquisition_fails_fast Sample.retryWorld Sample.topology
              Sample.insertWithEndedSession initialState) as (H & _).
  exact (H Sample.endedSession eq_refl eq_refl eq_refl).
Defined.

Lemma synchronous_throw_swallowed_witness :
  completion
    (executeAndRelease Sample.throwingWorld Sample.topology
       Sample.insertWithoutSession (Some 0%nat) userCallback
       Sample.implicitState) = Normal tt /\
  trace
    (executeAndRelease Sample.throwingWorld Sample.topology
       Sample.insertWithoutSession (Some 0%nat) userCallback
       Sample.implicitState) =
  [SelectServer (byReadPreference ReadPreference.primary);
   IncrementTransactionNumber;
   Execute Sample.primaryServer (Some 1);
   EndSession].
Proof.
  destruct (synchronous_throw_swallowed Sample.throwingWorld Sample.topology
              Sample.insertWithoutSession (Some 0%nat) Sample.implicitState
              Sample.typeError eq_refl) as (H1 & _ & _ & H2 & _).
  split; [exact H1|exact H2].
Defined.

Lemma retry_gates_witness :
  willRetryWriteOption
    (finalState
       (executeWithServerSelection Sample.retryWorld Sample.topology
          Sample.insertOne userCallback Sample.explicitState)) = true.
Proof.
  destruct (retry_gates Sample.retryWorld Sample.topology false
              Sample.primaryServer Sample.insertOne) as (_ & _ & H).
  destruct (H Sample.explicitSession false 0%nat 0%nat 0%nat
              eq_refl eq_refl eq_refl) as (Hm & _).
  exact Hm.
Defined.

(** * The further properties at work *)

Lemma selection_failure_no_attempt_witness :
  surfaced
    (trace (executeWithServerSelection Sample.noServerWorld Sample.topology
              Sample.insertOne userCallback Sample.explicitState)) =
    Some (Some Sample.selectionError, None) /\
  count isExecute
    (trace (executeWithServerSelection Sample.noServerWorld Sample.topology
              Sample.insertOne userCallback Sample.explicitState)) = 0%nat.
Proof.
  destruct (selection_failure_no_attempt Sample.noServerWorld Sample.topology
              Sample.insertOne Sample.explicitState
              (Some Sample.selectionError) None eq_refl eq_refl
              (fun H => match H in (_ = y) return
                                match y with Some _ => True | None => _ end
                        with eq_refl => I end))
    as (H1 & H2 & _).
  split; [exact H1|exact H2].
Defined.

Lemma first_success_single_attempt_witness :
  surfaced
    (trace (executeWithServerSelection Sample.successWorld Sample.topology
              Sample.insertOne userCallback Sample.explicitState)) =
    Some (None, Some "ok").
Proof.
  destruct (first_success_single_attempt Sample.successWorld Sample.topology
              Sample.insertOne Sample.explicitState Sample.primaryServer
              (Some "ok") eq_refl eq_refl eq_refl) as (H & _).
  exact H.
Defined.

Lemma unarmed_single_attempt_witness :
  surfaced
    (trace (executeWithServerSelection Sample.retryWorld Sample.topology
              Sample.plainInsert userCallback Sample.explicitState)) =
    Some (Some Sample.networkError, None) /\
  count isExecute
    (trace (executeWithServerSelection Sample.retryWorld Sample.topology
              Sample.plainInsert userCallback Sample.explicitState)) = 1%nat.
Proof.
  destruct (unarmed_single_attempt Sample.retryWorld Sample.topology
              Sample.plainInsert Sample.explicitState Sample.primaryServer
              (Some Sample.networkError) None
              eq_refl eq_refl eq_refl eq_refl) as (H1 & H2 & _).
  split; [exact H1|exact H2].
Defined.

Lemma foreign_error_not_retried_witness :
  count isExecute
    (trace (executeWithServerSelection Sample.foreignErrorWorld
              Sample.topology Sample.insertOne userCallback
              Sample.explicitState)) = 1%nat.
Proof.
  destruct (foreign_error_not_retried Sample.foreignErrorWorld Sample.topology
              Sample.insertOne Sample.explicitState Sample.primaryServer
              Sample.typeError None eq_refl eq_refl eq_refl eq_refl)
    as (_ & H & _).
  exact H.
Defined.

Lemma non_retryable_error_not_retried_witness :
  option_map fst
    (surfaced
       (trace (executeWithServerSelection Sample.teardownWorld Sample.topology
                 Sample.insertOne userCallback Sample.explicitState))) =
    Some (Some Sample.duplicateKey).
Proof.
  destruct (non_retryable_error_not_retried Sample.teardownWorld
              Sample.topology Sample.insertOne Sample.explicitState
              Sample.primaryServer Sample.duplicateKey None
              eq_refl eq_refl eq_refl (or_introl (conj eq_refl eq_refl)))
    as (H & _).
  exact H.
Defined.

Lemma reselection_error_surfaces_witness :
  surfaced
    (trace (executeWithServerSelection Sample.reselectionFailsWorld
              Sample.topology Sample.insertOne userCallback
              Sample.explicitState)) =
    Some (Some Sample.selectionError, None).
Proof.
  destruct (reselection_error_surfaces Sample.reselectionFailsWorld
              Sample.topology Sample.insertOne Sample.explicitState
              Sample.selectionError None eq_refl eq_refl) as (H & _).
  exact H.
Defined.

Lemma second_attempt_on_capable_server_witness :
  exists srv1 srv2,
    attemptsOf
      (trace (executeWithServerSelection Sample.retryWorld Sample.topology
                Sample.insertOne userCallback Sample.explicitState)) =
    [Execute srv1 (Some 8); Execute srv2 (Some 8)].
Proof.
  destruct (second_attempt_on_capable_server Sample.retryWorld Sample.topology
              Sample.insertOne Sample.explicitState eq_refl)
    as (srv1 & srv2 & _ & _ & H & _).
  exists srv1, srv2. exact H.
Defined.

Lemma transaction_single_attempt_witness :
  (count isExecute
     (trace (executeWithServerSelection Sample.retryWorld Sample.topology
               Sample.insertOne userCallback Sample.transactionState))
   <= 1)%nat.
Proof.
  destruct (transaction_single_attempt Sample.retryWorld Sample.topology
              Sample.insertOne Sample.transactionSession false
              0%nat 0%nat 0%nat eq_refl) as (H & _).
  exact H.
Defined.

Lemma committed_pinned_session_unpinned_witness :
  exists rest,
    trace (executeWithServerSelection Sample.retryWorld Sample.topology
             Sample.insertOne userCallback Sample.pinnedState) =
    Unpin false :: rest.
Proof.
  destruct (committed_pinned_session_unpinned Sample.retryWorld
              Sample.topology Sample.insertOne Sample.pinnedCommittedSession
              false 0%nat 0%nat 0%nat eq_refl eq_refl eq_refl eq_refl)
    as (H & _).
  exact H.
Defined.

Lemma retryWorld_neverThrows : neverThrows Sample.retryWorld.
Proof.
  split; intros n e; cbn.
  - destruct n as [|[|[|n]]]; discriminate.
  - destruct n as [|[|[|n]]]; discriminate.
Defined.

Lemma callback_exactly_once_witness :
  count isCallback
    (trace (executeOperation Sample.retryWorld Sample.topology
              Sample.insertOne initialState)) = 1%nat.
Proof.
  destruct (callback_exactly_once Sample.retryWorld Sample.topology
              Sample.insertOne initialState retryWorld_neverThrows)
    as (_ & H).
  exact H.
Defined.

Lemma implicit_session_ended_before_callback_witness :
  exists s',
    session
      (finalState (executeOperation Sample.retryWorld Sample.topology
                     Sample.insertWithoutSession initialState)) = Some s' /\
    hasEnded s' = true.
Proof.
  destruct (implicit_session_ended_before_callback Sample.retryWorld
              Sample.topology Sample.insertWithoutSession initialState
              eq_refl eq_refl eq_refl) as (_ & (s' & H1 & H2 & _) & _).
  exists s'. split; [exact H1|exact H2].
Defined.

Lemma explicit_session_left_live_witness :
  sessionKept (Some Sample.explicitSession)
    (session
       (finalState (executeOperation Sample.retryWorld Sample.topology
                      Sample.insertOne initialState))).
Proof.
  exact (explicit_session_left_live Sample.retryWorld Sample.topology
           Sample.insertOne initialState Sample.explicitSession
           eq_refl eq_refl).
Defined.

Lemma discovery_error_surfaces_witness :
  trace (executeOperation Sample.discoveryFailsWorld Sample.topology
           Sample.insertOne initialState) =
  [SelectServer (byReadPreference ReadPreference.primaryPreferred);
   Callback (Some Sample.selectionError) None].
Proof.
  exact (f_equal trace
           (discovery_error_surfaces Sample.discoveryFailsWorld
              Sample.topology Sample.insertOne initialState [] 
              Sample.selectionError None eq_refl eq_refl)).
Defined.

(** * The spec runner's argument marshalling *)

Section SpecRunnerProperties.

Import SpecRunner.

Variable toPropertyKey : JsValue -> Outcome string.
Variable toLowerCase : string -> string.

Lemma lookup_setProperty_same key value fields :
  lookup key (setProperty key value fields) = value.
Proof.
  induction fields as [|[k v] rest IH]; cbn.
  - rewrite String.eqb_refl. reflexivity.
  - destruct (String.eqb k key) eqn:Hk; cbn; rewrite Hk; auto.
Qed.

Lemma lookup_setProperty_other key key' value fields :
  key' <> key ->
  lookup key' (setProperty key value fields) = lookup key' fields.
Proof.
  intros Hne. induction fields as [|[k v] rest IH]; cbn.
  - destruct (String.eqb key key') eqn:Hk; [|reflexivity].
    apply String.eqb_eq in Hk. congruence.
  - destruct (String.eqb k key) eqn:Hk; cbn.
    + apply String.eqb_eq in Hk. subst k.
      destruct (String.eqb key key') eqn:Hk'; [|reflexivity].
      apply String.eqb_eq in Hk'. congruence.
    + destruct (String.eqb k key'); auto.
Qed.

Lemma setProperty_not_nil key value fields :
  setProperty key value fields <> [].
Proof.
  destruct fields as [|[k v] rest]; cbn; [discriminate|].
  destruct (String.eqb k key); discriminate.
Qed.

Lemma setProperty_keys (P : string -> Prop) key value fields :
  P key ->
  Forall (fun kv => P (fst kv)) fields ->
  Forall (fun kv => P (fst kv)) (setProperty key value fields).
Proof.
  intros Hk Hf. induction Hf as [|[k v] rest Hkv Hrest IH]; cbn.
  - constructor; [exact Hk|constructor].
  - destruct (String.eqb k key); constructor; auto.
Qed.

Lemma marshal_cons arguments k rest args options :
  marshal toPropertyKey toLowerCase arguments (k :: rest) args options =
  if String.eqb k "requests" then
    match valueAt arguments k with
    | JsArray items =>
        match mapConvert toPropertyKey items with
        | Returns ops =>
            marshal toPropertyKey toLowerCase arguments rest
              (args ++ [JsArray ops]) options
        | ThrowsTypeError => ThrowsTypeError
        end
    | _ => ThrowsTypeError
    end
  else if String.eqb k "upsert" then
    marshal toPropertyKey toLowerCase arguments rest args
      (setProperty "upsert" (valueAt arguments k) options)
  else if String.eqb k "returnDocument" then
    match valueAt arguments k with
    | JsString s =>
        marshal toPropertyKey toLowerCase arguments rest args
          (setProperty "returnDocument" (JsString (toLowerCase s)) options)
    | _ => ThrowsTypeError
    end
  else marshal toPropertyKey toLowerCase arguments rest
         (args ++ [valueAt arguments k]) options.
Proof. reflexivity. Qed.

(** How a key is classified, by the branch of the loop that takes it. *)
Lemma key_cases k :
  (k = "requests" /\ isOptionKey k = false /\
   String.eqb k "requests" = true /\
   String.eqb "upsert" k = false /\ String.eqb "returnDocument" k = false) \/
  (k = "upsert" /\ isOptionKey k = true /\
   String.eqb k "requests" = false /\ String.eqb k "upsert" = true /\
   String.eqb "upsert" k = true /\ String.eqb "returnDocument" k = false) \/
  (k = "returnDocument" /\ isOptionKey k = true /\
   String.eqb k "requests" = false /\ String.eqb k "upsert" = false /\
   String.eqb k "returnDocument" = true /\
   String.eqb "upsert" k = false /\ String.eqb "returnDocument" k = true) \/
  (isOptionKey k = false /\
   String.eqb k "requests" = false /\ String.eqb k "upsert" = false /\
   String.eqb k "returnDocument" = false /\
   String.eqb "upsert" k = false /\ String.eqb "returnDocument" k = false).
Proof.
  destruct (String.eqb k "requests") eqn:Hreq.
  { apply String.eqb_eq in Hreq. subst k. left. repeat split. }
  destruct (String.eqb k "upsert") eqn:Hup.
  { apply String.eqb_eq in Hup. subst k. right; left. repeat split. }
  destruct (String.eqb k "returnDocument") eqn:Hrd.
  { apply String.eqb_eq in Hrd. subst k. right; right; left. repeat split. }
  right; right; right.
  unfold isOptionKey. rewrite Hup, Hrd.
  rewrite (String.eqb_sym "upsert"), (String.eqb_sym "returnDocument").
  rewrite Hup, Hrd. repeat split.
Qed.

(** What the loop has built when it returns. *)
Lemma marshal_returns arguments ks args options args' options' :
  marshal toPropertyKey toLowerCase arguments ks args options =
    Returns (args', options') ->
  exists positional,
    args' = args ++ positional /\
    Forall2 (positionalFor toPropertyKey arguments)
      (filter (fun k => negb (isOptionKey k)) ks) positional /\
    (Forall (fun kv => isOptionKey (fst kv) = true) options ->
     Forall (fun kv => isOptionKey (fst kv) = true) options') /\
    (existsb isOptionKey ks = true -> options' <> []) /\
    (existsb isOptionKey ks = false -> options' = options) /\
    (options <> [] -> options' <> []) /\
    lookup "upsert" options' =
      (if existsb (String.eqb "upsert") ks
       then valueAt arguments "upsert"
       else lookup "upsert" options) /\
    (if existsb (String.eqb "returnDocument") ks
     then exists s,
            valueAt arguments "returnDocument" = JsString s /\
            lookup "returnDocument" options' = JsString (toLowerCase s)
     else lookup "returnDocument" options' = lookup "returnDocument" options).
Proof.
  revert args options.
  induction ks as [|k rest IH]; intros args options.
  - cbn. intros H; injection H as <- <-.
    exists []. rewrite app_nil_r. repeat split; auto; try constructor.
    discriminate.
  - rewrite marshal_cons. cbn [filter existsb].
    destruct (key_cases k)
      as [(-> & Ho & Hq & Hu' & Hr')
         |[(-> & Ho & Hq & Hu & Hu' & Hr')
          |[(-> & Ho & Hq & Hu & Hr & Hu' & Hr')
           |(Ho & Hq & Hu & Hr & Hu' & Hr')]]].
    + rewrite ?Ho, ?Hq, ?Hu', ?Hr'. cbn [negb orb].
      destruct (valueAt arguments "requests") eqn:Hv; try discriminate.
      destruct (mapConvert toPropertyKey items) as [ops|] eqn:Hm;
        try discriminate.
      intros H. destruct (IH _ _ H) as (pos & -> & Hf & Hrest).
      exists (JsArray ops :: pos). rewrite <- app_assoc.
      split; [reflexivity|]. split; [|exact Hrest].
      constructor; [|exact Hf].
      unfold positionalFor. rewrite Hq. eauto.
    + rewrite ?Ho, ?Hq, ?Hu, ?Hu', ?Hr'. cbn [negb orb].
      intros H.
      destruct (IH _ _ H)
        as (pos & -> & Hf & Hk & Hne & Heq & Hnn & Hup & Hrd).
      exists pos. split; [reflexivity|]. split; [exact Hf|].
      split; [|split; [|split; [|split; [|split]]]].
      * intros Hall. apply Hk.
        apply (setProperty_keys (fun k => isOptionKey k = true));
          [exact Ho|exact Hall].
      * intros _. apply Hnn. apply setProperty_not_nil.
      * discriminate.
      * intros _. apply Hnn. apply setProperty_not_nil.
      * rewrite Hup. destruct (existsb (String.eqb "upsert") rest);
          [reflexivity|apply lookup_setProperty_same].
      * destruct (existsb (String.eqb "returnDocument") rest);
          [exact Hrd|].
        rewrite Hrd. apply lookup_setProperty_other. discriminate.
    + rewrite ?Ho, ?Hq, ?Hu, ?Hr, ?Hu', ?Hr'. cbn [negb orb].
      destruct (valueAt arguments "returnDocument") eqn:Hv;
        try discriminate.
      intros H.
      destruct (IH _ _ H)
        as (pos & -> & Hf & Hk & Hne & Heq & Hnn & Hup & Hrd).
      exists pos. split; [reflexivity|]. split; [exact Hf|].
      split; [|split; [|split; [|split; [|split]]]].
      * intros Hall. apply Hk.
        apply (setProperty_keys (fun k => isOptionKey k = true));
          [exact Ho|exact Hall].
      * intros _. apply Hnn. apply setProperty_not_nil.
      * discriminate.
      * intros _. apply Hnn. apply setProperty_not_nil.
      * destruct (existsb (String.eqb "upsert") rest); [exact Hup|].
        rewrite Hup. apply lookup_setProperty_other. discriminate.
      * destruct (existsb (String.eqb "returnDocument") rest);
          [exact Hrd|].
        exists s. split; [reflexivity|].
        rewrite Hrd. apply lookup_setProperty_same.
    + rewrite ?Ho, ?Hq, ?Hu, ?Hr, ?Hu', ?Hr'. cbn [negb orb].
      intros H.
      destruct (IH _ _ H) as (pos & -> & Hf & Hrest).
      exists (valueAt arguments k :: pos). rewrite <- app_assoc.
      split; [reflexivity|]. split; [|exact Hrest].
      constructor; [|exact Hf].
      unfold positionalFor. rewrite Hq. reflexivity.
Qed.

Lemma convertBulkWriteOperation_throws op :
  convertBulkWriteOperation toPropertyKey op = ThrowsTypeError <->
  operationOk toPropertyKey op = false.
Proof.
  unfold convertBulkWriteOperation, operationOk, isKey.
  destruct op; cbn; try (split; congruence);
    destruct (toPropertyKey _); split; congruence.
Qed.

Lemma mapConvert_throws items :
  mapConvert toPropertyKey items = ThrowsTypeError <->
  requestsOk toPropertyKey (JsArray items) = false.
Proof.
  cbn [requestsOk].
  induction items as [|op rest IH]; cbn [mapConvert forallb].
  - split; discriminate.
  - pose proof (convertBulkWriteOperation_throws op) as Hop.
    destruct (convertBulkWriteOperation toPropertyKey op) as [converted|].
    + assert (Hok : operationOk toPropertyKey op = true).
      { destruct (operationOk toPropertyKey op); [reflexivity|].
        destruct Hop as [_ Hop]. discriminate (Hop eq_refl). }
      rewrite Hok. cbn [andb].
      destruct (mapConvert toPropertyKey rest).
      * split; [discriminate|]. intros H. apply IH in H. discriminate.
      * split; [intros _; apply IH; reflexivity|reflexivity].
    + destruct Hop as [Hop _]. rewrite (Hop eq_refl).
      split; reflexivity.
Qed.

(** The loop throws exactly when one of the keys is malformed, whatever
    it has built so far. *)
Lemma marshal_throws arguments ks args options :
  marshal toPropertyKey toLowerCase arguments ks args options =
    ThrowsTypeError <->
  existsb (malformedAt toPropertyKey arguments) ks = true.
Proof.
  revert args options.
  induction ks as [|k rest IH]; intros args options.
  - cbn. split; discriminate.
  - rewrite marshal_cons. cbn [existsb]. unfold malformedAt at 1.
    destruct (key_cases k)
      as [(-> & Ho & Hq & Hu' & Hr')
         |[(-> & Ho & Hq & Hu & Hu' & Hr')
          |[(-> & Ho & Hq & Hu & Hr & Hu' & Hr')
           |(Ho & Hq & Hu & Hr & Hu' & Hr')]]].
    + rewrite Hq.
      change (String.eqb "requests" "returnDocument") with false.
      cbn [andb orb].
      destruct (valueAt arguments "requests") eqn:Hv;
        try (cbn; split; reflexivity).
      destruct (mapConvert toPropertyKey items) as [ops|] eqn:Hm.
      * assert (Hok : requestsOk toPropertyKey (JsArray items) = true).
        { destruct (requestsOk toPropertyKey (JsArray items)) eqn:Hok; [reflexivity|].
          apply mapConvert_throws in Hok. congruence. }
        rewrite Hok. cbn [negb orb]. apply IH.
      * apply mapConvert_throws in Hm. rewrite Hm.
        cbn. split; reflexivity.
    + rewrite Hq, Hu.
      change (String.eqb "upsert" "returnDocument") with false.
      cbn [andb orb]. apply IH.
    + rewrite Hq, Hu, Hr. cbn [andb orb].
      destruct (valueAt arguments "returnDocument") eqn:Hv;
        try (cbn; split; reflexivity).
      cbn [isJsString negb orb]. apply IH.
    + rewrite Hq, Hu, Hr. cbn [andb orb]. apply IH.
Qed.

(** A falsy value has no keys to enumerate. *)
Lemma falsy_keys arguments :
  truthy arguments = false -> keys arguments = [].
Proof.
  destruct arguments; cbn; try reflexivity; try discriminate.
  destruct s; [reflexivity|discriminate].
Qed.

Lemma hasKey_In key ks :
  In key ks -> existsb (String.eqb key) ks = true.
Proof.
  intros Hin. apply existsb_exists. exists key.
  split; [exact Hin|apply String.eqb_refl].
Qed.

Lemma optionKey_In key ks :
  isOptionKey key = true -> In key ks -> existsb isOptionKey ks = true.
Proof.
  intros Hk Hin. apply existsb_exists. exists key. auto.
Qed.

(** X21.  The arguments [generateArguments] hands to a collection method
    are the values of the test's argument keys other than [upsert] and
    [returnDocument], in the order [Object.keys] lists them (the value
    under [requests] with each of its operations converted), followed by
    one trailing options object exactly when [upsert] or [returnDocument]
    is among the keys; that object holds no other property. *)
Theorem positional_arguments_then_options arguments args :
  generateArguments toPropertyKey toLowerCase arguments = Returns args ->
  exists positional options,
    args = positional ++
           (if existsb isOptionKey (keys arguments)
            then [JsObject options] else []) /\
    Forall2 (positionalFor toPropertyKey arguments)
      (filter (fun k => negb (isOptionKey k)) (keys arguments)) positional /\
    Forall (fun kv => isOptionKey (fst kv) = true) options.
Proof.
  unfold generateArguments.
  destruct (truthy arguments) eqn:Ht.
  - destruct (marshal toPropertyKey toLowerCase arguments (keys arguments) [] [])
      as [[args' options']|] eqn:Hm; [|discriminate].
    destruct (marshal_returns _ _ _ _ _ _ Hm)
      as (pos & -> & Hf & Hk & Hne & Heq & _).
    cbn [app].
    destruct (existsb isOptionKey (keys arguments)).
    + destruct options' as [|o os]; [destruct (Hne eq_refl eq_refl)|].
      cbn. intros H; injection H as <-.
      exists pos, (o :: os).
      split; [reflexivity|]. split; [exact Hf|]. apply Hk. constructor.
    + rewrite (Heq eq_refl). cbn. intros H; injection H as <-.
      exists pos, []. rewrite app_nil_r. split; [reflexivity|].
      split; [exact Hf|constructor].
  - intros H; injection H as <-.
    rewrite (falsy_keys _ Ht). exists [], []. cbn.
    split; [reflexivity|]. split; constructor.
Qed.

(** X22.  When the test's arguments name [upsert], the last argument is
    the options object and its [upsert] is the test's value unchanged;
    when they name [returnDocument], the test's value is a string and
    the options object's [returnDocument] is that string lower-cased. *)
Theorem options_carry_upsert_and_returnDocument arguments args :
  generateArguments toPropertyKey toLowerCase arguments = Returns args ->
  (In "upsert" (keys arguments) ->
   exists positional options,
     args = positional ++ [JsObject options] /\
     lookup "upsert" options = valueAt arguments "upsert") /\
  (In "returnDocument" (keys arguments) ->
   exists positional options s,
     args = positional ++ [JsObject options] /\
     valueAt arguments "returnDocument" = JsString s /\
     lookup "returnDocument" options = JsString (toLowerCase s)).
Proof.
  unfold generateArguments.
  destruct (truthy arguments) eqn:Ht.
  - destruct (marshal toPropertyKey toLowerCase arguments (keys arguments) [] [])
      as [[args' options']|] eqn:Hm; [|discriminate].
    destruct (marshal_returns _ _ _ _ _ _ Hm)
      as (pos & -> & _ & _ & Hne & _ & _ & Hup & Hrd).
    cbn [app]. intros H. split; intros Hin.
    + assert (Ho : options' <> []).
      { apply Hne. apply (optionKey_In "upsert"); [reflexivity|exact Hin]. }
      destruct options' as [|o os]; [destruct (Ho eq_refl)|].
      cbn in H. injection H as <-.
      exists pos, (o :: os). split; [reflexivity|].
      rewrite Hup, (hasKey_In _ _ Hin). reflexivity.
    + assert (Ho : options' <> []).
      { apply Hne.
        apply (optionKey_In "returnDocument"); [reflexivity|exact Hin]. }
      destruct options' as [|o os]; [destruct (Ho eq_refl)|].
      cbn in H. injection H as <-.
      rewrite (hasKey_In _ _ Hin) in Hrd. destruct Hrd as (s & Hv & Hl).
      exists pos, (o :: os), s. auto.
  - intros _. rewrite (falsy_keys _ Ht). split; intros [].
Qed.

(** X23.  [generateArguments] throws a [TypeError] exactly when the
    test has arguments and one of their keys is [requests] with a value
    that is not an array of operations that can be converted (an
    operation can when it is neither [undefined] nor [null] and its name
    can be made a property key), or [returnDocument] with a value that is
    not a string; in every other case it returns. *)
Theorem generateArguments_throws_iff_malformed arguments :
  generateArguments toPropertyKey toLowerCase arguments = ThrowsTypeError <->
  truthy arguments = true /\
  existsb (malformedAt toPropertyKey arguments) (keys arguments) = true.
Proof.
  unfold generateArguments.
  destruct (truthy arguments) eqn:Ht.
  - destruct (marshal toPropertyKey toLowerCase arguments (keys arguments)
                [] []) as [[args' options']|] eqn:Hm.
    + assert (Hnot : existsb (malformedAt toPropertyKey arguments)
                       (keys arguments) = false).
      { destruct (existsb _ (keys arguments)) eqn:He; [|reflexivity].
        apply (marshal_throws _ _ [] []) in He. congruence. }
      rewrite Hnot.
      destruct (0 <? List.length options')%nat; split;
        try discriminate; intros [_ H]; discriminate.
    + apply marshal_throws in Hm. rewrite Hm. split; auto.
  - split; [discriminate|]. intros [H _]. discriminate.
Qed.

End SpecRunnerProperties.

Lemma positional_arguments_then_options_witness :
  exists positional options,
    [SpecRunner.JsObject [("_id", SpecRunner.JsNumber 1)]
     ; SpecRunner.JsObject
         [("$inc", SpecRunner.JsObject [("x", SpecRunner.JsNumber 1)])]
     ; SpecRunner.JsObject
         [("returnDocument", SpecRunner.JsString "after");
          ("upsert", SpecRunner.JsBool true)]]
    = positional ++ [SpecRunner.JsObject options] /\
    Forall2
      (SpecRunner.positionalFor SpecRunner.sampleKey
         SpecRunner.findOneAndUpdateArguments)
      ["filter"; "update"] positional /\
    Forall (fun kv => SpecRunner.isOptionKey (fst kv) = true) options.
Proof.
  exact (positional_arguments_then_options SpecRunner.sampleKey
           SpecRunner.sampleLower SpecRunner.findOneAndUpdateArguments
           _ eq_refl).
Defined.

Lemma options_carry_upsert_and_returnDocument_witness :
  exists positional options s,
    [SpecRunner.JsObject [("_id", SpecRunner.JsNumber 1)]
     ; SpecRunner.JsObject
         [("$inc", SpecRunner.JsObject [("x", SpecRunner.JsNumber 1)])]
     ; SpecRunner.JsObject
         [("returnDocument", SpecRunner.JsString "after");
          ("upsert", SpecRunner.JsBool true)]]
    = positional ++ [SpecRunner.JsObject options] /\
    SpecRunner.JsString "After" = SpecRunner.JsString s /\
    SpecRunner.lookup "returnDocument" options =
      SpecRunner.JsString (SpecRunner.sampleLower s).
Proof.
  destruct (options_carry_upsert_and_returnDocument SpecRunner.sampleKey
              SpecRunner.sampleLower SpecRunner.findOneAndUpdateArguments
              _ eq_refl) as (_ & H).
  apply H. cbn. auto.
Defined.

(** A [bulkWrite] test: the requests are converted one by one and the
    remaining key is passed through; no options object is added. *)
Example bulk_write_arguments :
  SpecRunner.generateArguments SpecRunner.sampleKey SpecRunner.sampleLower
    SpecRunner.bulkWriteArguments =
  SpecRunner.Returns
    [SpecRunner.JsArray
       [SpecRunner.JsObject
          [("insertOne",
            SpecRunner.JsObject
              [("document",
                SpecRunner.JsObject [("_id", SpecRunner.JsNumber 2)])])]];
     SpecRunner.JsObject [("ordered", SpecRunner.JsBool true)]].
Proof. reflexivity. Qed.

(** An operation whose name cannot be made a property key: the
    conversion of the computed key throws. *)
Example unconvertible_name_throws :
  SpecRunner.generateArguments SpecRunner.sampleKey SpecRunner.sampleLower
    (SpecRunner.JsObject
       [("requests",
         SpecRunner.JsArray
           [SpecRunner.JsObject
              [("name",
                SpecRunner.JsObject
                  [("toString", SpecRunner.JsNumber 1);
                   ("valueOf", SpecRunner.JsNumber 2)]);
               ("arguments", SpecRunner.JsObject [])]])]) =
  SpecRunner.ThrowsTypeError.
Proof. reflexivity. Qed.

(** * Wire versions *)

(** X24.  A server supports retryable reads exactly when its wire
    version is at least the lowest wire version the driver supports
    (the one that introduced OP_MSG); an absent server, whose wire
    version is unknown, never does. *)
Theorem retryable_reads_from_min_supported_wire_version :
  supportsRetryableReads None = false /\
  forall server : Server,
    supportsRetryableReads (Some server) = true <->
    MIN_SUPPORTED_WIRE_VERSION <= descriptionMaxWireVersion server.
Proof.
  split; [reflexivity|]. intros server.
  unfold supportsRetryableReads, maxWireVersion, MIN_SUPPORTED_WIRE_VERSION,
    MONGODB_WIRE_VERSION.SUPPORTS_OP_MSG.
  apply Z.leb_le.
Qed.
